(** * MyDosen backend: the presence and location broadcast engine

    A shallow embedding of the socket layer of the backend
    ([sockets/socketManager.js], in its set-keyed and its counter-keyed
    revision), of [utils/geofence.js] and of the endpoints of
    [controllers/trackingController.js] that grant and use the
    permissions ([requestAccess], [handleRequest], [getLocationHistory],
    the callback of [getAllowedDosen]), with the properties the
    specification states about them and further properties of the code.

    JavaScript numbers are IEEE-754 binary64 values: coordinates, radii and
    distances are primitive floats.  Millisecond timestamps ([Date.now()])
    are integers.  [Map]s keyed by strings are [gmap string _], [Set]s of
    socket ids are [gset string]. *)

From Stdlib Require Import ZArith Lia PrimFloat.
From stdpp Require Import gmap strings list fin_maps.
From stdpp Require Import sorting.

Set Warnings "-inexact-float,-register-all,-clear-no-such-hyp".

(* ===================================================================== *)
(** ** utils/geofence.js *)
(* ===================================================================== *)

Module Geofence.

(** A row of the [geofences] table. *)
Record Geofence := mkGeofence {
  name : string;
  latitude : float;
  longitude : float;
  radius_km : float
}.

(** The object [checkGeofence] resolves to. *)
Record GeofenceResult := mkResult {
  isInside : bool;
  locationName : string;
  displayLat : float;
  displayLong : float
}.

(** What a promise of the database helpers settles to. *)
Inductive Settled (A : Type) :=
| Resolved (value : A)
| Rejected (message : string).
Arguments Resolved {A} value.
Arguments Rejected {A} message.

(** [const MASKED_LOCATION = { latitude: -6.2088, longitude: 106.8456,
    locationName: 'Di Luar' }] *)
Definition MASKED_LOCATION_latitude : float := (-6.2088)%float.
Definition MASKED_LOCATION_longitude : float := 106.8456%float.
Definition MASKED_LOCATION_locationName : string := "Di Luar".

(** [Math.PI] *)
Definition Math_PI : float := 3.141592653589793%float.

Section Haversine.
(** The host's [Math.sin], [Math.cos] and [Math.atan2]: ECMAScript
    leaves their results implementation-approximated, so they are
    taken as they come.  [Math.sqrt] is the IEEE operation. *)
Variables Math_sin Math_cos : float -> float.
Variable Math_atan2 : float -> float -> float.

Definition toRad (deg : float) : float :=
  (deg * (Math_PI / 180))%float.

Definition haversineDistance (lat1 lon1 lat2 lon2 : float) : float :=
  let R := 6371%float in
  let dLat := toRad (lat2 - lat1)%float in
  let dLon := toRad (lon2 - lon1)%float in
  let a :=
    (Math_sin (dLat / 2) * Math_sin (dLat / 2) +
     Math_cos (toRad lat1) * Math_cos (toRad lat2) *
     Math_sin (dLon / 2) * Math_sin (dLon / 2))%float in
  let c := (2 * Math_atan2 (PrimFloat.sqrt a) (PrimFloat.sqrt (1 - a)))%float in
  (R * c)%float.

(** The test of the loop body: [distance <= geofence.radius_km]. *)
Definition within (lat long : float) (geofence : Geofence) : bool :=
  PrimFloat.leb
    (haversineDistance lat long (latitude geofence) (longitude geofence))
    (radius_km geofence).

Definition masked : GeofenceResult :=
  {| isInside := false;
     locationName := MASKED_LOCATION_locationName;
     displayLat := MASKED_LOCATION_latitude;
     displayLong := MASKED_LOCATION_longitude |}.

(** [for (const geofence of geofences) { ... return ... }] followed by
    the masking return. *)
Fixpoint scan (lat long : float) (geofences : list Geofence) : GeofenceResult :=
  match geofences with
  | [] => masked
  | geofence :: rest =>
      if within lat long geofence
      then {| isInside := true;
              locationName := name geofence;
              displayLat := lat;
              displayLong := long |}
      else scan lat long rest
  end.

(** [checkGeofence]: the argument [rows] is what
    [await getAll('SELECT * FROM geofences')] settles to; a rejection is
    caught and answered by the masked location. *)
Definition checkGeofence (rows : Settled (list Geofence)) (lat long : float)
  : GeofenceResult :=
  match rows with
  | Resolved geofences => scan lat long geofences
  | Rejected _ => masked
  end.

(** [getMaskedLocation] *)
Definition getMaskedLocation : float * float * string :=
  (MASKED_LOCATION_latitude, MASKED_LOCATION_longitude,
   MASKED_LOCATION_locationName).
End Haversine.

(** The two rows [seedDatabase] inserts, in insertion order. *)
Definition seeded : list Geofence :=
  [ mkGeofence "UNSRI Indralaya" (-3.219741)%float 104.651220%float 2.5%float;
    mkGeofence "UNSRI Palembang" (-2.985028)%float 104.732230%float 1.5%float ].

End Geofence.

(** A host [Math] for running the definitions on concrete samples:
    truncated power series, accurate to well under a metre for the angles
    that occur within a few hundred kilometres of the equator. *)
Module HostMath.
Definition sin (x : float) : float :=
  let x2 := (x * x)%float in
  (x * (1 - x2 / 6 * (1 - x2 / 20 * (1 - x2 / 42))))%float.
Definition cos (x : float) : float :=
  let x2 := (x * x)%float in
  (1 - x2 / 2 * (1 - x2 / 12 * (1 - x2 / 30 * (1 - x2 / 56))))%float.
(** Only the quadrant [x > 0] with [|y / x|] small is used by the
    haversine formula at these distances. *)
Definition atan2 (y x : float) : float :=
  let t := (y / x)%float in
  let t2 := (t * t)%float in
  (t * (1 - t2 * (1 / 3 - t2 * (1 / 5 - t2 * (1 / 7 - t2 / 9)))))%float.

Definition haversineDistance := Geofence.haversineDistance sin cos atan2.
Definition checkGeofence := Geofence.checkGeofence sin cos atan2.
End HostMath.

(* ===================================================================== *)
(** ** JavaScript values at the socket boundary *)
(* ===================================================================== *)

Module Js.

(** An event payload as the handlers receive it. *)
Inductive Value :=
| Undefined
| Null
| Bool (b : bool)
| Num (x : float)
| Str (s : string)
| Obj (fields : list (string * Value)).

Fixpoint field (fields : list (string * Value)) (key : string) : Value :=
  match fields with
  | [] => Undefined
  | (k, v) :: rest => if String.eqb k key then v else field rest key
  end.

(** [data.key]: a [TypeError] ([None]) on [undefined] and [null], the own
    property on an object, [undefined] on the other primitives (none of
    the keys read by the handlers is on their prototypes). *)
Definition get (data : Value) (key : string) : option Value :=
  match data with
  | Undefined | Null => None
  | Obj fields => Some (field fields key)
  | Bool _ | Num _ | Str _ => Some Undefined
  end.

Definition nullish (v : Value) : bool :=
  match v with
  | Undefined | Null => true
  | _ => false
  end.

(** [data.k1 ?? data.k2] *)
Definition alias (data : Value) (k1 k2 : string) : option Value :=
  match get data k1 with
  | None => None
  | Some v => if nullish v then get data k2 else Some v
  end.

(** [!v] *)
Definition falsy (v : Value) : bool :=
  match v with
  | Undefined | Null => true
  | Bool b => negb b
  | Num x => PrimFloat.eqb x 0 || negb (PrimFloat.eqb x x)
  | Str s => String.eqb s ""
  | Obj _ => false
  end.

(** What the host does with a value that is not a string where the code
    needs a string: [Number::toString] in a template literal, and the
    text the SQLite driver compares with a TEXT column when the value is
    bound to a [?] ([None]: bound as NULL, equal to nothing). *)
Record Host := mkHost {
  Math_sin : float -> float;
  Math_cos : float -> float;
  Math_atan2 : float -> float -> float;
  Number_toString : float -> string;
  driver_text : Value -> option string
}.

(** [`${v}`] *)
Definition toString (h : Host) (v : Value) : string :=
  match v with
  | Undefined => "undefined"
  | Null => "null"
  | Bool true => "true"
  | Bool false => "false"
  | Num x => Number_toString h x
  | Str s => s
  | Obj _ => "[object Object]"
  end.

(** A value bound to a [?] that is compared with a TEXT column. *)
Definition bound (h : Host) (v : Value) : option string :=
  match v with
  | Str s => Some s
  | Undefined | Null => None
  | _ => driver_text h v
  end.

End Js.

(* ===================================================================== *)
(** ** config/db.js: the tables the socket layer reads and writes *)
(* ===================================================================== *)

Module Store.

(** [locations]: one row per [user_id] (the primary key). *)
Record LocationRow := mkLocation {
  loc_latitude : float;
  loc_longitude : float;
  loc_position_name : string;
  loc_last_updated : Z
}.

(** Modelled from the spec: the declaration of the [location_history]
    table is not part of the sources; a HistoryRecord is
    {dayOfWeek, calendarDate, zoneName, latitude, longitude, loggedAt}
    per lecturer, and [logged_at] is filled in by the store when the row
    is inserted (the INSERT statement does not pass it).  [logged_date]
    is the UTC day number that the text YYYY-MM-DD denotes, [logged_at]
    the instant [new Date(logged_at + 'Z').getTime()] reads back. *)
Record HistoryRow := mkHistory {
  h_id : string;
  h_dosen_id : string;
  h_day_of_week : Z;
  h_location_name : string;
  h_latitude : float;
  h_longitude : float;
  h_logged_date : Z;
  h_logged_at : Z
}.

(** [tracking_permissions] *)
Record PermissionRow := mkPermission {
  p_id : string;
  p_student_id : string;
  p_lecturer_id : string;
  p_status : string
}.

Record Db := mkDb {
  geofences : list Geofence.Geofence;
  locations : gmap string LocationRow;
  location_history : list HistoryRow;
  tracking_permissions : list PermissionRow;
  users : gmap string string          (* id -> name *)
}.

(** The statements the socket layer and the approval endpoint send. *)
Inductive Statement :=
| SelectGeofences           (* SELECT * FROM geofences *)
| SelectLocationUserId      (* SELECT user_id FROM locations WHERE user_id = ? *)
| UpdateLocations           (* UPDATE locations SET ... WHERE user_id = ? *)
| InsertLocations           (* INSERT INTO locations ... *)
| SelectLastHistory         (* SELECT ... FROM location_history ... ORDER BY logged_at DESC LIMIT 1 *)
| InsertLocationHistory     (* INSERT INTO location_history ... *)
| SelectApprovedPermission  (* SELECT id FROM tracking_permissions WHERE ... status = 'approved' *)
| SelectUserName            (* SELECT name FROM users WHERE id = ? *)
| SelectLocation            (* SELECT latitude, ... FROM locations WHERE user_id = ? *)
| SelectPermissionById      (* SELECT * FROM tracking_permissions WHERE id = ? *)
| UpdatePermissionStatus.   (* UPDATE tracking_permissions SET status = ? WHERE id = ? *)

#[global] Instance Statement_eq_dec : EqDecision Statement.
Proof. solve_decision. Defined.

Definition is_location_write (s : Statement) : bool :=
  match s with
  | UpdateLocations | InsertLocations => true
  | _ => false
  end.

Definition set_locations (f : gmap string LocationRow -> gmap string LocationRow)
    (d : Db) : Db :=
  mkDb (geofences d) (f (locations d)) (location_history d)
       (tracking_permissions d) (users d).

Definition set_location_history (f : list HistoryRow -> list HistoryRow)
    (d : Db) : Db :=
  mkDb (geofences d) (locations d) (f (location_history d))
       (tracking_permissions d) (users d).

Definition set_tracking_permissions
    (f : list PermissionRow -> list PermissionRow) (d : Db) : Db :=
  mkDb (geofences d) (locations d) (location_history d)
       (f (tracking_permissions d)) (users d).

(** [WHERE dosen_id = ? AND day_of_week = ? AND logged_date = ?] *)
Definition same_day (userId : string) (dayOfWeek today : Z) (r : HistoryRow) : bool :=
  String.eqb (h_dosen_id r) userId
  && Z.eqb (h_day_of_week r) dayOfWeek
  && Z.eqb (h_logged_date r) today.

Definition later (best : option HistoryRow) (r : HistoryRow) : option HistoryRow :=
  match best with
  | None => Some r
  | Some b => if Z.ltb (h_logged_at b) (h_logged_at r) then Some r else Some b
  end.

(** [... ORDER BY logged_at DESC LIMIT 1]: a row of the day with the
    greatest [logged_at]; among rows with equal stamps (SQL leaves the
    choice open) the one inserted first. *)
Definition selectLastHistory (d : Db) (userId : string) (dayOfWeek today : Z)
  : option HistoryRow :=
  fold_left
    (fun best r => if same_day userId dayOfWeek today r then later best r else best)
    (location_history d) None.

(** [WHERE student_id = ? AND lecturer_id = ? AND status = 'approved'] *)
Definition approved_for (studentId : string) (lecturer : option string)
    (p : PermissionRow) : bool :=
  String.eqb (p_student_id p) studentId
  && match lecturer with
     | Some l => String.eqb (p_lecturer_id p) l
     | None => false
     end
  && String.eqb (p_status p) "approved".

Definition selectApprovedPermission (d : Db) (studentId : string)
    (lecturer : option string) : option PermissionRow :=
  List.find (approved_for studentId lecturer) (tracking_permissions d).

Definition selectPermissionById (d : Db) (permission_id : string)
  : option PermissionRow :=
  List.find (fun p => String.eqb (p_id p) permission_id) (tracking_permissions d).

(** [UPDATE tracking_permissions SET status = ? WHERE id = ?] *)
Definition updatePermissionStatus (action permission_id : string) (d : Db) : Db :=
  set_tracking_permissions
    (List.map (fun p =>
       if String.eqb (p_id p) permission_id
       then mkPermission (p_id p) (p_student_id p) (p_lecturer_id p) action
       else p))
    d.

Definition lookup_text {A} (m : gmap string A) (key : option string) : option A :=
  match key with
  | Some k => m !! k
  | None => None
  end.

End Store.

(* ===================================================================== *)
(** ** sockets/socketManager.js, the revision that keeps sets of socket ids *)
(* ===================================================================== *)

Module Engine.
Import Store.

(** [socket.user]: the decoded token, with the name read from [users]. *)
Record User := mkUser {
  id : string;
  name : string;
  role : string
}.

(** The [processed] object of [handleLocationUpdate]. *)
Record LocationData := mkLocationData {
  ld_dosen_id : string;
  ld_name : string;
  ld_latitude : float;
  ld_longitude : float;
  ld_position_name : string;
  ld_is_inside : bool;
  ld_last_updated : Z
}.

(** Server-to-client events. *)
Inductive Message :=
| error (message : string)
| dosen_status (dosen_id : Js.Value) (name : string) (is_online : bool)
| dosen_moved (processed : LocationData)
| dosen_moved_last_known (dosen_id : Js.Value) (name : string) (row : LocationRow)
| location_updated (success : bool) (processed : LocationData)
| room_joined (dosen_id : Js.Value) (room : string) (message : string).

(** [socket.emit], [io.to(room).emit], [io.emit]. *)
Inductive Target :=
| ToSocket (socketId : string)
| ToRoom (room : string)
| ToAll.

(** The module-level maps, the adapter's rooms, the database, and what
    the process has sent so far: events, statements, [console.error]
    lines (each list oldest first). *)
Record World := mkWorld {
  onlineDosenMap : gmap string (gset string);
  onlineUsersMap : gmap string (gset string);
  lastSaveTimestamps : gmap string Z;
  rooms : gmap string (gset string);
  db : Db;
  emitted : list (Target * Message);
  issued : list Statement;
  console : list string
}.

Definition set_onlineDosenMap (f : gmap string (gset string) -> gmap string (gset string))
    (w : World) : World :=
  mkWorld (f (onlineDosenMap w)) (onlineUsersMap w) (lastSaveTimestamps w)
          (rooms w) (db w) (emitted w) (issued w) (console w).
Definition set_onlineUsersMap (f : gmap string (gset string) -> gmap string (gset string))
    (w : World) : World :=
  mkWorld (onlineDosenMap w) (f (onlineUsersMap w)) (lastSaveTimestamps w)
          (rooms w) (db w) (emitted w) (issued w) (console w).
Definition set_lastSaveTimestamps (f : gmap string Z -> gmap string Z)
    (w : World) : World :=
  mkWorld (onlineDosenMap w) (onlineUsersMap w) (f (lastSaveTimestamps w))
          (rooms w) (db w) (emitted w) (issued w) (console w).
Definition set_rooms (f : gmap string (gset string) -> gmap string (gset string))
    (w : World) : World :=
  mkWorld (onlineDosenMap w) (onlineUsersMap w) (lastSaveTimestamps w)
          (f (rooms w)) (db w) (emitted w) (issued w) (console w).
Definition set_db (f : Db -> Db) (w : World) : World :=
  mkWorld (onlineDosenMap w) (onlineUsersMap w) (lastSaveTimestamps w)
          (rooms w) (f (db w)) (emitted w) (issued w) (console w).
Definition set_emitted (f : list (Target * Message) -> list (Target * Message))
    (w : World) : World :=
  mkWorld (onlineDosenMap w) (onlineUsersMap w) (lastSaveTimestamps w)
          (rooms w) (db w) (f (emitted w)) (issued w) (console w).
Definition set_issued (f : list Statement -> list Statement) (w : World) : World :=
  mkWorld (onlineDosenMap w) (onlineUsersMap w) (lastSaveTimestamps w)
          (rooms w) (db w) (emitted w) (f (issued w)) (console w).
Definition set_console (f : list string -> list string) (w : World) : World :=
  mkWorld (onlineDosenMap w) (onlineUsersMap w) (lastSaveTimestamps w)
          (rooms w) (db w) (emitted w) (issued w) (f (console w)).

(** What one run of a handler reads from outside the process: the host,
    which statements the database rejects (and with what message), and
    the clocks.  [date_emit]
    is the [new Date()] of the payload, [date_now] the [Date.now()] of the
    persistence step, [date_log] the [new Date()] of the history step,
    [tz_offset] what local time adds to UTC (ms), [current_timestamp]
    the store's CURRENT_TIMESTAMP (ms), [uuid] the next [uuidv4()]. *)
Record Env := mkEnv {
  host : Js.Host;
  rejects : Statement -> option string;
  date_emit : Z;
  date_now : Z;
  date_log : Z;
  tz_offset : Z;
  current_timestamp : Z;
  uuid : string
}.

(** *** Presence *)

(** [`room:dosen_${id}`] *)
Definition room_of (idText : string) : string := "room:dosen_" ++ idText.

(** [map.get(key) || new Set()] *)
Definition sockets_or_new (m : gmap string (gset string)) (key : string) : gset string :=
  match m !! key with
  | Some sockets => sockets
  | None => ∅
  end.

(** [socket.join(room)] *)
Definition socket_join (room socketId : string) (w : World) : World :=
  set_rooms (fun r => <[room := {[socketId]} ∪ sockets_or_new r room]> r) w.

(** [socket.leave(room)]: the adapter drops a room that becomes empty. *)
Definition socket_leave (room socketId : string) (w : World) : World :=
  set_rooms (fun r =>
    match r !! room with
    | None => r
    | Some members =>
        if decide (members ∖ {[socketId]} = ∅) then delete room r
        else <[room := members ∖ {[socketId]}]> r
    end) w.

Definition emit (to : Target) (m : Message) (w : World) : World :=
  set_emitted (fun l => l ++ [(to, m)]) w.

Definition console_error (line : string) (w : World) : World :=
  set_console (fun l => l ++ [line]) w.

Definition isDosenOnline (w : World) (dosenId : string) : bool :=
  match onlineDosenMap w !! dosenId with
  | Some sockets => bool_decide (0 < size sockets)
  | None => false
  end.

Definition isUserOnline (w : World) (userId : string) : bool :=
  match onlineUsersMap w !! userId with
  | Some sockets => bool_decide (0 < size sockets)
  | None => false
  end.

Definition handleDosenConnection (socketId : string) (user : User) (w : World) : World :=
  let w := socket_join (room_of (id user)) socketId w in
  let dosenKey := id user in
  let dosenSockets := {[socketId]} ∪ sockets_or_new (onlineDosenMap w) dosenKey in
  let w := set_onlineDosenMap (fun m => <[dosenKey := dosenSockets]> m) w in
  let userKey := id user in
  let userSockets := {[socketId]} ∪ sockets_or_new (onlineUsersMap w) userKey in
  let w := set_onlineUsersMap (fun m => <[userKey := userSockets]> m) w in
  if decide (size dosenSockets = 1)
  then emit ToAll (dosen_status (Js.Str (id user)) (name user) true) w
  else w.

Definition handleMahasiswaConnection (socketId : string) (user : User) (w : World) : World :=
  let userKey := id user in
  let userSockets := {[socketId]} ∪ sockets_or_new (onlineUsersMap w) userKey in
  set_onlineUsersMap (fun m => <[userKey := userSockets]> m) w.

Definition handleDisconnect (socketId : string) (user : User) (w : World) : World :=
  let userKey := id user in
  let w :=
    match onlineUsersMap w !! userKey with
    | Some userSockets =>
        let userSockets := userSockets ∖ {[socketId]} in
        if decide (size userSockets = 0)
        then set_onlineUsersMap (delete userKey) w
        else set_onlineUsersMap (fun m => <[userKey := userSockets]> m) w
    | None => w
    end in
  if String.eqb (role user) "dosen" then
    let dosenKey := id user in
    match onlineDosenMap w !! dosenKey with
    | Some dosenSockets =>
        let dosenSockets := dosenSockets ∖ {[socketId]} in
        if decide (size dosenSockets = 0)
        then emit ToAll (dosen_status (Js.Str (id user)) (name user) false)
               (set_onlineDosenMap (delete dosenKey) w)
        else set_onlineDosenMap (fun m => <[dosenKey := dosenSockets]> m) w
    | None => w
    end
  else w.

(** The body of [io.on('connection', ...)] that touches the registry
    (the inactivity timer of a dosen socket is a matter of real time and
    is left out). *)
Definition on_connection (socketId : string) (user : User) (w : World) : World :=
  let w := if String.eqb (role user) "dosen"
           then handleDosenConnection socketId user w else w in
  if String.eqb (role user) "mahasiswa"
  then handleMahasiswaConnection socketId user w else w.

(** [socket.on('disconnect', ...)]. *)
Definition on_disconnect (socketId : string) (user : User) (w : World) : World :=
  handleDisconnect socketId user w.

(** *** Asynchronous handlers

    A handler runs on the world and either returns or throws; between
    its [await]s nothing else is interleaved in this model. *)

Inductive Outcome (A : Type) :=
| Returned (a : A)
| Thrown (message : string).
Arguments Returned {A} a.
Arguments Thrown {A} message.

Definition Async (A : Type) : Type := World -> Outcome A * World.

Definition ret {A} (a : A) : Async A := fun w => (Returned a, w).

Definition bind {A B} (m : Async A) (k : A -> Async B) : Async B :=
  fun w =>
    match m w with
    | (Returned a, w') => k a w'
    | (Thrown e, w') => (Thrown e, w')
    end.

Definition throw {A} (e : string) : Async A := fun w => (Thrown e, w).

(** [try { body } catch (error) { handler(error.message) }] *)
Definition try_catch {A} (body : Async A) (handler : string -> Async A) : Async A :=
  fun w =>
    match body w with
    | (Returned a, w') => (Returned a, w')
    | (Thrown e, w') => handler e w'
    end.

Definition effect (f : World -> World) : Async unit :=
  fun w => (Returned tt, f w).

Definition read {A} (f : World -> A) : Async A :=
  fun w => (Returned (f w), w).

Notation "'let*' x ':=' m 'in' k" := (bind m (fun x => k))
  (at level 10, x pattern, m at level 100, k at level 200).
Notation "m ';;' k" := (bind m (fun _ => k))
  (at level 100, k at level 200, right associativity).

(** [data.k1 ?? data.k2] inside a [try]. *)
Definition js_alias (data : Js.Value) (k1 k2 : string) : Async Js.Value :=
  match Js.alias data k1 k2 with
  | Some v => ret v
  | None => throw "Cannot read properties of undefined"
  end.

(** [await getOne/getAll/runQuery(...)]: the statement is sent; the
    database either rejects it or runs it. *)
Definition statement {A} (env : Env) (s : Statement) (run : Db -> A * Db) : Async A :=
  fun w =>
    let w := set_issued (fun l => l ++ [s]) w in
    match rejects env s with
    | Some e => (Thrown e, w)
    | None => let '(a, d) := run (db w) in (Returned a, set_db (fun _ => d) w)
    end.

Definition query {A} (env : Env) (s : Statement) (q : Db -> A) : Async A :=
  statement env s (fun d => (q d, d)).

Definition run_query (env : Env) (s : Statement) (f : Db -> Db) : Async unit :=
  statement env s (fun d => (tt, f d)).

Section Handlers.
Variable env : Env.

Definition LOCATION_SAVE_THROTTLE_MS : Z := 60000%Z.
Definition LOCATION_LOG_THROTTLE_MS : Z := 3600000%Z.

(** [await checkGeofence(lat, long)] of [utils/geofence.js], with its
    [getAll] and its [catch]. *)
Definition checkGeofence (lat long : float) : Async Geofence.GeofenceResult :=
  fun w =>
    let w := set_issued (fun l => l ++ [SelectGeofences]) w in
    let classify :=
      Geofence.checkGeofence (Js.Math_sin (host env)) (Js.Math_cos (host env))
                             (Js.Math_atan2 (host env)) in
    match rejects env SelectGeofences with
    | Some e =>
        (Returned (classify (Geofence.Rejected e) lat long),
         console_error ("Error checking geofence: " ++ e) w)
    | None =>
        (Returned (classify (Geofence.Resolved (geofences (db w))) lat long), w)
    end.

Definition location_row (g : Geofence.GeofenceResult) : LocationRow :=
  mkLocation (Geofence.displayLat g) (Geofence.displayLong g)
             (Geofence.locationName g) (current_timestamp env).

Definition saveLocation (userId : string) (geofenceResult : Geofence.GeofenceResult)
  : Async unit :=
  try_catch
    (let* existing := query env SelectLocationUserId (fun d => locations d !! userId) in
     match existing with
     | Some _ =>
         run_query env UpdateLocations
           (set_locations (fun t => <[userId := location_row geofenceResult]> t))
     | None =>
         run_query env InsertLocations
           (set_locations (fun t => <[userId := location_row geofenceResult]> t))
     end)
    (fun e => effect (console_error ("Error saving location: " ++ e))).

(** [now.getDay()] (local time) and [now.toISOString().split('T')[0]]
    (UTC), the latter as a day number; 1 January 1970 was a Thursday. *)
Definition getDay (now : Z) : Z := ((((now + tz_offset env) / 86400000) + 4) mod 7)%Z.
Definition isoDate (now : Z) : Z := (now / 86400000)%Z.

Definition history_row (userId : string) (dayOfWeek today : Z)
    (g : Geofence.GeofenceResult) : HistoryRow :=
  mkHistory (uuid env) userId dayOfWeek (Geofence.locationName g)
            (Geofence.displayLat g) (Geofence.displayLong g) today
            (current_timestamp env).

(** The decision between [let shouldLog = false] and [if (shouldLog)]. *)
Definition shouldLog (lastLog : option HistoryRow) (now : Z)
    (geofenceResult : Geofence.GeofenceResult) : bool :=
  match lastLog with
  | None => true
  | Some lastLog =>
      let lastLogTime := h_logged_at lastLog in
      let timeSinceLastLog := (now - lastLogTime)%Z in
      let locationChanged :=
        negb (String.eqb (h_location_name lastLog)
                         (Geofence.locationName geofenceResult)) in
      let hourPassed := Z.leb LOCATION_LOG_THROTTLE_MS timeSinceLastLog in
      if locationChanged then true
      else if hourPassed then true
      else false
  end.

Definition logLocationToHistory (userId : string)
    (geofenceResult : Geofence.GeofenceResult) : Async unit :=
  try_catch
    (if negb (Geofence.isInside geofenceResult) then ret tt
     else
       let now := date_log env in
       let dayOfWeek := getDay now in
       let today := isoDate now in
       let* lastLog :=
         query env SelectLastHistory
               (fun d => selectLastHistory d userId dayOfWeek today) in
       if shouldLog lastLog now geofenceResult
       then run_query env InsertLocationHistory
              (set_location_history
                 (fun rows => rows ++ [history_row userId dayOfWeek today geofenceResult]))
       else ret tt)
    (fun e => effect (console_error ("Error logging location to history: " ++ e))).

Definition locationData (user : User) (geofenceResult : Geofence.GeofenceResult)
  : LocationData :=
  mkLocationData (id user) (name user)
    (Geofence.displayLat geofenceResult) (Geofence.displayLong geofenceResult)
    (Geofence.locationName geofenceResult) (Geofence.isInside geofenceResult)
    (date_emit env).

(** [lastSaveTimestamps.get(user.id) || 0] *)
Definition lastSave_or_0 (w : World) (userId : string) : Z :=
  match lastSaveTimestamps w !! userId with
  | Some t => t
  | None => 0%Z
  end.

(** Steps A to D and the acknowledgement, for numeric [lat], [long]. *)
Definition processSample (socketId : string) (user : User) (lat long : float)
  : Async unit :=
  let* geofenceResult := checkGeofence lat long in
  let locationData := locationData user geofenceResult in
  effect (emit (ToRoom (room_of (id user))) (dosen_moved locationData)) ;;
  let now := date_now env in
  let* lastSave := read (fun w => lastSave_or_0 w (id user)) in
  (if Z.leb LOCATION_SAVE_THROTTLE_MS (now - lastSave)%Z
   then saveLocation (id user) geofenceResult ;;
        effect (set_lastSaveTimestamps (fun m => <[id user := now]> m))
   else ret tt) ;;
  logLocationToHistory (id user) geofenceResult ;;
  effect (emit (ToSocket socketId) (location_updated true locationData)).

Definition handleLocationUpdate (socketId : string) (user : User) (data : Js.Value)
  : Async unit :=
  try_catch
    (if negb (String.eqb (role user) "dosen")
     then effect (emit (ToSocket socketId) (error "Only dosen can update location"))
     else
       let* lat := js_alias data "lat" "latitude" in
       let* long := js_alias data "long" "longitude" in
       match lat, long with
       | Js.Undefined, _ | _, Js.Undefined =>
           effect (emit (ToSocket socketId)
                        (error "Latitude and longitude are required"))
       | Js.Num lat, Js.Num long => processSample socketId user lat long
       | _, _ =>
           effect (emit (ToSocket socketId) (error "Invalid coordinate format"))
       end)
    (fun e =>
       effect (console_error ("Location update error: " ++ e)) ;;
       effect (emit (ToSocket socketId) (error "Failed to update location"))).

(** [dosen?.name || 'Unknown'] *)
Definition name_or_unknown (dosen : option string) : string :=
  match dosen with
  | Some n => if String.eqb n "" then "Unknown" else n
  | None => "Unknown"
  end.

Definition handleJoinDosenRoom (socketId : string) (user : User) (data : Js.Value)
  : Async unit :=
  try_catch
    (if negb (String.eqb (role user) "mahasiswa")
     then effect (emit (ToSocket socketId)
                       (error "Only mahasiswa can join dosen tracking rooms"))
     else
       let* dosenId := js_alias data "dosenId" "dosen_id" in
       if Js.falsy dosenId
       then effect (emit (ToSocket socketId) (error "dosen_id is required"))
       else
         let* permission :=
           query env SelectApprovedPermission
                 (fun d => selectApprovedPermission d (id user)
                             (Js.bound (host env) dosenId)) in
         match permission with
         | None =>
             effect (emit (ToSocket socketId)
               (error "Access denied. You do not have permission to track this dosen."))
         | Some _ =>
             let roomName := room_of (Js.toString (host env) dosenId) in
             effect (socket_join roomName socketId) ;;
             let* dosen :=
               query env SelectUserName
                     (fun d => lookup_text (users d) (Js.bound (host env) dosenId)) in
             let dosenName := name_or_unknown dosen in
             let* isOnline :=
               read (fun w => isUserOnline w (Js.toString (host env) dosenId)) in
             effect (emit (ToSocket socketId) (dosen_status dosenId dosenName isOnline)) ;;
             (if isOnline
              then
                let* location :=
                  query env SelectLocation
                        (fun d => lookup_text (locations d)
                                    (Js.bound (host env) dosenId)) in
                match location with
                | Some row =>
                    effect (emit (ToSocket socketId)
                                 (dosen_moved_last_known dosenId dosenName row))
                | None => ret tt
                end
              else ret tt) ;;
             effect (emit (ToSocket socketId)
                          (room_joined dosenId roomName
                                       "Successfully joined tracking room"))
         end)
    (fun e =>
       effect (console_error ("Join room error: " ++ e)) ;;
       effect (emit (ToSocket socketId) (error "Failed to join room"))).

(** [socket.on('leave_dosen_room', ...)] (no [try] around it). *)
Definition on_leave_dosen_room (socketId : string) (data : Js.Value) : Async unit :=
  let* dosenId := js_alias data "dosenId" "dosen_id" in
  if Js.falsy dosenId then ret tt
  else effect (socket_leave (room_of (Js.toString (host env) dosenId)) socketId).

(** [handleRequest] of the tracking controller: a dosen approves or
    rejects a permission request.  The result is the HTTP status. *)
Definition handleRequest (lecturerId : string) (permission_id action : Js.Value)
  : Async Z :=
  try_catch
    (if Js.falsy permission_id || Js.falsy action then ret 400%Z
     else
       match action with
       | Js.Str a =>
           if String.eqb a "approved" || String.eqb a "rejected" then
             let* permission :=
               query env SelectPermissionById
                     (fun d => match Js.bound (host env) permission_id with
                               | Some k => selectPermissionById d k
                               | None => None
                               end) in
             match permission with
             | None => ret 404%Z
             | Some p =>
                 if negb (String.eqb (p_lecturer_id p) lecturerId) then ret 403%Z
                 else
                   run_query env UpdatePermissionStatus
                     (fun d => match Js.bound (host env) permission_id with
                               | Some k => updatePermissionStatus a k d
                               | None => d
                               end) ;;
                   ret 200%Z
             end
           else ret 400%Z
       | _ => ret 400%Z
       end)
    (fun e =>
       effect (console_error ("Handle request error: " ++ e)) ;;
       ret 500%Z).

End Handlers.

End Engine.


(* ===================================================================== *)
(** ** sockets/socketManager.js, the revision that keeps socket counts *)
(* ===================================================================== *)

Module Counted.
Import Engine.

(** [onlineDosenMap] and [onlineUsersMap] map a user id to a number of
    sockets; the rest of the revision is as in [Engine]. *)
Record Registry := mkRegistry {
  onlineDosenMap : gmap string Z;
  onlineUsersMap : gmap string Z;
  rooms : gmap string (gset string);
  emitted : list (Target * Message)
}.

(** [map.get(key) || 0] *)
Definition count_or_0 (m : gmap string Z) (key : string) : Z :=
  match m !! key with
  | Some c => c
  | None => 0%Z
  end.

Definition isDosenOnline (r : Registry) (dosenId : string) : bool :=
  match onlineDosenMap r !! dosenId with
  | Some socketCount => Z.ltb 0 socketCount
  | None => false
  end.

Definition isUserOnline (r : Registry) (userId : string) : bool :=
  match onlineUsersMap r !! userId with
  | Some socketCount => Z.ltb 0 socketCount
  | None => false
  end.

Definition handleDosenConnection (socketId : string) (user : User) (r : Registry)
  : Registry :=
  let dosenRoom := room_of (id user) in
  let rooms' := <[dosenRoom := {[socketId]} ∪ sockets_or_new (rooms r) dosenRoom]> (rooms r) in
  let currentCount := count_or_0 (onlineDosenMap r) (id user) in
  let dosenMap := <[id user := (currentCount + 1)%Z]> (onlineDosenMap r) in
  let userCount := count_or_0 (onlineUsersMap r) (id user) in
  let usersMap := <[id user := (userCount + 1)%Z]> (onlineUsersMap r) in
  mkRegistry dosenMap usersMap rooms'
    (if Z.eqb currentCount 0
     then emitted r ++ [(ToAll, dosen_status (Js.Str (id user)) (name user) true)]
     else emitted r).

Definition handleMahasiswaConnection (socketId : string) (user : User) (r : Registry)
  : Registry :=
  let userCount := count_or_0 (onlineUsersMap r) (id user) in
  mkRegistry (onlineDosenMap r) (<[id user := (userCount + 1)%Z]> (onlineUsersMap r))
             (rooms r) (emitted r).

Definition handleDisconnect (socketId : string) (user : User) (r : Registry) : Registry :=
  let r :=
    if String.eqb (role user) "dosen" then
      let currentCount := count_or_0 (onlineDosenMap r) (id user) in
      let newCount := Z.max 0 (currentCount - 1) in
      if Z.eqb newCount 0
      then mkRegistry (delete (id user) (onlineDosenMap r)) (onlineUsersMap r) (rooms r)
             (emitted r ++ [(ToAll, dosen_status (Js.Str (id user)) (name user) false)])
      else mkRegistry (<[id user := newCount]> (onlineDosenMap r)) (onlineUsersMap r)
             (rooms r) (emitted r)
    else r in
  let currentUserCount := count_or_0 (onlineUsersMap r) (id user) in
  let newUserCount := Z.max 0 (currentUserCount - 1) in
  if Z.eqb newUserCount 0
  then mkRegistry (onlineDosenMap r) (delete (id user) (onlineUsersMap r)) (rooms r) (emitted r)
  else mkRegistry (onlineDosenMap r) (<[id user := newUserCount]> (onlineUsersMap r))
         (rooms r) (emitted r).

Definition on_connection (socketId : string) (user : User) (r : Registry) : Registry :=
  let r := if String.eqb (role user) "dosen"
           then handleDosenConnection socketId user r else r in
  if String.eqb (role user) "mahasiswa"
  then handleMahasiswaConnection socketId user r else r.

Definition on_disconnect (socketId : string) (user : User) (r : Registry) : Registry :=
  handleDisconnect socketId user r.

Definition empty : Registry := mkRegistry ∅ ∅ ∅ [].

End Counted.

(* ===================================================================== *)
(** ** Socket lifecycles *)
(* ===================================================================== *)

Module Lifecycle.
Import Engine.

(** What the transport reports for the sockets of one identity. *)
Inductive Event :=
| Connect (socketId : string)
| Disconnect (socketId : string).

Fixpoint connects (trace : list Event) : nat :=
  match trace with
  | [] => 0
  | Connect _ :: rest => S (connects rest)
  | Disconnect _ :: rest => connects rest
  end.

Fixpoint disconnects (trace : list Event) : nat :=
  match trace with
  | [] => 0
  | Connect _ :: rest => disconnects rest
  | Disconnect _ :: rest => S (disconnects rest)
  end.

(** An interleaving of socket lifecycles: the transport gives every socket
    a fresh id, and reports a disconnect once, for a socket that is
    connected.  [used] are the ids given out so far, [live] the ids of the
    sockets still connected. *)
Fixpoint interleaving (used live : gset string) (trace : list Event) : bool :=
  match trace with
  | [] => true
  | Connect s :: rest =>
      bool_decide (s ∉ used) && interleaving ({[s]} ∪ used) ({[s]} ∪ live) rest
  | Disconnect s :: rest =>
      bool_decide (s ∈ live) && interleaving used (live ∖ {[s]}) rest
  end.

Definition step (user : User) (e : Event) (w : World) : World :=
  match e with
  | Connect s => on_connection s user w
  | Disconnect s => on_disconnect s user w
  end.

Definition replay (user : User) (trace : list Event) (w : World) : World :=
  fold_left (fun w e => step user e w) trace w.

Definition step_counted (user : User) (e : Event) (r : Counted.Registry)
  : Counted.Registry :=
  match e with
  | Connect s => Counted.on_connection s user r
  | Disconnect s => Counted.on_disconnect s user r
  end.

Definition replay_counted (user : User) (trace : list Event) (r : Counted.Registry)
  : Counted.Registry :=
  fold_left (fun r e => step_counted user e r) trace r.

End Lifecycle.

(** The world of a process that has just started, on database [d]. *)
Definition boot (d : Store.Db) : Engine.World :=
  Engine.mkWorld ∅ ∅ ∅ ∅ d [] [] [].

(** A host for running the handlers on concrete payloads: [HostMath]; no
    id in the sample data is a number, so numbers are rendered as the
    empty text and only strings are bound to TEXT columns. *)
Definition sample_host : Js.Host :=
  Js.mkHost HostMath.sin HostMath.cos HostMath.atan2 (fun _ => "") (fun _ => None).

(* ===================================================================== *)
(** ** sockets/socketManager.js: the handshake middleware ([io.use]) *)
(* ===================================================================== *)

Module SocketAuth.
Import Store Engine.

(** What the middleware passes to [next]. *)
Inductive Handshake :=
| Accepted (user : User)
| Refused (message : string).

Section Middleware.
(** [jwt.verify(token, JWT_SECRET)] of the jsonwebtoken package: the
    decoded payload ({id, role, name}, as [login] signs it), or [None]
    when it throws. *)
Variable jwt_verify : Js.Value -> option User.

(** [a || b] *)
Definition js_or (a b : Js.Value) : Js.Value := if Js.falsy a then b else a.

(** The body of [io.use(async (socket, next) => ...)]: [auth_token] is
    [socket.handshake.auth.token], [query_token] is
    [socket.handshake.query.token], [rejected] says whether the database
    rejects the user query. *)
Definition authenticate (rejected : option string) (d : Db)
    (auth_token query_token : Js.Value) : Handshake :=
  let token := js_or auth_token query_token in
  if Js.falsy token then Refused "Authentication token required"
  else
    match jwt_verify token with
    | None => Refused "Invalid authentication token"
    | Some decoded =>
        match rejected with
        | Some _ => Refused "Invalid authentication token"
        | None =>
            match users d !! id decoded with
            | None => Refused "User not found"
            | Some user_name => Accepted (mkUser (id decoded) user_name (role decoded))
            end
        end
    end.

(** A handshake followed, when it is accepted, by the connection handler. *)
Definition connect (rejected : option string) (socketId : string)
    (auth_token query_token : Js.Value) (w : World) : World :=
  match authenticate rejected (db w) auth_token query_token with
  | Accepted user => on_connection socketId user w
  | Refused _ => w
  end.
End Middleware.

End SocketAuth.

(* ===================================================================== *)
(** ** controllers/trackingController.js *)
(* ===================================================================== *)

Module Tracking.
Import Store Engine.

(** The profile tables of [config/db.js] that the controller joins with:
    [mahasiswa] (user_id -> nim) and [dosen] (user_id -> nidn). *)
Record Profiles := mkProfiles {
  mahasiswa : gmap string string;
  dosen : gmap string string
}.

(** The statements of [requestAccess] and [getLocationHistory]. *)
Inductive Query :=
| SelectMahasiswaProfile    (* SELECT user_id FROM mahasiswa WHERE user_id = ? *)
| SelectDosenWithName       (* SELECT d.user_id, u.name FROM dosen d JOIN users u ... *)
| SelectPermissionPair      (* SELECT id, status FROM tracking_permissions WHERE student_id = ? AND lecturer_id = ? *)
| InsertPermission          (* INSERT INTO tracking_permissions (id, student_id, lecturer_id, status) *)
| SelectApprovedPermission  (* SELECT id FROM tracking_permissions WHERE ... status = 'approved' *)
| SelectDosenName           (* SELECT u.name FROM users u JOIN dosen d ON u.id = d.user_id WHERE d.user_id = ? *)
| SelectHistory.            (* SELECT ... FROM location_history WHERE dosen_id = ? ORDER BY day_of_week ASC, logged_at DESC *)

(** What one request reads from outside: the host, which statements the
    database rejects, and the next [generateUUID()]. *)
Record Http := mkHttp {
  host : Js.Host;
  refuses : Query -> option string;
  generateUUID : string
}.

(** One entry of a day's [logs]. *)
Record Log := mkLog {
  location_name : string;
  latitude : float;
  longitude : float;
  logged_at : Z
}.

Record DayHistory := mkDay {
  day_of_week : Z;
  day_name : string;
  logs : list Log
}.

(** [res.status(...).json(...)] *)
Inductive Body :=
| Failure (error : string)
| RequestExists (error status permission_id : string)
| RequestSubmitted (message permission_id lecturer_name : string)
| LocationHistory (dosen_id : Js.Value) (dosen_name : string) (history : list DayHistory).

Record Response := mkResponse {
  status : Z;
  body : Body
}.

(** [await getOne/getAll(...)] of the controller. *)
Definition select {A} (http : Http) (q : Query) (f : Db -> A) : Async A :=
  fun w =>
    match refuses http q with
    | Some e => (Thrown e, w)
    | None => (Returned (f (db w)), w)
    end.

(** [WHERE student_id = ? AND lecturer_id = ?] *)
Definition same_pair (studentId lecturer : string) (p : PermissionRow) : bool :=
  String.eqb (p_student_id p) studentId && String.eqb (p_lecturer_id p) lecturer.

(** [INSERT INTO tracking_permissions ...] under the declarations of the
    table: [id TEXT PRIMARY KEY] and [UNIQUE(student_id, lecturer_id)]. *)
Definition insertPermission (http : Http) (row : PermissionRow) : Async unit :=
  fun w =>
    match refuses http InsertPermission with
    | Some e => (Thrown e, w)
    | None =>
        if existsb (fun p => String.eqb (p_id p) (p_id row)
                             || same_pair (p_student_id row) (p_lecturer_id row) p)
                   (tracking_permissions (db w))
        then (Thrown "SQLITE_CONSTRAINT: UNIQUE constraint failed", w)
        else (Returned tt, set_db (set_tracking_permissions (fun t => t ++ [row])) w)
    end.

(** [... FROM dosen d JOIN users u ON d.user_id = u.id WHERE d.user_id = ?]:
    the name of a user who has a dosen profile. *)
Definition dosen_name (profiles : Profiles) (d : Db) (key : option string) : option string :=
  match key with
  | Some l => match dosen profiles !! l with
              | Some _ => users d !! l
              | None => None
              end
  | None => None
  end.

Definition requestAccess (http : Http) (profiles : Profiles) (user : User)
    (req_body : Js.Value) : Async Response :=
  try_catch
    (let studentId := id user in
     match Js.get req_body "lecturer_id" with
     | None => throw "Cannot destructure property 'lecturer_id'"
     | Some lecturer_id =>
         if Js.falsy lecturer_id
         then ret (mkResponse 400 (Failure "lecturer_id is required"))
         else
           bind (select http SelectMahasiswaProfile (fun _ => mahasiswa profiles !! studentId))
             (fun studentProfile =>
           match studentProfile with
           | None => ret (mkResponse 403 (Failure "Only mahasiswa can request tracking access"))
           | Some _ =>
               bind (select http SelectDosenWithName
                       (fun d => dosen_name profiles d (Js.bound (host http) lecturer_id)))
                 (fun lecturer =>
               match lecturer, Js.bound (host http) lecturer_id with
               | Some lecturer_name, Some l =>
                   bind (select http SelectPermissionPair
                           (fun d => List.find (same_pair studentId l) (tracking_permissions d)))
                     (fun existingRequest =>
                   match existingRequest with
                   | Some existing =>
                       ret (mkResponse 409
                              (RequestExists "Request already exists"
                                             (p_status existing) (p_id existing)))
                   | None =>
                       let permissionId := generateUUID http in
                       bind (insertPermission http
                               (mkPermission permissionId studentId l "pending"))
                         (fun _ =>
                       ret (mkResponse 201
                              (RequestSubmitted "Access request submitted successfully"
                                                permissionId lecturer_name)))
                   end)
               | _, _ => ret (mkResponse 404 (Failure "Dosen not found"))
               end)
           end)
     end)
    (fun e =>
       bind (effect (console_error ("Request access error: " ++ e)))
         (fun _ => ret (mkResponse 500 (Failure "Internal server error")))).

(** [ORDER BY day_of_week ASC, logged_at DESC] *)
Definition history_order (a b : HistoryRow) : Prop :=
  (h_day_of_week a < h_day_of_week b)%Z
  \/ (h_day_of_week a = h_day_of_week b /\ (h_logged_at b <= h_logged_at a)%Z).

#[global] Instance history_order_dec : RelDecision history_order.
Proof. intros a b. unfold history_order. apply _. Defined.

(** [SELECT day_of_week, location_name, latitude, longitude, logged_at
     FROM location_history WHERE dosen_id = ? ORDER BY ...] *)
Definition selectHistory (d : Db) (key : option string) : list HistoryRow :=
  match key with
  | Some dosenId =>
      merge_sort history_order
        (List.filter (fun r => String.eqb (h_dosen_id r) dosenId) (location_history d))
  | None => []
  end.

Definition dayNames : list string :=
  ["Minggu"; "Senin"; "Selasa"; "Rabu"; "Kamis"; "Jumat"; "Sabtu"].

Definition log_of (r : HistoryRow) : Log :=
  mkLog (h_location_name r) (h_latitude r) (h_longitude r) (h_logged_at r).

(** [for (let day = 0; day < 7; day++) historyByDay[day] = []] *)
Definition emptyDays : gmap Z (list Log) :=
  list_to_map (List.map (fun day => (day, [])) [0; 1; 2; 3; 4; 5; 6]%Z).

(** [historyByDay[log.day_of_week].push({...})]: a [TypeError] ([None])
    when the object has no such key. *)
Definition pushLog (historyByDay : gmap Z (list Log)) (r : HistoryRow)
  : option (gmap Z (list Log)) :=
  match historyByDay !! h_day_of_week r with
  | Some day_logs => Some (<[h_day_of_week r := day_logs ++ [log_of r]]> historyByDay)
  | None => None
  end.

(** [history.forEach(log => ...)] *)
Fixpoint groupByDay (historyByDay : gmap Z (list Log)) (history : list HistoryRow)
  : option (gmap Z (list Log)) :=
  match history with
  | [] => Some historyByDay
  | r :: rest =>
      match pushLog historyByDay r with
      | Some next => groupByDay next rest
      | None => None
      end
  end.

(** [for (let day = 0; day < 7; day++) formattedHistory.push({...})] *)
Definition formatHistory (historyByDay : gmap Z (list Log)) : list DayHistory :=
  List.map
    (fun day => mkDay day (nth (Z.to_nat day) dayNames "") (historyByDay !!! day))
    [0; 1; 2; 3; 4; 5; 6]%Z.

(** The tail of [getLocationHistory], once the dosen is known. *)
Definition respondHistory (http : Http) (dosenId : Js.Value) (key : option string)
    (dosenName : string) : Async Response :=
  bind (select http SelectHistory (fun d => selectHistory d key))
    (fun history =>
  match groupByDay emptyDays history with
  | None => throw "Cannot read properties of undefined (reading 'push')"
  | Some historyByDay =>
      ret (mkResponse 200 (LocationHistory dosenId dosenName (formatHistory historyByDay)))
  end).

(** [dosen_id] is [req.query.dosen_id]. *)
Definition getLocationHistory (http : Http) (profiles : Profiles) (user : User)
    (dosen_id : Js.Value) : Async Response :=
  try_catch
    (let userId := id user in
     let userRole := role user in
     if String.eqb userRole "dosen"
     then respondHistory http (Js.Str userId) (Some userId) (name user)
     else if String.eqb userRole "mahasiswa"
     then
       let requestedDosenId := dosen_id in
       if Js.falsy requestedDosenId
       then ret (mkResponse 400
                   (Failure "dosen_id query parameter is required for mahasiswa"))
       else
         bind (select http SelectApprovedPermission
                 (fun d => selectApprovedPermission d userId
                             (Js.bound (host http) requestedDosenId)))
           (fun permission =>
         match permission with
         | None =>
             ret (mkResponse 403
                    (Failure "Access denied. You do not have permission to view this dosen's history."))
         | Some _ =>
             bind (select http SelectDosenName
                     (fun d => dosen_name profiles d (Js.bound (host http) requestedDosenId)))
               (fun dosen =>
             match dosen with
             | None => ret (mkResponse 404 (Failure "Dosen not found"))
             | Some dosenName =>
                 respondHistory http requestedDosenId
                   (Js.bound (host http) requestedDosenId) dosenName
             end)
         end)
     else ret (mkResponse 403
                 (Failure "Only dosen and mahasiswa can view location history")))
    (fun e =>
       bind (effect (console_error ("Get location history error: " ++ e)))
         (fun _ => ret (mkResponse 500 (Failure "Internal server error")))).

(** A row of the query of [getAllowedDosen] (the [locations] columns are
    null when the LEFT JOIN finds no row), and the object its callback
    makes of it. *)
Record ApprovedDosen := mkApprovedDosen {
  ad_user_id : string;
  ad_name : string;
  ad_nidn : string;
  ad_latitude : option float;
  ad_longitude : option float;
  ad_position_name : option string;
  ad_last_updated : option Z
}.

Record DosenCard := mkCard {
  card_user_id : string;
  card_name : string;
  card_nidn : string;
  card_latitude : option float;
  card_longitude : option float;
  card_position_name : string;
  card_last_updated : option Z;
  card_is_online : bool
}.

(** The callback of [approvedDosen.map(async (dosen) => ...)];
    [getOnlineStatus] is the getter [server.js] sets to [isUserOnline],
    or [None] while it is not set. *)
Definition processDosen (env : Env) (getOnlineStatus : option (World -> string -> bool))
    (dosen : ApprovedDosen) : Async DosenCard :=
  bind
    (match ad_latitude dosen, ad_longitude dosen with
     | Some lat, Some long =>
         bind (checkGeofence env lat long)
           (fun geofenceResult =>
              ret (Some (Geofence.displayLat geofenceResult),
                   Some (Geofence.displayLong geofenceResult),
                   Geofence.locationName geofenceResult,
                   ad_last_updated dosen))
     | _, _ => ret (None, None, "Lokasi tidak tersedia", None)
     end)
    (fun locationData =>
       let '(lat, long, position_name, last_updated) := locationData in
       bind (read (fun w => match getOnlineStatus with
                            | Some getter => getter w (ad_user_id dosen)
                            | None => false
                            end))
         (fun isOnline =>
            ret (mkCard (ad_user_id dosen) (ad_name dosen) (ad_nidn dosen)
                        lat long position_name last_updated isOnline))).

End Tracking.

(* ===================================================================== *)
(** ** Auxiliary definitions for the properties *)
(* ===================================================================== *)

(** A zone list on which the first-match policy shows: the seeded
    Indralaya zone, a wide zone around the same centre, and the seeded
    Palembang zone. *)
Definition overlapping : list Geofence.Geofence :=
  [ Geofence.mkGeofence "UNSRI Indralaya" (-3.219741)%float 104.651220%float 2.5%float;
    Geofence.mkGeofence "Sumatera Selatan" (-3.219741)%float 104.651220%float 50%float;
    Geofence.mkGeofence "UNSRI Palembang" (-2.985028)%float 104.732230%float 1.5%float ].

(** The seeded zones and a zone of 5 km around the National Monument in
    Jakarta, where the masked pair points. *)
Definition with_jakarta : list Geofence.Geofence :=
  Geofence.seeded
  ++ [ Geofence.mkGeofence "Monas" (-6.2088)%float 106.8456%float 5%float ].

(** When does [checkGeofence] fall back to the mask: the zones could not
    be read, or none of them contains the sample. *)
Definition unmatched (sin cos : float -> float) (atan2 : float -> float -> float)
    (rows : Geofence.Settled (list Geofence.Geofence)) (lat long : float) : Prop :=
  match rows with
  | Geofence.Rejected _ => True
  | Geofence.Resolved zones =>
      Forall (fun z => Geofence.within sin cos atan2 lat long z = false) zones
  end.

(** *** Presence *)

Section PresenceDefinitions.
Import Engine Lifecycle.

(** What a connection and a disconnection do to the entry of [key] in a
    map of socket-id sets (the shape both [onlineDosenMap] and
    [onlineUsersMap] go through in the handlers). *)
Definition add_socket (key s : string) (m : gmap string (gset string))
  : gmap string (gset string) :=
  <[key := {[s]} ∪ sockets_or_new m key]> m.

Definition remove_socket (key s : string) (m : gmap string (gset string))
  : gmap string (gset string) :=
  match m !! key with
  | Some sockets =>
      if decide (size (sockets ∖ {[s]}) = 0) then delete key m
      else <[key := sockets ∖ {[s]}]> m
  | None => m
  end.

Definition track (key : string) (e : Event) (m : gmap string (gset string))
  : gmap string (gset string) :=
  match e with
  | Connect s => add_socket key s m
  | Disconnect s => remove_socket key s m
  end.

(** The entry of [key] is the set [live], and there is no entry when
    [live] is empty. *)
Definition holds (m : gmap string (gset string)) (key : string) (live : gset string)
  : Prop :=
  m !! key = if decide (live = ∅) then None else Some live.

(** The same for the maps of counts. *)
Definition add_count (key : string) (m : gmap string Z) : gmap string Z :=
  <[key := (Counted.count_or_0 m key + 1)%Z]> m.

Definition remove_count (key : string) (m : gmap string Z) : gmap string Z :=
  let n := Z.max 0 (Counted.count_or_0 m key - 1) in
  if Z.eqb n 0 then delete key m else <[key := n]> m.

Definition tally (key : string) (e : Event) (m : gmap string Z) : gmap string Z :=
  match e with
  | Connect _ => add_count key m
  | Disconnect _ => remove_count key m
  end.

Definition counts (m : gmap string Z) (key : string) (n : nat) : Prop :=
  m !! key = if decide (n = 0) then None else Some (Z.of_nat n).

(** The roles whose sockets the connection handler registers. *)
Definition tracked (user : User) : Prop :=
  role user = "dosen" \/ role user = "mahasiswa".

(** The presence state: the two registries. *)
Definition presence (w : World)
  : gmap string (gset string) * gmap string (gset string) :=
  (onlineDosenMap w, onlineUsersMap w).

End PresenceDefinitions.

(** *** Sample data *)

Definition seeded_db : Store.Db := Store.mkDb Geofence.seeded ∅ [] [] ∅.
Definition lecturer : Engine.User := Engine.mkUser "dosen-1" "Dosen Satu" "dosen".
Definition student : Engine.User := Engine.mkUser "mhs-1" "Mahasiswa Satu" "mahasiswa".
Definition administrator : Engine.User := Engine.mkUser "admin-1" "Admin" "admin".

(** *** The location pipeline *)

Section PipelineDefinitions.
Import Engine.

(** The world a handler leaves. *)
Definition run {A} (m : Async A) (w : World) : World := snd (m w).

(** How many statements that write the [locations] table were sent. *)
Definition location_writes (w : World) : nat :=
  length (List.filter Store.is_location_write (issued w)).

(** What [checkGeofence] answers in world [w]. *)
Definition classified (env : Env) (w : World) (lat long : float)
  : Geofence.GeofenceResult :=
  Geofence.checkGeofence
    (Js.Math_sin (host env)) (Js.Math_cos (host env)) (Js.Math_atan2 (host env))
    (match rejects env Store.SelectGeofences with
     | Some e => Geofence.Rejected e
     | None => Geofence.Resolved (Store.geofences (db w))
     end)
    lat long.

(** An [update_location] event from a dosen socket whose payload carries
    two numbers, under either pair of names. *)
Definition valid_sample (user : User) (data : Js.Value) (lat long : float) : Prop :=
  role user = "dosen"
  /\ Js.alias data "lat" "latitude" = Some (Js.Num lat)
  /\ Js.alias data "long" "longitude" = Some (Js.Num long).

(** The test of the persistence step:
    [now - lastSave >= LOCATION_SAVE_THROTTLE_MS]. *)
Definition due (env : Env) (w : World) (user : User) : bool :=
  Z.leb LOCATION_SAVE_THROTTLE_MS (date_now env - lastSave_or_0 w (id user))%Z.

(** A database that rejects nothing during the run. *)
Definition healthy (env : Env) : Prop := forall s, rejects env s = None.

(** The two events a sample is answered with. *)
Definition broadcast_and_ack (env : Env) (socketId : string) (user : User)
    (g : Geofence.GeofenceResult) : list (Target * Message) :=
  [ (ToRoom (room_of (id user)), dosen_moved (locationData env user g));
    (ToSocket socketId, location_updated true (locationData env user g)) ].

End PipelineDefinitions.

Section SampleRuns.
Import Engine Store.

(** The database rejects, with message [e], a statement the persistence
    step sends for [userId] in world [w]. *)
Definition save_rejected (env : Env) (w : World) (userId e : string) : Prop :=
  rejects env SelectLocationUserId = Some e
  \/ (rejects env SelectLocationUserId = None
      /\ ((is_Some (locations (db w) !! userId) /\ rejects env UpdateLocations = Some e)
          \/ (locations (db w) !! userId = None /\ rejects env InsertLocations = Some e))).

(** The database accepts the statements of the persistence step. *)
Definition save_accepted (env : Env) : Prop :=
  rejects env SelectLocationUserId = None
  /\ rejects env UpdateLocations = None
  /\ rejects env InsertLocations = None.

(** The database rejects, with message [e], a statement the history step
    sends for [userId] and classification [g] in world [w]. *)
Definition history_rejected (env : Env) (w : World) (userId : string)
    (g : Geofence.GeofenceResult) (e : string) : Prop :=
  rejects env SelectLastHistory = Some e
  \/ (rejects env SelectLastHistory = None
      /\ shouldLog (selectLastHistory (db w) userId (getDay env (date_log env))
                      (isoDate (date_log env))) (date_log env) g = true
      /\ rejects env InsertLocationHistory = Some e).

(** A run at instant [t] (all clocks read [t], the process is seven hours
    ahead of UTC, the store stamps whole seconds) on a database that
    rejects nothing. *)
Definition env_at (t : Z) : Env :=
  mkEnv sample_host (fun _ => None) t t t 25200000 (t / 1000 * 1000)
        "1b4e28ba-2fa1-41d2-883f-0016d3cca427".

(** The same with a database that answers the geofence query and rejects
    every other statement. *)
Definition env_store_down (t : Z) : Env :=
  mkEnv sample_host
        (fun s => match s with
                  | SelectGeofences => None
                  | _ => Some "SQLITE_BUSY: database is locked"%string
                  end)
        t t t 25200000 (t / 1000 * 1000) "1b4e28ba-2fa1-41d2-883f-0016d3cca427".

(** Classifications and payloads at the two seeded centres, and a sample
    some 50 km from both. *)
Definition inside_indralaya : Geofence.GeofenceResult :=
  Geofence.mkResult true "UNSRI Indralaya" (-3.219741)%float 104.651220%float.


Definition payload (lat long : float) : Js.Value :=
  Js.Obj [("latitude"%string, Js.Num lat); ("longitude"%string, Js.Num long)].

Definition at_indralaya : Js.Value := payload (-3.219741)%float 104.651220%float.

Definition at_palembang : Js.Value := payload (-2.985028)%float 104.732230%float.


(** 3 November 2025, 04:50 UTC. *)
Definition noon : Z := 1762145400000.

(** The world after the first sample of the day. *)
Definition first_sample : World :=
  run (handleLocationUpdate (env_at noon) "s1" lecturer at_indralaya) (boot seeded_db).

(** The messages of the join handler. *)
Definition access_denied : string :=
  "Access denied. You do not have permission to track this dosen.".

Definition only_mahasiswa : string := "Only mahasiswa can join dosen tracking rooms".

(** A database with one dosen, one mahasiswa, and a pending request. *)
Definition campus_db : Db :=
  mkDb Geofence.seeded ∅ []
       [mkPermission "perm-1" "mhs-1" "dosen-1" "pending"]
       (<["dosen-1" := "Dosen Satu"]> (<["mhs-1" := "Mahasiswa Satu"]> ∅)).

(** A campus on which another student has the approved permission and
    this student's request was rejected. *)
Definition other_student_db : Db :=
  mkDb Geofence.seeded ∅ []
       [mkPermission "perm-2" "mhs-2" "dosen-1" "approved";
        mkPermission "perm-1" "mhs-1" "dosen-1" "rejected";
        mkPermission "perm-3" "mhs-1" "dosen-2" "approved"]
       (<["dosen-1" := "Dosen Satu"]> (<["mhs-1" := "Mahasiswa Satu"]> ∅)).

(** [{ dosen_id: v }] *)
Definition join_payload (dosen_id : Js.Value) : Js.Value :=
  Js.Obj [("dosen_id"%string, dosen_id)].

(** A host that renders a number as the text 0 (the only number in these
    runs is 0), and a database in which a lecturer has that id and the
    student an approved permission. *)
Definition zero_host : Js.Host :=
  Js.mkHost HostMath.sin HostMath.cos HostMath.atan2 (fun _ => "0"%string)
            (fun v => match v with Js.Num _ => Some "0"%string | _ => None end).

Definition env_zero : Env :=
  mkEnv zero_host (fun _ => None) noon noon noon 25200000 noon
        "1b4e28ba-2fa1-41d2-883f-0016d3cca427".

Definition zero_db : Db :=
  mkDb Geofence.seeded ∅ []
       [mkPermission "perm-0" "mhs-1" "0" "approved"]
       (<["0" := "Dosen Nol"]> (<["mhs-1" := "Mahasiswa Satu"]> ∅)).

End SampleRuns.


(** *** What a handler may touch, and the tables' keys *)

Section MoreDefinitions.
Import Engine Store Lifecycle.

(** What a sample can touch. *)
Record sample_frame (socketId : string) (user : User) (w w' : World) : Prop := {
  frame_presence : presence w' = presence w;
  frame_rooms : rooms w' = rooms w;
  frame_permissions : tracking_permissions (db w') = tracking_permissions (db w);
  frame_users : users (db w') = users (db w);
  frame_geofences : geofences (db w') = geofences (db w);
  frame_history :
    exists rows, location_history (db w') = location_history (db w) ++ rows
                 /\ length rows <= 1
                 /\ Forall (fun r => h_dosen_id r = id user) rows;
  frame_locations : forall k, k <> id user -> locations (db w') !! k = locations (db w) !! k;
  frame_timestamps :
    forall k, k <> id user -> lastSaveTimestamps w' !! k = lastSaveTimestamps w !! k;
  frame_emitted :
    exists events, emitted w' = emitted w ++ events
                   /\ Forall (fun e => fst e = ToSocket socketId
                                       \/ fst e = ToRoom (room_of (id user))) events
}.

(** The messages [handleLocationUpdate] refuses a sample with. *)
Definition refusals : list string :=
  ["Only dosen can update location"; "Latitude and longitude are required";
   "Invalid coordinate format"; "Failed to update location"].

(** No entry of the map is an empty set. *)
Definition tidy (m : gmap string (gset string)) : Prop :=
  forall k sockets, m !! k = Some sockets -> sockets <> ∅.

(** The two broadcasts of a dosen's status. *)
Definition went_online (user : User) : Target * Message :=
  (ToAll, dosen_status (Js.Str (id user)) (name user) true).
Definition went_offline (user : User) : Target * Message :=
  (ToAll, dosen_status (Js.Str (id user)) (name user) false).

(** The lifecycle events of every identity, in the order the server sees
    them. *)
Definition replay_all (trace : list (User * Event)) (w : World) : World :=
  fold_left (fun w ue => step (fst ue) (snd ue) w) trace w.

Definition replay_all_counted (trace : list (User * Event)) (r : Counted.Registry)
  : Counted.Registry :=
  fold_left (fun r ue => step_counted (fst ue) (snd ue) r) trace r.

(** The events of the identity [key]. *)
Definition events_of (key : string) (trace : list (User * Event)) : list (User * Event) :=
  List.filter (fun ue => String.eqb (id (fst ue)) key) trace.

(** The columns of a permission row that say who may track whom. *)
Definition parties (p : PermissionRow) : string * string * string :=
  (p_id p, p_student_id p, p_lecturer_id p).

(** The two keys of [tracking_permissions]. *)
Definition pair_of (p : PermissionRow) : string * string :=
  (p_student_id p, p_lecturer_id p).

Definition keys_unique (d : Db) : Prop :=
  List.NoDup (List.map p_id (tracking_permissions d))
  /\ List.NoDup (List.map pair_of (tracking_permissions d)).

End MoreDefinitions.

(** *** The history endpoint *)

Section HistoryDefinitions.
Import Store Engine Tracking.

(** The rows of one dosen on one day of the week. *)
Definition rows_of_day (dosenId : string) (day : Z) (rows : list HistoryRow)
  : list HistoryRow :=
  List.filter (fun r => String.eqb (h_dosen_id r) dosenId && Z.eqb (h_day_of_week r) day)
              rows.

(** Newest first. *)
Definition newest_first (a b : Log) : Prop := (logged_at b <= logged_at a)%Z.

(** Who asked for whose history, when the answer is 200. *)
Definition history_subject (http : Http) (profiles : Profiles) (user : User)
    (dosen_id : Js.Value) (d : Db) (key : string) (dosenId : Js.Value)
    (dosenName : string) : Prop :=
  (role user = "dosen" /\ key = id user /\ dosenId = Js.Str (id user)
   /\ dosenName = name user)
  \/ (role user = "mahasiswa" /\ dosenId = dosen_id /\ Js.falsy dosen_id = false
      /\ Js.bound (host http) dosen_id = Some key
      /\ (exists p, In p (tracking_permissions d)
                    /\ p_student_id p = id user /\ p_lecturer_id p = key
                    /\ p_status p = "approved")
      /\ is_Some (dosen profiles !! key) /\ users d !! key = Some dosenName).

End HistoryDefinitions.

(** *** More sample data *)

(** The database of [env_zero], with the name lookup rejected. *)
Definition env_names_down : Engine.Env :=
  Engine.mkEnv zero_host
    (fun s => match s with
              | Store.SelectUserName => Some "SQLITE_BUSY: database is locked"%string
              | _ => None
              end)
    noon noon noon 25200000 noon "1b4e28ba-2fa1-41d2-883f-0016d3cca427".

(** A campus on which nobody has asked for access yet. *)
Definition open_db : Store.Db :=
  Store.mkDb Geofence.seeded ∅ [] []
    (<["dosen-1"%string := "Dosen Satu"%string]>
       (<["mhs-1"%string := "Mahasiswa Satu"%string]> ∅)).

Definition campus_profiles : Tracking.Profiles :=
  Tracking.mkProfiles (<["mhs-1"%string := "09021182126001"%string]> ∅)
                      (<["dosen-1"%string := "0001018801"%string]> ∅).

Definition campus_http : Tracking.Http :=
  Tracking.mkHttp sample_host (fun _ => None) "7c9e6679-7425-40de-944b-e07fc1f90ae7".

(** [{ lecturer_id: v }] *)
Definition request_body (lecturer_id : Js.Value) : Js.Value :=
  Js.Obj [("lecturer_id"%string, lecturer_id)].

(** A morning on which the lecturer opens two tabs, the student one, and
    the lecturer closes the first. *)
Definition morning : list (Engine.User * Lifecycle.Event) :=
  [ (lecturer, Lifecycle.Connect "s1"); (student, Lifecycle.Connect "s9");
    (lecturer, Lifecycle.Connect "s2"); (lecturer, Lifecycle.Disconnect "s1") ].
(* ===================================================================== *)
(** * Properties *)
(* ===================================================================== *)

(** ** The geofence engine *)

Section GeofenceFacts.
Variables sin cos : float -> float.
Variable atan2 : float -> float -> float.

Let within := Geofence.within sin cos atan2.
Let scan := Geofence.scan sin cos atan2.

(** Zones that do not contain the sample are skipped by the loop. *)
Lemma scan_skips (lat long : float) (before rest : list Geofence.Geofence) :
  Forall (fun z => within lat long z = false) before ->
  scan lat long (before ++ rest) = scan lat long rest.
Proof.
  induction 1 as [|z before Hz _ IH]; simpl; [reflexivity|].
  unfold within in Hz. rewrite Hz. exact IH.
Qed.

(** When no zone contains the sample the loop falls through to the mask. *)
Lemma scan_no_match (lat long : float) (zones : list Geofence.Geofence) :
  Forall (fun z => within lat long z = false) zones ->
  scan lat long zones = Geofence.masked.
Proof.
  induction 1 as [|z zones Hz _ IH]; simpl; [reflexivity|].
  unfold within in Hz. rewrite Hz. exact IH.
Qed.

(** The loop answers inside exactly when some zone contains the sample. *)
Lemma scan_inside_iff (lat long : float) (zones : list Geofence.Geofence) :
  Geofence.isInside (scan lat long zones) = true <->
  Exists (fun z => within lat long z = true) zones.
Proof.
  induction zones as [|z zones IH]; simpl.
  - split; [discriminate | inversion 1].
  - destruct (Geofence.within sin cos atan2 lat long z) eqn:E; simpl.
    + split; [intros _; left; exact E | reflexivity].
    + rewrite IH. split; [intros H; right; exact H |].
      inversion 1 as [? ? Hz | ? ? Hr]; subst; [|exact Hr].
      unfold within in Hz. congruence.
Qed.

End GeofenceFacts.


(** C1: for every coordinate pair and every zone list, [checkGeofence]
    answers with the first zone of the list (in list order) whose
    haversine distance to the sample is at most its radius, whatever
    zones follow it (closer ones included); the answer has
    [isInside = true], the name of that zone, and the raw coordinates
    unchanged as display coordinates. *)
Theorem checkGeofence_first_match
    (sin cos : float -> float) (atan2 : float -> float -> float)
    (lat long : float) (before after : list Geofence.Geofence)
    (zone : Geofence.Geofence) :
  Forall (fun z => Geofence.within sin cos atan2 lat long z = false) before ->
  PrimFloat.leb
    (Geofence.haversineDistance sin cos atan2 lat long
       (Geofence.latitude zone) (Geofence.longitude zone))
    (Geofence.radius_km zone) = true ->
  Geofence.checkGeofence sin cos atan2
    (Geofence.Resolved (before ++ zone :: after)) lat long
  = {| Geofence.isInside := true;
       Geofence.locationName := Geofence.name zone;
       Geofence.displayLat := lat;
       Geofence.displayLong := long |}.
Proof.
  intros Hbefore Hzone. simpl.
  rewrite (scan_skips sin cos atan2 lat long before (zone :: after) Hbefore).
  simpl. unfold Geofence.within. rewrite Hzone. reflexivity.
Qed.

(** The sample at the centre of the Palembang zone lies in the wide zone
    (27.6 km from its centre) and in the Palembang zone (0 km); the wide
    zone comes first and wins. *)
Lemma checkGeofence_first_match_witness :
  PrimFloat.ltb
    (HostMath.haversineDistance (-2.985028)%float 104.732230%float
       (-2.985028)%float 104.732230%float)
    (HostMath.haversineDistance (-2.985028)%float 104.732230%float
       (-3.219741)%float 104.651220%float) = true
  /\ HostMath.checkGeofence (Geofence.Resolved overlapping)
       (-2.985028)%float 104.732230%float
     = {| Geofence.isInside := true;
          Geofence.locationName := "Sumatera Selatan";
          Geofence.displayLat := (-2.985028)%float;
          Geofence.displayLong := 104.732230%float |}.
Proof.
  split; [vm_compute; reflexivity|].
  apply (checkGeofence_first_match HostMath.sin HostMath.cos HostMath.atan2
           (-2.985028)%float 104.732230%float
           [Geofence.mkGeofence "UNSRI Indralaya" (-3.219741)%float 104.651220%float 2.5%float]
           [Geofence.mkGeofence "UNSRI Palembang" (-2.985028)%float 104.732230%float 1.5%float]
           (Geofence.mkGeofence "Sumatera Selatan" (-3.219741)%float 104.651220%float 50%float)).
  - constructor; [vm_compute; reflexivity | constructor].
  - vm_compute; reflexivity.
Defined.

(** The scenario of the specification on the seeded zones: a sample at
    the centre of the first zone is inside it and keeps its coordinates. *)
Example checkGeofence_at_centre :
  HostMath.checkGeofence (Geofence.Resolved Geofence.seeded)
    (-3.219741)%float 104.651220%float
  = {| Geofence.isInside := true;
       Geofence.locationName := "UNSRI Indralaya";
       Geofence.displayLat := (-3.219741)%float;
       Geofence.displayLong := 104.651220%float |}.
Proof. vm_compute. reflexivity. Qed.


(** C5, as the code has it: a sample some 50 km from the seeded zones, and
    a failed read of the zones, are both answered with the zone name
    "Di Luar", which is not the text "Outside"; and when a zone is
    configured around the masked pair, the sample far from every zone is
    answered with a pair that lies in that zone. *)
Lemma checkGeofence_masked_name_counterexample :
  Geofence.locationName
    (HostMath.checkGeofence (Geofence.Resolved Geofence.seeded)
       (-3.5)%float 105%float) = "Di Luar"
  /\ Geofence.locationName
       (HostMath.checkGeofence (Geofence.Rejected "SQLITE_BUSY")
          (-3.5)%float 105%float) = "Di Luar"
  /\ String.eqb
       (Geofence.locationName
          (HostMath.checkGeofence (Geofence.Resolved Geofence.seeded)
             (-3.5)%float 105%float)) "Outside" = false
  /\ HostMath.checkGeofence (Geofence.Resolved with_jakarta) (-3.5)%float 105%float
     = {| Geofence.isInside := false;
          Geofence.locationName := "Di Luar";
          Geofence.displayLat := (-6.2088)%float;
          Geofence.displayLong := 106.8456%float |}
  /\ HostMath.checkGeofence (Geofence.Resolved with_jakarta)
       (-6.2088)%float 106.8456%float
     = {| Geofence.isInside := true;
          Geofence.locationName := "Monas";
          Geofence.displayLat := (-6.2088)%float;
          Geofence.displayLong := 106.8456%float |}.
Proof. repeat split; vm_compute; reflexivity. Qed.

(** C5 (amended): if no zone contains the sample, or the zones cannot be
    read, [checkGeofence] answers with the one masked location: not
    inside, zone name "Di Luar", coordinates (-6.2088, 106.8456) in both
    cases.  That pair lies in neither zone that [seedDatabase] inserts:
    its latitude is more than 2 degrees from the latitude of either
    centre, and by the haversine formula on [HostMath] it is more than
    400 km from both and fails the zone test of both. *)
Theorem checkGeofence_masked
    (sin cos : float -> float) (atan2 : float -> float -> float)
    (rows : Geofence.Settled (list Geofence.Geofence)) (lat long : float) :
  unmatched sin cos atan2 rows lat long ->
  let r := Geofence.checkGeofence sin cos atan2 rows lat long in
  r = {| Geofence.isInside := false;
         Geofence.locationName := "Di Luar";
         Geofence.displayLat := (-6.2088)%float;
         Geofence.displayLong := 106.8456%float |}
  /\ Forall (fun z =>
               PrimFloat.ltb 2 (PrimFloat.abs (Geofence.displayLat r - Geofence.latitude z))
               = true
               /\ Geofence.within HostMath.sin HostMath.cos HostMath.atan2
                    (Geofence.displayLat r) (Geofence.displayLong r) z = false
               /\ PrimFloat.ltb 400
                    (HostMath.haversineDistance
                       (Geofence.displayLat r) (Geofence.displayLong r)
                       (Geofence.latitude z) (Geofence.longitude z)) = true)
       Geofence.seeded.
Proof.
  intros H r.
  assert (E : r = Geofence.masked).
  { unfold r. destruct rows as [zones|e]; simpl in *; [|reflexivity].
    apply (scan_no_match sin cos atan2 lat long zones H). }
  split; [exact E|]. rewrite E.
  repeat constructor; vm_compute; reflexivity.
Qed.

Lemma checkGeofence_masked_witness :
  HostMath.checkGeofence (Geofence.Resolved Geofence.seeded) (-3.5)%float 105%float
  = HostMath.checkGeofence (Geofence.Rejected "SQLITE_BUSY") (-3.5)%float 105%float
  /\ Geofence.isInside
       (HostMath.checkGeofence (Geofence.Resolved Geofence.seeded)
          (-3.5)%float 105%float) = false.
Proof.
  pose proof (checkGeofence_masked HostMath.sin HostMath.cos HostMath.atan2
                (Geofence.Resolved Geofence.seeded) (-3.5)%float 105%float) as A.
  pose proof (checkGeofence_masked HostMath.sin HostMath.cos HostMath.atan2
                (Geofence.Rejected "SQLITE_BUSY") (-3.5)%float 105%float) as B.
  assert (HA : unmatched HostMath.sin HostMath.cos HostMath.atan2
                 (Geofence.Resolved Geofence.seeded) (-3.5)%float 105%float)
    by (repeat constructor).
  destruct (A HA) as [EA _]. destruct (B I) as [EB _].
  unfold HostMath.checkGeofence. rewrite EA, EB. split; reflexivity.
Defined.

(** ** The presence registry *)

Section PresenceFacts.
Import Engine Lifecycle.

Ltac split_ifs :=
  repeat match goal with
         | |- context [if ?b then _ else _] => destruct b eqn:?; simpl in *
         end;
  first [reflexivity | congruence].

(** A connection adds its socket id to the entry. *)
Lemma holds_add m key live s :
  holds m key live -> holds (add_socket key s m) key ({[s]} ∪ live).
Proof.
  unfold holds, add_socket, sockets_or_new. intros H. rewrite lookup_insert_eq.
  rewrite H. destruct (decide (live = ∅)) as [->|Hne].
  - rewrite decide_False by set_solver. reflexivity.
  - rewrite decide_False by set_solver. reflexivity.
Qed.

(** A disconnection removes its socket id, and the entry with the last one. *)
Lemma holds_remove m key live s :
  holds m key live -> holds (remove_socket key s m) key (live ∖ {[s]}).
Proof.
  unfold holds, remove_socket. intros H.
  destruct (decide (live = ∅)) as [->|Hne].
  - rewrite H. rewrite H. rewrite decide_True by set_solver. reflexivity.
  - rewrite H. destruct (decide (size (live ∖ {[s]}) = 0)) as [E|E].
    + apply size_empty_iff in E. apply leibniz_equiv in E. rewrite E.
      rewrite decide_True by reflexivity. apply lookup_delete_eq.
    + rewrite lookup_insert_eq. rewrite decide_False; [reflexivity|].
      intros E'. apply E. rewrite E'. apply size_empty.
Qed.

(** Along an interleaving of lifecycles the entry is the set of live
    sockets, whose size is the surplus of connects over disconnects. *)
Lemma track_size key (trace : list Event) :
  forall used live m,
    live ⊆ used ->
    interleaving used live trace = true ->
    holds m key live ->
    exists live',
      holds (fold_left (fun m e => track key e m) trace m) key live'
      /\ size live' + disconnects trace = size live + connects trace.
Proof.
  induction trace as [|[s|s] trace IH]; intros used live m Hsub Hwf Hm; simpl in *.
  - exists live. split; [exact Hm | lia].
  - apply andb_prop in Hwf as [Hfresh Hwf]. apply bool_decide_eq_true in Hfresh.
    destruct (IH ({[s]} ∪ used) ({[s]} ∪ live) (add_socket key s m)) as (live' & H1 & H2).
    + set_solver.
    + exact Hwf.
    + apply holds_add, Hm.
    + exists live'. split; [exact H1|].
      rewrite size_union in H2 by set_solver. rewrite size_singleton in H2. lia.
  - apply andb_prop in Hwf as [Hin Hwf]. apply bool_decide_eq_true in Hin.
    destruct (IH used (live ∖ {[s]}) (remove_socket key s m)) as (live' & H1 & H2).
    + set_solver.
    + exact Hwf.
    + apply holds_remove, Hm.
    + exists live'. split; [exact H1|].
      rewrite size_difference in H2 by set_solver. rewrite size_singleton in H2.
      assert (size live <> 0) by (intros E; apply size_empty_iff in E; set_solver).
      lia.
Qed.



(** The registry fields after each handler, as [add_socket] and
    [remove_socket] of the fields before. *)
Lemma users_on_connection s user w :
  tracked user ->
  onlineUsersMap (on_connection s user w) = add_socket (id user) s (onlineUsersMap w).
Proof.
  intros [E|E]; unfold on_connection; rewrite E; simpl.
  - unfold handleDosenConnection. case_decide; reflexivity.
  - reflexivity.
Qed.

Lemma dosen_on_connection s user w :
  role user = "dosen" ->
  onlineDosenMap (on_connection s user w) = add_socket (id user) s (onlineDosenMap w).
Proof.
  intros E; unfold on_connection; rewrite E; simpl.
  unfold handleDosenConnection. case_decide; reflexivity.
Qed.

Lemma users_on_disconnect s user w :
  onlineUsersMap (on_disconnect s user w) = remove_socket (id user) s (onlineUsersMap w).
Proof.
  unfold on_disconnect, handleDisconnect, remove_socket.
  destruct (String.eqb (role user) "dosen").
  - destruct (onlineUsersMap w !! id user) as [S|] eqn:E; simpl.
    + destruct (decide (size (S ∖ {[s]}) = 0)); simpl;
        repeat (case_match; simpl); reflexivity.
    + repeat (case_match; simpl); reflexivity.
  - destruct (onlineUsersMap w !! id user) as [S|] eqn:E; simpl; [|reflexivity].
    destruct (decide (size (S ∖ {[s]}) = 0)); reflexivity.
Qed.

Lemma dosen_on_disconnect s user w :
  role user = "dosen" ->
  onlineDosenMap (on_disconnect s user w) = remove_socket (id user) s (onlineDosenMap w).
Proof.
  intros R. unfold on_disconnect, handleDisconnect, remove_socket. rewrite R. simpl.
  destruct (onlineUsersMap w !! id user) as [S|] eqn:E; simpl.
  - destruct (decide (size (S ∖ {[s]}) = 0)); simpl;
      (destruct (onlineDosenMap w !! id user) as [D|]; simpl; [|reflexivity]);
      destruct (decide (size (D ∖ {[s]}) = 0)); reflexivity.
  - destruct (onlineDosenMap w !! id user) as [D|]; simpl; [|reflexivity].
    destruct (decide (size (D ∖ {[s]}) = 0)); reflexivity.
Qed.

Lemma users_replay user trace :
  tracked user ->
  forall w, onlineUsersMap (replay user trace w)
            = fold_left (fun m e => track (id user) e m) trace (onlineUsersMap w).
Proof.
  intros T. induction trace as [|e trace IH]; intros w; [reflexivity|].
  unfold replay in *. simpl. rewrite IH. f_equal.
  destruct e; simpl; [apply users_on_connection, T | apply users_on_disconnect].
Qed.

Lemma dosen_replay user trace :
  role user = "dosen" ->
  forall w, onlineDosenMap (replay user trace w)
            = fold_left (fun m e => track (id user) e m) trace (onlineDosenMap w).
Proof.
  intros T. induction trace as [|e trace IH]; intros w; [reflexivity|].
  unfold replay in *. simpl. rewrite IH. f_equal.
  destruct e; simpl; [apply dosen_on_connection, T | apply dosen_on_disconnect, T].
Qed.

(** Reading the status off the entry. *)
Lemma online_of_holds m key live (trace : list Event) :
  holds m key live ->
  size live + disconnects trace = connects trace ->
  match m !! key with Some sockets => bool_decide (0 < size sockets) | None => false end
  = bool_decide (disconnects trace < connects trace)
  /\ size (sockets_or_new m key) = connects trace - disconnects trace.
Proof.
  unfold holds, sockets_or_new. intros H E. rewrite H.
  destruct (decide (live = ∅)) as [->|Hne].
  - rewrite size_empty in *. split; [|lia].
    symmetry. apply bool_decide_eq_false. lia.
  - assert (size live <> 0) by (intros Z; apply size_empty_iff in Z; set_solver).
    split; [|lia].
    rewrite !bool_decide_eq_true_2 by lia. reflexivity.
Qed.


(** The counter revision: the same facts for the stored counts. *)
Lemma counts_add m key n : counts m key n -> counts (add_count key m) key (S n).
Proof.
  unfold counts, add_count, Counted.count_or_0. intros H.
  rewrite lookup_insert_eq, H. simpl.
  destruct (decide (n = 0)) as [->|Hn]; f_equal; lia.
Qed.

Lemma counts_remove m key n : counts m key n -> counts (remove_count key m) key (n - 1).
Proof.
  unfold counts, remove_count, Counted.count_or_0. intros H. rewrite H.
  destruct (decide (n = 0)) as [->|Hn]; simpl.
  - rewrite lookup_delete_eq. reflexivity.
  - destruct (Z.eqb_spec (Z.max 0 (Z.of_nat n - 1)) 0) as [E|E].
    + rewrite lookup_delete_eq. rewrite decide_True by lia. reflexivity.
    + rewrite lookup_insert_eq. rewrite decide_False by lia. f_equal. lia.
Qed.

Lemma tally_size key (trace : list Event) :
  forall used live m,
    live ⊆ used ->
    interleaving used live trace = true ->
    counts m key (size live) ->
    exists n,
      counts (fold_left (fun m e => tally key e m) trace m) key n
      /\ n + disconnects trace = size live + connects trace.
Proof.
  induction trace as [|[s|s] trace IH]; intros used live m Hsub Hwf Hm; simpl in *.
  - exists (size live). split; [exact Hm | lia].
  - apply andb_prop in Hwf as [Hfresh Hwf]. apply bool_decide_eq_true in Hfresh.
    destruct (IH ({[s]} ∪ used) ({[s]} ∪ live) (add_count key m)) as (n & H1 & H2).
    + set_solver.
    + exact Hwf.
    + rewrite size_union by set_solver. rewrite size_singleton. simpl.
      apply counts_add, Hm.
    + exists n. split; [exact H1|].
      rewrite size_union in H2 by set_solver. rewrite size_singleton in H2. lia.
  - apply andb_prop in Hwf as [Hin Hwf]. apply bool_decide_eq_true in Hin.
    destruct (IH used (live ∖ {[s]}) (remove_count key m)) as (n & H1 & H2).
    + set_solver.
    + exact Hwf.
    + rewrite size_difference by set_solver. rewrite size_singleton.
      apply counts_remove, Hm.
    + exists n. split; [exact H1|].
      rewrite size_difference in H2 by set_solver. rewrite size_singleton in H2.
      assert (size live <> 0) by (intros E; apply size_empty_iff in E; set_solver).
      lia.
Qed.

Lemma counted_users_on_connection s user r :
  tracked user ->
  Counted.onlineUsersMap (Counted.on_connection s user r)
  = add_count (id user) (Counted.onlineUsersMap r).
Proof. intros [E|E]; unfold Counted.on_connection; rewrite E; reflexivity. Qed.

Lemma counted_dosen_on_connection s user r :
  role user = "dosen" ->
  Counted.onlineDosenMap (Counted.on_connection s user r)
  = add_count (id user) (Counted.onlineDosenMap r).
Proof. intros E; unfold Counted.on_connection; rewrite E; reflexivity. Qed.

Lemma counted_users_on_disconnect s user r :
  Counted.onlineUsersMap (Counted.on_disconnect s user r)
  = remove_count (id user) (Counted.onlineUsersMap r).
Proof.
  unfold Counted.on_disconnect, Counted.handleDisconnect, remove_count.
  destruct (String.eqb (role user) "dosen"); simpl; split_ifs.
Qed.

Lemma counted_dosen_on_disconnect s user r :
  role user = "dosen" ->
  Counted.onlineDosenMap (Counted.on_disconnect s user r)
  = remove_count (id user) (Counted.onlineDosenMap r).
Proof.
  intros E. unfold Counted.on_disconnect, Counted.handleDisconnect, remove_count.
  rewrite E; simpl. split_ifs.
Qed.

Lemma counted_users_replay user trace :
  tracked user ->
  forall r, Counted.onlineUsersMap (replay_counted user trace r)
            = fold_left (fun m e => tally (id user) e m) trace (Counted.onlineUsersMap r).
Proof.
  intros T. induction trace as [|e trace IH]; intros r; [reflexivity|].
  unfold replay_counted in *. simpl. rewrite IH. f_equal.
  destruct e; simpl;
    [apply counted_users_on_connection, T | apply counted_users_on_disconnect].
Qed.

Lemma counted_dosen_replay user trace :
  role user = "dosen" ->
  forall r, Counted.onlineDosenMap (replay_counted user trace r)
            = fold_left (fun m e => tally (id user) e m) trace (Counted.onlineDosenMap r).
Proof.
  intros T. induction trace as [|e trace IH]; intros r; [reflexivity|].
  unfold replay_counted in *. simpl. rewrite IH. f_equal.
  destruct e; simpl;
    [apply counted_dosen_on_connection, T | apply counted_dosen_on_disconnect, T].
Qed.

(** Reading the status and the count off the counter entry. *)
Lemma online_of_counts m key n (trace : list Event) :
  counts m key n ->
  n + disconnects trace = connects trace ->
  match m !! key with Some c => Z.ltb 0 c | None => false end
  = bool_decide (disconnects trace < connects trace)
  /\ Counted.count_or_0 m key = (Z.of_nat (connects trace) - Z.of_nat (disconnects trace))%Z
  /\ (0 <= Counted.count_or_0 m key)%Z.
Proof.
  unfold counts, Counted.count_or_0. intros H E. rewrite H.
  destruct (decide (n = 0)) as [->|Hne].
  - split; [|lia]. symmetry. apply bool_decide_eq_false. lia.
  - split; [|lia]. rewrite bool_decide_eq_true_2 by lia. apply Z.ltb_lt. lia.
Qed.

(** The registry fields after the connection handler, for any role. *)
Lemma users_on_connection_if s user w :
  onlineUsersMap (on_connection s user w)
  = if String.eqb (role user) "dosen" || String.eqb (role user) "mahasiswa"
    then add_socket (id user) s (onlineUsersMap w) else onlineUsersMap w.
Proof.
  unfold on_connection.
  destruct (String.eqb_spec (role user) "dosen") as [E|E].
  - rewrite E. simpl. unfold handleDosenConnection. case_decide; reflexivity.
  - simpl. destruct (String.eqb (role user) "mahasiswa"); reflexivity.
Qed.

Lemma dosen_on_connection_if s user w :
  onlineDosenMap (on_connection s user w)
  = if String.eqb (role user) "dosen"
    then add_socket (id user) s (onlineDosenMap w) else onlineDosenMap w.
Proof.
  unfold on_connection.
  destruct (String.eqb_spec (role user) "dosen") as [E|E].
  - rewrite E. simpl. unfold handleDosenConnection. case_decide; reflexivity.
  - destruct (String.eqb (role user) "mahasiswa"); reflexivity.
Qed.

Lemma dosen_on_disconnect_if s user w :
  onlineDosenMap (on_disconnect s user w)
  = if String.eqb (role user) "dosen"
    then remove_socket (id user) s (onlineDosenMap w) else onlineDosenMap w.
Proof.
  destruct (String.eqb_spec (role user) "dosen") as [E|E].
  - apply dosen_on_disconnect, E.
  - unfold on_disconnect, handleDisconnect.
    destruct (String.eqb_spec (role user) "dosen") as [E'|_]; [contradiction|].
    destruct (onlineUsersMap w !! id user) as [S|]; [|reflexivity].
    case_decide; reflexivity.
Qed.

(** Events of another identity leave the entries of this one alone. *)
Lemma other_identity_frame (other : User) (e : Event) (w : World) (key : string) :
  id other <> key ->
  onlineUsersMap (step other e w) !! key = onlineUsersMap w !! key
  /\ onlineDosenMap (step other e w) !! key = onlineDosenMap w !! key.
Proof.
  intros N.
  assert (A : forall s (m : gmap string (gset string)),
             add_socket (id other) s m !! key = m !! key).
  { intros s m. unfold add_socket. apply lookup_insert_ne, N. }
  assert (R : forall s (m : gmap string (gset string)),
             remove_socket (id other) s m !! key = m !! key).
  { intros s m. unfold remove_socket. destruct (m !! id other); [|reflexivity].
    case_decide; [apply lookup_delete_ne, N | apply lookup_insert_ne, N]. }
  destruct e as [s|s]; simpl.
  - rewrite users_on_connection_if, dosen_on_connection_if.
    destruct (String.eqb (role other) "dosen"), (String.eqb (role other) "mahasiswa");
      simpl; rewrite ?A; split; reflexivity.
  - rewrite users_on_disconnect, dosen_on_disconnect_if.
    destruct (String.eqb (role other) "dosen"); rewrite ?R; split; reflexivity.
Qed.

(** In the counter revision a stored count is positive, whatever the
    order of the events: the decrement stops at 0 and drops the entry. *)
Lemma counted_count_positive (user : User) (trace : list Event) :
  forall r : Counted.Registry,
    (forall k c, Counted.onlineUsersMap r !! k = Some c -> (0 < c)%Z) ->
    forall k c,
      Counted.onlineUsersMap (replay_counted user trace r) !! k = Some c -> (0 < c)%Z.
Proof.
  induction trace as [|e trace IH]; intros r H; [exact H|].
  unfold replay_counted in *. simpl. apply IH. clear IH. intros k c.
  assert (P : (0 <= Counted.count_or_0 (Counted.onlineUsersMap r) (id user))%Z).
  { unfold Counted.count_or_0.
    destruct (Counted.onlineUsersMap r !! id user) as [n|] eqn:E; [|lia].
    specialize (H _ _ E). lia. }
  destruct e as [s|s]; simpl.
  - unfold Counted.on_connection.
    destruct (String.eqb_spec (role user) "dosen") as [E|_];
      [rewrite E|destruct (String.eqb (role user) "mahasiswa")];
      simpl; try apply H;
      (destruct (decide (id user = k)) as [<-|N];
       [rewrite lookup_insert_eq; intros [= <-]; lia
       |rewrite lookup_insert_ne by exact N; apply H]).
  - rewrite counted_users_on_disconnect. unfold remove_count.
    destruct (Z.eqb_spec (Z.max 0 (Counted.count_or_0 (Counted.onlineUsersMap r) (id user) - 1)) 0)
      as [Z0|Z0].
    + destruct (decide (id user = k)) as [<-|N];
        [rewrite lookup_delete_eq; discriminate
        |rewrite lookup_delete_ne by exact N; apply H].
    + destruct (decide (id user = k)) as [<-|N];
        [rewrite lookup_insert_eq; intros [= <-]; lia
        |rewrite lookup_insert_ne by exact N; apply H].
Qed.

(** Adding or removing the same socket id twice is adding or removing it once. *)
Lemma add_socket_idem key s m :
  add_socket key s (add_socket key s m) = add_socket key s m.
Proof.
  unfold add_socket at 1. unfold sockets_or_new at 1.
  unfold add_socket. rewrite lookup_insert_eq, insert_insert_eq.
  f_equal. set_solver.
Qed.

Lemma remove_socket_idem key s m :
  remove_socket key s (remove_socket key s m) = remove_socket key s m.
Proof.
  unfold remove_socket. destruct (m !! key) as [S|] eqn:E.
  - destruct (decide (size (S ∖ {[s]}) = 0)) as [Hs|Hs].
    + rewrite lookup_delete_eq. reflexivity.
    + rewrite lookup_insert_eq.
      replace (S ∖ {[s]} ∖ {[s]}) with (S ∖ {[s]}) by set_solver.
      rewrite decide_False by exact Hs. apply insert_insert_eq.
  - rewrite E. reflexivity.
Qed.

(** Removing a socket id that is not registered leaves every set of
    socket ids as it was. *)
Lemma remove_socket_absent key s m k :
  s ∉ sockets_or_new m key ->
  sockets_or_new (remove_socket key s m) k = sockets_or_new m k.
Proof.
  unfold remove_socket, sockets_or_new. intros Hs.
  destruct (m !! key) as [S|] eqn:E; [|reflexivity].
  replace (S ∖ {[s]}) with S by set_solver.
  case_decide as Hz.
  - apply size_empty_iff, leibniz_equiv in Hz. subst S.
    destruct (decide (key = k)) as [->|Hk].
    + rewrite lookup_delete_eq, E. reflexivity.
    + rewrite lookup_delete_ne by exact Hk. reflexivity.
  - rewrite insert_id by exact E. reflexivity.
Qed.

(** The status is that the set of socket ids is not empty. *)
Lemma online_sockets (m : gmap string (gset string)) (k : string) :
  match m !! k with Some sockets => bool_decide (0 < size sockets) | None => false end
  = bool_decide (0 < size (sockets_or_new m k)).
Proof.
  unfold sockets_or_new. destruct (m !! k); [reflexivity|].
  rewrite size_empty. reflexivity.
Qed.


(** C8 (amended): in the registry that keeps sets of socket ids, the
    connection handler and the disconnection handler are idempotent
    against double invocation with the same identity and socket id: the
    second invocation leaves both maps, hence every [isUserOnline] and
    [isDosenOnline] result, as the first left them; and disconnecting a
    socket id that is not registered for the identity leaves every set of
    socket ids and every status as it was. *)
Theorem presence_idempotent (s : string) (user : User) (w : World) :
  presence (on_connection s user (on_connection s user w))
    = presence (on_connection s user w)
  /\ presence (on_disconnect s user (on_disconnect s user w))
     = presence (on_disconnect s user w)
  /\ (forall k,
        isUserOnline (on_connection s user (on_connection s user w)) k
          = isUserOnline (on_connection s user w) k
        /\ isDosenOnline (on_connection s user (on_connection s user w)) k
           = isDosenOnline (on_connection s user w) k
        /\ isUserOnline (on_disconnect s user (on_disconnect s user w)) k
           = isUserOnline (on_disconnect s user w) k
        /\ isDosenOnline (on_disconnect s user (on_disconnect s user w)) k
           = isDosenOnline (on_disconnect s user w) k)
  /\ (s ∉ sockets_or_new (onlineUsersMap w) (id user) ->
      s ∉ sockets_or_new (onlineDosenMap w) (id user) ->
      forall k,
        sockets_or_new (onlineUsersMap (on_disconnect s user w)) k
          = sockets_or_new (onlineUsersMap w) k
        /\ sockets_or_new (onlineDosenMap (on_disconnect s user w)) k
           = sockets_or_new (onlineDosenMap w) k
        /\ isUserOnline (on_disconnect s user w) k = isUserOnline w k
        /\ isDosenOnline (on_disconnect s user w) k = isDosenOnline w k).
Proof.
  assert (C : presence (on_connection s user (on_connection s user w))
              = presence (on_connection s user w)).
  { unfold presence. rewrite !dosen_on_connection_if, !users_on_connection_if.
    destruct (String.eqb (role user) "dosen"), (String.eqb (role user) "mahasiswa");
      simpl; rewrite ?add_socket_idem; reflexivity. }
  assert (D : presence (on_disconnect s user (on_disconnect s user w))
              = presence (on_disconnect s user w)).
  { unfold presence. rewrite !dosen_on_disconnect_if, !users_on_disconnect.
    destruct (String.eqb (role user) "dosen");
      rewrite ?remove_socket_idem; reflexivity. }
  split; [exact C|]. split; [exact D|]. split.
  - intros k. unfold presence in C, D. injection C as C1 C2. injection D as D1 D2.
    unfold isUserOnline, isDosenOnline. rewrite C1, C2, D1, D2. repeat split.
  - intros Hu Hd k.
    assert (U : sockets_or_new (onlineUsersMap (on_disconnect s user w)) k
                = sockets_or_new (onlineUsersMap w) k).
    { rewrite users_on_disconnect. apply remove_socket_absent, Hu. }
    assert (Dn : sockets_or_new (onlineDosenMap (on_disconnect s user w)) k
                 = sockets_or_new (onlineDosenMap w) k).
    { rewrite dosen_on_disconnect_if. destruct (String.eqb (role user) "dosen");
        [apply remove_socket_absent, Hd | reflexivity]. }
    split; [exact U|]. split; [exact Dn|].
    unfold isUserOnline, isDosenOnline. rewrite !online_sockets, U, Dn. split; reflexivity.
Qed.


(** C7, as the code has it: an administrator's socket is not registered,
    so one completed connect and no disconnect leave [isUserOnline]
    false, in both revisions; and [isDosenOnline] is false for a connected
    mahasiswa whose [isUserOnline] is true. *)
Lemma presence_untracked_role_counterexample :
  interleaving ∅ ∅ [Connect "s1"] = true
  /\ bool_decide (disconnects [Connect "s1"] < connects [Connect "s1"]) = true
  /\ isUserOnline (replay administrator [Connect "s1"] (boot seeded_db)) (id administrator)
     = false
  /\ Counted.isUserOnline
       (replay_counted administrator [Connect "s1"] Counted.empty) (id administrator)
     = false
  /\ isDosenOnline (replay student [Connect "s1"] (boot seeded_db)) (id student) = false
  /\ isUserOnline (replay student [Connect "s1"] (boot seeded_db)) (id student) = true.
Proof. repeat split; vm_compute; reflexivity. Qed.

(** C7 (amended): for an identity whose role is dosen or mahasiswa, not
    yet registered, and any interleaving of the lifecycles of its sockets,
    [isUserOnline] is true exactly when the trace has more connects than
    disconnects, in the set-keyed and in the counter-keyed registry; for a
    dosen the same holds of [isDosenOnline]; the number of registered
    sockets is the surplus of connects over disconnects and the stored
    count is never negative. *)
Theorem presence_follows_lifecycles
    (user : User) (trace : list Event) (w : World) (r : Counted.Registry) :
  role user = "dosen" \/ role user = "mahasiswa" ->
  onlineUsersMap w !! id user = None ->
  onlineDosenMap w !! id user = None ->
  Counted.onlineUsersMap r !! id user = None ->
  Counted.onlineDosenMap r !! id user = None ->
  interleaving ∅ ∅ trace = true ->
  let online := bool_decide (disconnects trace < connects trace) in
  let w' := replay user trace w in
  let r' := replay_counted user trace r in
  isUserOnline w' (id user) = online
  /\ Counted.isUserOnline r' (id user) = online
  /\ (role user = "dosen" ->
      isDosenOnline w' (id user) = online
      /\ Counted.isDosenOnline r' (id user) = online
      /\ (0 <= Counted.count_or_0 (Counted.onlineDosenMap r') (id user))%Z)
  /\ size (sockets_or_new (onlineUsersMap w') (id user))
     = connects trace - disconnects trace
  /\ Counted.count_or_0 (Counted.onlineUsersMap r') (id user)
     = (Z.of_nat (connects trace) - Z.of_nat (disconnects trace))%Z
  /\ (0 <= Counted.count_or_0 (Counted.onlineUsersMap r') (id user))%Z.
Proof.
  intros T Hu Hd Hcu Hcd Hwf online w' r'. subst online w' r'.
  assert (S0 : forall m : gmap string (gset string),
             m !! id user = None -> holds m (id user) ∅).
  { intros m H. unfold holds. rewrite decide_True by reflexivity. exact H. }
  assert (C0 : forall m : gmap string Z,
             m !! id user = None -> counts m (id user) (size (∅ : gset string))).
  { intros m H. unfold counts. rewrite size_empty. exact H. }
  destruct (track_size (id user) trace ∅ ∅ _ (reflexivity _) Hwf (S0 _ Hu))
    as (live & Hl & El).
  destruct (tally_size (id user) trace ∅ ∅ _ (reflexivity _) Hwf (C0 _ Hcu))
    as (n & Hn & En).
  rewrite size_empty in El, En. simpl in El, En.
  destruct (online_of_holds _ _ _ trace Hl El) as [O1 O2].
  destruct (online_of_counts _ _ _ trace Hn En) as (P1 & P2 & P3).
  unfold isUserOnline, Counted.isUserOnline.
  rewrite (users_replay user trace T), (counted_users_replay user trace T).
  split; [exact O1|]. split; [exact P1|]. split; [|auto].
  intros R. unfold isDosenOnline, Counted.isDosenOnline.
  rewrite (dosen_replay user trace R), (counted_dosen_replay user trace R).
  destruct (track_size (id user) trace ∅ ∅ _ (reflexivity _) Hwf (S0 _ Hd))
    as (live2 & Hl2 & El2).
  destruct (tally_size (id user) trace ∅ ∅ _ (reflexivity _) Hwf (C0 _ Hcd))
    as (n2 & Hn2 & En2).
  rewrite size_empty in El2, En2. simpl in El2, En2.
  destruct (online_of_holds _ _ _ trace Hl2 El2) as [Q1 _].
  destruct (online_of_counts _ _ _ trace Hn2 En2) as (Q2 & _ & Q3).
  auto.
Qed.

(** A dosen with two sockets, the first of which has gone, is online. *)
Lemma presence_follows_lifecycles_witness :
  isUserOnline
    (replay lecturer [Connect "s1"; Connect "s2"; Disconnect "s1"] (boot seeded_db))
    (id lecturer) = true
  /\ Counted.isUserOnline
       (replay_counted lecturer [Connect "s1"; Connect "s2"; Disconnect "s1"] Counted.empty)
       (id lecturer) = true.
Proof.
  destruct (presence_follows_lifecycles lecturer
              [Connect "s1"; Connect "s2"; Disconnect "s1"] (boot seeded_db) Counted.empty)
    as (A & B & _).
  - left; reflexivity.
  - reflexivity.
  - reflexivity.
  - reflexivity.
  - reflexivity.
  - vm_compute; reflexivity.
  - split; [exact A | exact B].
Defined.

(** C8, as the counter revision has it: a second connection of the same
    socket raises the count to 2, so that after one disconnection the
    dosen still counts as online; and the disconnection of a socket that
    never connected takes a connected dosen offline. *)
Lemma counted_not_idempotent_counterexample :
  Counted.onlineUsersMap (Counted.on_connection "s1" lecturer Counted.empty)
    !! id lecturer = Some 1%Z
  /\ Counted.onlineUsersMap
       (Counted.on_connection "s1" lecturer
          (Counted.on_connection "s1" lecturer Counted.empty))
     !! id lecturer = Some 2%Z
  /\ Counted.isUserOnline
       (Counted.on_disconnect "s1" lecturer
          (Counted.on_connection "s1" lecturer Counted.empty)) (id lecturer) = false
  /\ Counted.isUserOnline
       (Counted.on_disconnect "s1" lecturer
          (Counted.on_connection "s1" lecturer
             (Counted.on_connection "s1" lecturer Counted.empty))) (id lecturer) = true
  /\ Counted.isUserOnline
       (Counted.on_disconnect "s2" lecturer
          (Counted.on_connection "s1" lecturer Counted.empty)) (id lecturer) = false.
Proof. repeat split; vm_compute; reflexivity. Qed.

End PresenceFacts.

(** ** The location pipeline *)

Section PipelineFacts.
Import Engine Store.

(** Unfolding the handlers down to matches on what the database does. *)
Ltac async_unfold :=
  unfold run, saveLocation, logLocationToHistory, checkGeofence, try_catch, bind,
    query, run_query, statement, effect, read, ret, throw, js_alias in *.

Ltac async_cases :=
  repeat match goal with
         | |- context [match rejects ?e ?s with _ => _ end] =>
             destruct (rejects e s) eqn:?; simpl
         | |- context [match ?m !! ?k with _ => _ end] =>
             destruct (m !! k) eqn:?; simpl
         | |- context [if ?b then _ else _] => destruct b eqn:?; simpl
         | |- context [match selectLastHistory ?d ?u ?a ?b with _ => _ end] =>
             destruct (selectLastHistory d u a b) eqn:?; simpl
         end.

Section SaveLocation.
Variable env : Env.
Variables (userId : string) (g : Geofence.GeofenceResult) (w : World).

(** [saveLocation] never throws; it touches the [locations] table, the
    statement log and the console and nothing else. *)
Lemma saveLocation_returns :
  saveLocation env userId g w = (Returned tt, run (saveLocation env userId g) w).
Proof. async_unfold. simpl. async_cases; reflexivity. Qed.

Lemma saveLocation_frame :
  let w' := run (saveLocation env userId g) w in
  emitted w' = emitted w
  /\ lastSaveTimestamps w' = lastSaveTimestamps w
  /\ onlineDosenMap w' = onlineDosenMap w
  /\ onlineUsersMap w' = onlineUsersMap w
  /\ rooms w' = rooms w
  /\ location_history (db w') = location_history (db w)
  /\ geofences (db w') = geofences (db w)
  /\ tracking_permissions (db w') = tracking_permissions (db w)
  /\ users (db w') = users (db w)
  /\ exists lines, console w' = console w ++ lines.
Proof.
  async_unfold. simpl. async_cases; repeat split;
    first [eexists; reflexivity | exists []; symmetry; apply app_nil_r].
Qed.

(** It sends the existence query and, when that is answered, one write. *)
Lemma saveLocation_issued :
  exists stmts,
    issued (run (saveLocation env userId g) w) = issued w ++ stmts
    /\ ~ In SelectLastHistory stmts /\ ~ In InsertLocationHistory stmts
    /\ (rejects env SelectLocationUserId = None ->
        length (List.filter is_location_write stmts) = 1).
Proof.
  async_unfold. simpl. async_cases;
    (eexists; split; [rewrite <- ?app_assoc; reflexivity|]);
    simpl; repeat split; try congruence; intuition congruence.
Qed.

(** On a database that answers, the row of the user is the display location. *)
Lemma saveLocation_locations :
  rejects env SelectLocationUserId = None ->
  rejects env UpdateLocations = None ->
  rejects env InsertLocations = None ->
  locations (db (run (saveLocation env userId g) w))
  = <[userId := location_row env g]> (locations (db w)).
Proof.
  intros H1 H2 H3. async_unfold. simpl. rewrite H1. simpl.
  destruct (locations (db w) !! userId); simpl; rewrite ?H2, ?H3; reflexivity.
Qed.

(** A rejected statement is logged and the table is left as it was. *)
Lemma saveLocation_logs (e : string) :
  save_rejected env w userId e ->
  console (run (saveLocation env userId g) w)
  = console w ++ [("Error saving location: " ++ e)%string]
  /\ locations (db (run (saveLocation env userId g) w)) = locations (db w).
Proof.
  intros [H|[H [[[x Hx] H']|[Hx H']]]]; async_unfold; simpl; rewrite H; simpl;
    try (split; reflexivity); rewrite Hx; simpl; rewrite H'; split; reflexivity.
Qed.
End SaveLocation.

Section LastHistory.
Variables (userId : string) (dayOfWeek today : Z).





End LastHistory.

Section LogLocation.
Variable env : Env.
Variables (userId : string) (g : Geofence.GeofenceResult) (w : World).

(** [logLocationToHistory] never throws. *)
Lemma logLocationToHistory_returns :
  logLocationToHistory env userId g w
  = (Returned tt, run (logLocationToHistory env userId g) w).
Proof. async_unfold. simpl. async_cases; reflexivity. Qed.

(** An out-of-zone classification returns before anything is read. *)
Lemma logLocationToHistory_outside :
  Geofence.isInside g = false ->
  run (logLocationToHistory env userId g) w = w.
Proof. intros H. async_unfold. rewrite H. reflexivity. Qed.

(** It touches the history table, the statement log and the console only. *)
Lemma logLocationToHistory_frame :
  let w' := run (logLocationToHistory env userId g) w in
  emitted w' = emitted w
  /\ lastSaveTimestamps w' = lastSaveTimestamps w
  /\ onlineDosenMap w' = onlineDosenMap w
  /\ onlineUsersMap w' = onlineUsersMap w
  /\ rooms w' = rooms w
  /\ locations (db w') = locations (db w)
  /\ location_writes w' = location_writes w
  /\ exists lines, console w' = console w ++ lines.
Proof.
  async_unfold. unfold location_writes. simpl.
  async_cases; simpl; rewrite ?List.filter_app, ?length_app; simpl;
    repeat split; try reflexivity; try lia;
    first [eexists; reflexivity | exists []; symmetry; apply app_nil_r].
Qed.

Lemma logLocationToHistory_issued :
  exists stmts,
    issued (run (logLocationToHistory env userId g) w) = issued w ++ stmts
    /\ (Geofence.isInside g = false -> stmts = []).
Proof.
  destruct (Geofence.isInside g) eqn:E.
  - async_unfold. rewrite E. simpl.
    async_cases; (eexists; split; [rewrite <- ?app_assoc; reflexivity | discriminate]).
  - rewrite logLocationToHistory_outside by exact E.
    exists []. split; [symmetry; apply app_nil_r | reflexivity].
Qed.


(** A rejected statement is logged and the history is left as it was. *)
Lemma logLocationToHistory_logs (e : string) :
  Geofence.isInside g = true ->
  history_rejected env w userId g e ->
  console (run (logLocationToHistory env userId g) w)
  = console w ++ [("Error logging location to history: " ++ e)%string]
  /\ location_history (db (run (logLocationToHistory env userId g) w))
     = location_history (db w).
Proof.
  intros H1 [H2|(H2 & H3 & H4)]; async_unfold; rewrite H1; simpl; rewrite H2; simpl.
  - split; reflexivity.
  - rewrite H3. simpl. rewrite H4. split; reflexivity.
Qed.
End LogLocation.

Section Pipeline.
Variable env : Env.

(** [checkGeofence] never throws. *)
Lemma checkGeofence_returns (lat long : float) (w : World) :
  checkGeofence env lat long w
  = (Returned (classified env w lat long), run (checkGeofence env lat long) w).
Proof.
  unfold checkGeofence, classified, run. simpl.
  destruct (rejects env SelectGeofences); reflexivity.
Qed.

Lemma checkGeofence_frame (lat long : float) (w : World) :
  let w' := run (checkGeofence env lat long) w in
  emitted w' = emitted w
  /\ lastSaveTimestamps w' = lastSaveTimestamps w
  /\ onlineDosenMap w' = onlineDosenMap w
  /\ onlineUsersMap w' = onlineUsersMap w
  /\ rooms w' = rooms w
  /\ db w' = db w
  /\ issued w' = issued w ++ [SelectGeofences]
  /\ exists lines, console w' = console w ++ lines.
Proof.
  unfold checkGeofence, run. simpl.
  destruct (rejects env SelectGeofences); simpl; repeat split;
    first [eexists; reflexivity | exists []; symmetry; apply app_nil_r].
Qed.

(** The pipeline, step by step: none of the steps throws. *)
Lemma processSample_steps (socketId : string) (user : User) (lat long : float)
    (w : World) :
  let g := classified env w lat long in
  let w1 := run (checkGeofence env lat long) w in
  let w2 := emit (ToRoom (room_of (id user))) (dosen_moved (locationData env user g)) w1 in
  let w3 := if due env w user
            then set_lastSaveTimestamps (fun m => <[id user := date_now env]> m)
                   (run (saveLocation env (id user) g) w2)
            else w2 in
  let w4 := run (logLocationToHistory env (id user) g) w3 in
  processSample env socketId user lat long w
  = (Returned tt, emit (ToSocket socketId) (location_updated true (locationData env user g)) w4).
Proof.
  intros g w1 w2 w3 w4. unfold processSample.
  unfold bind at 1. rewrite checkGeofence_returns. fold g. fold w1.
  unfold bind at 1. unfold effect at 1. fold w2.
  unfold bind at 1. unfold read at 1.
  assert (L : lastSave_or_0 w2 (id user) = lastSave_or_0 w (id user)).
  { unfold lastSave_or_0, w2, w1. simpl.
    destruct (checkGeofence_frame lat long w) as (_ & -> & _). reflexivity. }
  rewrite L. fold (due env w user).
  unfold bind at 1.
  assert (S3 : (if due env w user
                then bind (saveLocation env (id user) g)
                       (fun _ => effect (set_lastSaveTimestamps
                                           (fun m => <[id user := date_now env]> m)))
                else ret tt) w2 = (Returned tt, w3)).
  { unfold w3. destruct (due env w user); [|reflexivity].
    unfold bind. rewrite saveLocation_returns. reflexivity. }
  rewrite S3. unfold bind at 1. rewrite logLocationToHistory_returns. fold w4.
  reflexivity.
Qed.

(** A valid sample goes through the pipeline. *)
Lemma handleLocationUpdate_valid (socketId : string) (user : User) (data : Js.Value)
    (lat long : float) (w : World) :
  valid_sample user data lat long ->
  handleLocationUpdate env socketId user data w
  = processSample env socketId user lat long w.
Proof.
  intros (R & A & B). unfold handleLocationUpdate, try_catch, js_alias.
  rewrite R, A, B. simpl. unfold bind at 1. unfold ret at 1. unfold bind at 1. unfold ret at 1.
  rewrite processSample_steps. reflexivity.
Qed.
End Pipeline.





Section Sample.
Variable env : Env.
Variables (socketId : string) (user : User) (data : Js.Value) (lat long : float).
Variable w : World.
Hypothesis valid : valid_sample user data lat long.

Let g := classified env w lat long.
Let w' := run (handleLocationUpdate env socketId user data) w.

(** The worlds a valid sample goes through, with what each step keeps. *)
Lemma sample_chain :
  exists w1 ws w4 : World,
    let w2 := emit (ToRoom (room_of (id user))) (dosen_moved (locationData env user g)) w1 in
    let w3 := if due env w user
              then set_lastSaveTimestamps (fun m => <[id user := date_now env]> m) ws
              else w2 in
    handleLocationUpdate env socketId user data w
      = (Returned tt, emit (ToSocket socketId) (location_updated true (locationData env user g)) w4)
    /\ w1 = run (checkGeofence env lat long) w
    /\ ws = run (saveLocation env (id user) g) w2
    /\ w4 = run (logLocationToHistory env (id user) g) w3.
Proof.
  exists (run (checkGeofence env lat long) w).
  eexists. eexists. cbv zeta.
  split; [|split; [reflexivity|split; reflexivity]].
  rewrite (handleLocationUpdate_valid env _ _ _ _ _ _ valid).
  rewrite processSample_steps. reflexivity.
Qed.

Ltac chain :=
  let w1 := fresh "w1" in
  let ws := fresh "ws" in
  let w4 := fresh "w4" in
  let R := fresh "R" in
  let E1 := fresh "E1" in
  let Es := fresh "Es" in
  let E4 := fresh "E4" in
  destruct sample_chain as (w1 & ws & w4 & R & E1 & Es & E4);
  cbv zeta in R, Es, E4;
  let F1 := fresh "F1" in
  let Fs := fresh "Fs" in
  let F4 := fresh "F4" in
  pose proof (checkGeofence_frame env lat long w) as F1; cbv zeta in F1; rewrite <- E1 in F1;
  pose proof (saveLocation_frame env (id user) g
                (emit (ToRoom (room_of (id user)))
                      (dosen_moved (locationData env user g)) w1)) as Fs;
  cbv zeta in Fs; rewrite <- Es in Fs;
  pose proof (logLocationToHistory_frame env (id user) g
                (if due env w user
                 then set_lastSaveTimestamps (fun m => <[id user := date_now env]> m) ws
                 else emit (ToRoom (room_of (id user)))
                           (dosen_moved (locationData env user g)) w1)) as F4;
  cbv zeta in F4; rewrite <- E4 in F4;
  unfold w', run; rewrite R; cbn [snd].

(** What a valid sample leaves in each component of the world. *)
Lemma sample_returns :
  handleLocationUpdate env socketId user data w = (Returned tt, w').
Proof. chain. reflexivity. Qed.

Lemma sample_emitted :
  emitted w' = emitted w ++ broadcast_and_ack env socketId user g.
Proof.
  chain. cbn [emit set_emitted emitted].
  destruct F4 as (-> & _). destruct F1 as (F1 & _). destruct Fs as (Fs & _).
  destruct (due env w user); cbn [set_lastSaveTimestamps emit set_emitted emitted];
    rewrite ?Fs; cbn [emit set_emitted emitted]; rewrite F1, <- app_assoc; reflexivity.
Qed.

Lemma sample_lastSaveTimestamps :
  lastSaveTimestamps w'
  = if due env w user
    then <[id user := date_now env]> (lastSaveTimestamps w)
    else lastSaveTimestamps w.
Proof.
  chain. cbn [emit set_emitted lastSaveTimestamps].
  destruct F4 as (_ & -> & _). destruct F1 as (_ & F1 & _). destruct Fs as (_ & Fs & _).
  destruct (due env w user); cbn [set_lastSaveTimestamps emit set_emitted lastSaveTimestamps];
    rewrite ?Fs; cbn [emit set_emitted lastSaveTimestamps]; rewrite F1; reflexivity.
Qed.

Lemma sample_not_due :
  due env w user = false ->
  locations (db w') = locations (db w) /\ location_writes w' = location_writes w.
Proof.
  intros D. chain. rewrite D in F4.
  destruct F4 as (_ & _ & _ & _ & _ & F4 & F4' & _).
  destruct F1 as (_ & _ & _ & _ & _ & F1 & F1' & _).
  unfold location_writes in *. cbn [emit set_emitted db issued] in *.
  rewrite F4, F4', F1, F1', List.filter_app, length_app. simpl. split; [reflexivity | lia].
Qed.

Lemma sample_due :
  due env w user = true ->
  rejects env SelectLocationUserId = None ->
  rejects env UpdateLocations = None ->
  rejects env InsertLocations = None ->
  locations (db w') = <[id user := location_row env g]> (locations (db w))
  /\ location_writes w' = location_writes w + 1.
Proof.
  intros D H1 H2 H3. chain. rewrite D in F4.
  destruct F4 as (_ & _ & _ & _ & _ & F4 & F4' & _).
  destruct F1 as (_ & _ & _ & _ & _ & F1 & F1' & _).
  unfold location_writes in *.
  cbn [emit set_emitted set_lastSaveTimestamps db issued] in *.
  rewrite F4, F4'. split.
  - rewrite Es, (saveLocation_locations env _ _ _ H1 H2 H3).
    cbn [emit set_emitted db]. rewrite F1. reflexivity.
  - destruct (saveLocation_issued env (id user) g
                (emit (ToRoom (room_of (id user)))
                      (dosen_moved (locationData env user g)) w1))
      as (stmts & I1 & _ & _ & I2).
    rewrite <- Es in I1. rewrite I1. cbn [emit set_emitted issued].
    rewrite F1', !List.filter_app, !length_app, (I2 H1). simpl. lia.
Qed.


Lemma sample_save_logged (e : string) :
  due env w user = true ->
  save_rejected env w (id user) e ->
  In ("Error saving location: " ++ e)%string (console w')
  /\ locations (db w') = locations (db w).
Proof.
  intros D S. chain. rewrite D in F4.
  destruct F4 as (_ & _ & _ & _ & _ & F4 & _ & (l4 & C4)).
  destruct F1 as (_ & _ & _ & _ & _ & F1 & _).
  assert (S' : save_rejected env
                 (emit (ToRoom (room_of (id user)))
                       (dosen_moved (locationData env user g)) w1) (id user) e).
  { unfold save_rejected in *. cbn [emit set_emitted db]. rewrite F1. exact S. }
  destruct (saveLocation_logs env (id user) g _ e S') as (C & L).
  rewrite <- Es in C, L.
  cbn [emit set_emitted set_lastSaveTimestamps db console] in *.
  rewrite C4, C, F4, L, F1. split; [|reflexivity].
  apply in_or_app. left. apply in_or_app. right. left. reflexivity.
Qed.

Lemma sample_history_logged (e : string) :
  Geofence.isInside g = true ->
  history_rejected env w (id user) g e ->
  In ("Error logging location to history: " ++ e)%string (console w')
  /\ location_history (db w') = location_history (db w).
Proof.
  intros I H. chain.
  destruct F1 as (_ & _ & _ & _ & _ & F1 & _).
  destruct Fs as (_ & _ & _ & _ & _ & Fs & _).
  set (w3 := if due env w user
             then set_lastSaveTimestamps (fun m => <[id user := date_now env]> m) ws
             else emit (ToRoom (room_of (id user)))
                       (dosen_moved (locationData env user g)) w1) in *.
  assert (H3 : location_history (db w3) = location_history (db w)).
  { unfold w3. destruct (due env w user);
      cbn [emit set_emitted set_lastSaveTimestamps db] in *; rewrite ?Fs;
      cbn [emit set_emitted db]; rewrite F1; reflexivity. }
  assert (H' : history_rejected env w3 (id user) g e).
  { unfold history_rejected, selectLastHistory in *. rewrite H3. exact H. }
  destruct (logLocationToHistory_logs env (id user) g w3 e I H') as (C & L).
  rewrite <- E4 in C, L. cbn [emit set_emitted db console].
  rewrite C, L, H3. split; [|reflexivity].
  apply in_or_app. right. left. reflexivity.
Qed.
End Sample.


(** C3 (amended): for valid samples of one lecturer, handled one after
    the other, with [elapsed] the clock reading minus the lecturer's last
    save timestamp ([lastSaveTimestamps.get(id) || 0], so the reading
    itself when there is none): the save is attempted, and the timestamp
    set to the reading, exactly when [elapsed >= 60000]; when
    [elapsed < 60000] the [locations] table is not written.  When the
    save is attempted and the database accepts its statements, the
    lecturer's row is upserted by one write; when the database rejects
    one of them, the row stays as it was and the timestamp is set all the
    same, so that a second sample less than 60 s later is not saved
    either.  Hence, after a first sample that was saved, a second sample
    less than 60 s later adds no write (one in total) and a second sample
    60 s or more later adds one (two in total). *)
Theorem persistence_throttle
    (env1 env2 : Env) (socket1 socket2 : string) (user : User)
    (data1 data2 : Js.Value) (lat1 long1 lat2 long2 : float) (w : World) :
  valid_sample user data1 lat1 long1 ->
  valid_sample user data2 lat2 long2 ->
  let w1 := run (handleLocationUpdate env1 socket1 user data1) w in
  let w2 := run (handleLocationUpdate env2 socket2 user data2) w1 in
  let elapsed := (date_now env1 - lastSave_or_0 w (id user))%Z in
  (lastSaveTimestamps w !! id user = None -> elapsed = date_now env1)
  /\ (forall t, lastSaveTimestamps w !! id user = Some t ->
        elapsed = (date_now env1 - t)%Z)
  /\ lastSaveTimestamps w1
     = (if Z.leb 60000 elapsed
        then <[id user := date_now env1]> (lastSaveTimestamps w)
        else lastSaveTimestamps w)
  /\ ((elapsed < 60000)%Z ->
      locations (db w1) = locations (db w) /\ location_writes w1 = location_writes w)
  /\ ((60000 <= elapsed)%Z -> save_accepted env1 ->
      locations (db w1)
      = <[id user := location_row env1 (classified env1 w lat1 long1)]> (locations (db w))
      /\ location_writes w1 = location_writes w + 1)
  /\ ((60000 <= elapsed)%Z ->
      forall e, save_rejected env1 w (id user) e ->
        locations (db w1) = locations (db w)
        /\ lastSaveTimestamps w1 !! id user = Some (date_now env1)
        /\ In ("Error saving location: " +:+ e) (console w1)
        /\ ((date_now env2 - date_now env1 < 60000)%Z ->
            locations (db w2) = locations (db w)))
  /\ ((60000 <= elapsed)%Z -> save_accepted env1 -> save_accepted env2 ->
      location_writes w2
      = location_writes w
        + (if Z.leb 60000 (date_now env2 - date_now env1) then 2 else 1)).
Proof.
  intros V1 V2 w1 w2 elapsed.
  assert (T1 := sample_lastSaveTimestamps env1 socket1 user data1 lat1 long1 w V1).
  fold w1 in T1. unfold due, LOCATION_SAVE_THROTTLE_MS in T1. fold elapsed in T1.
  assert (Dt : (60000 <= elapsed)%Z -> due env1 w user = true)
    by (intros L; unfold due; apply Z.leb_le; exact L).
  assert (Df : (elapsed < 60000)%Z -> due env1 w user = false)
    by (intros L; unfold due; apply Z.leb_gt; exact L).
  assert (D2 : (60000 <= elapsed)%Z ->
               due env2 w1 user = Z.leb 60000 (date_now env2 - date_now env1)).
  { intros L. unfold due at 1, lastSave_or_0. rewrite T1.
    apply Z.leb_le in L. rewrite L, lookup_insert_eq. reflexivity. }
  split; [|split; [|split; [|split; [|split; [|split]]]]].
  - intros N. unfold elapsed, lastSave_or_0. rewrite N. lia.
  - intros t N. unfold elapsed, lastSave_or_0. rewrite N. reflexivity.
  - exact T1.
  - intros L. exact (sample_not_due env1 socket1 user data1 lat1 long1 w V1 (Df L)).
  - intros L (H1 & H2 & H3).
    exact (sample_due env1 socket1 user data1 lat1 long1 w V1 (Dt L) H1 H2 H3).
  - intros L e S.
    destruct (sample_save_logged env1 socket1 user data1 lat1 long1 w V1 e (Dt L) S)
      as (C & K). fold w1 in C, K.
    split; [exact K|]. split.
    + rewrite T1. apply Z.leb_le in L. rewrite L. apply lookup_insert_eq.
    + split; [exact C|]. intros G.
      assert (N : due env2 w1 user = false) by (rewrite (D2 L); apply Z.leb_gt; exact G).
      destruct (sample_not_due env2 socket2 user data2 lat2 long2 w1 V2 N) as (K2 & _).
      fold w2 in K2. rewrite K2. exact K.
  - intros L (A1 & A2 & A3) (B1 & B2 & B3).
    destruct (sample_due env1 socket1 user data1 lat1 long1 w V1 (Dt L) A1 A2 A3)
      as (_ & W1). fold w1 in W1.
    specialize (D2 L).
    destruct (Z.leb 60000 (date_now env2 - date_now env1)).
    + destruct (sample_due env2 socket2 user data2 lat2 long2 w1 V2 D2 B1 B2 B3)
        as (_ & W2). fold w2 in W2. lia.
    + destruct (sample_not_due env2 socket2 user data2 lat2 long2 w1 V2 D2) as (_ & W2).
      fold w2 in W2. lia.
Qed.


(** C9: for a valid sample and whatever statements the database rejects,
    the handler returns, having emitted exactly the [dosen_moved]
    broadcast to the lecturer's room followed by the [location_updated]
    acknowledgement to the sending socket; a rejection in the persistence
    step or in the history step is written to the console and leaves the
    table concerned as it was. *)
Theorem store_failures_swallowed
    (env : Env) (socketId : string) (user : User) (data : Js.Value)
    (lat long : float) (w : World) :
  valid_sample user data lat long ->
  let g := classified env w lat long in
  let w' := run (handleLocationUpdate env socketId user data) w in
  handleLocationUpdate env socketId user data w = (Returned tt, w')
  /\ emitted w' = emitted w ++ broadcast_and_ack env socketId user g
  /\ (forall e,
        (LOCATION_SAVE_THROTTLE_MS <= date_now env - lastSave_or_0 w (id user))%Z ->
        save_rejected env w (id user) e ->
        In ("Error saving location: " ++ e)%string (console w')
        /\ locations (db w') = locations (db w))
  /\ (forall e, Geofence.isInside g = true -> history_rejected env w (id user) g e ->
        In ("Error logging location to history: " ++ e)%string (console w')
        /\ location_history (db w') = location_history (db w)).
Proof.
  intros V g w'. split; [|split; [|split]].
  - apply (sample_returns env socketId user data lat long w V).
  - apply (sample_emitted env socketId user data lat long w V).
  - intros e L. apply (sample_save_logged env socketId user data lat long w V).
    unfold due. apply Z.leb_le. exact L.
  - intros e. apply (sample_history_logged env socketId user data lat long w V).
Qed.

(** Sample runs. *)
Lemma valid_payload (lat long : float) : valid_sample lecturer (payload lat long) lat long.
Proof. repeat split. Qed.




(** First sample of a day, the same zone ten minutes later, the same zone
    61 minutes later, another zone one second later. *)
Example history_scenario :
  length (location_history (db first_sample)) = 1
  /\ length (location_history (db
        (run (handleLocationUpdate (env_at (noon + 600000)) "s1" lecturer at_indralaya)
             first_sample))) = 1
  /\ length (location_history (db
        (run (handleLocationUpdate (env_at (noon + 3660000)) "s1" lecturer at_indralaya)
             first_sample))) = 2
  /\ length (location_history (db
        (run (handleLocationUpdate (env_at (noon + 1000)) "s1" lecturer at_palembang)
             first_sample))) = 2.
Proof. repeat split; vm_compute; reflexivity. Qed.

(** C3, as the code has it: with the store down the write of the first
    sample is rejected, yet the timestamp is set, and the sample that
    follows 10 s later on a store that answers is skipped, so that no row
    is saved by the two calls; and with the clock at 0 a lecturer without
    previous save does not qualify, so that calls at 0 s and 61 s give
    one write. *)
Lemma persistence_throttle_counterexample :
  lastSaveTimestamps
    (run (handleLocationUpdate (env_store_down noon) "s1" lecturer at_indralaya)
         (boot seeded_db)) !! "dosen-1" = Some noon
  /\ locations
       (db (run (handleLocationUpdate (env_store_down noon) "s1" lecturer at_indralaya)
                (boot seeded_db))) !! "dosen-1" = None
  /\ locations
       (db (run (handleLocationUpdate (env_at (noon + 10000)) "s1" lecturer at_indralaya)
                (run (handleLocationUpdate (env_store_down noon) "s1" lecturer at_indralaya)
                     (boot seeded_db)))) !! "dosen-1" = None
  /\ location_writes
       (run (handleLocationUpdate (env_at 0) "s1" lecturer at_indralaya) (boot seeded_db))
     = 0
  /\ location_writes
       (run (handleLocationUpdate (env_at 61000) "s1" lecturer at_indralaya)
            (run (handleLocationUpdate (env_at 0) "s1" lecturer at_indralaya)
                 (boot seeded_db)))
     = 1.
Proof. repeat split; vm_compute; reflexivity. Qed.

(** Two samples 10 s apart are saved once, two samples 61 s apart twice;
    after a rejected save the sample 10 s later is skipped. *)
Lemma persistence_throttle_witness :
  location_writes
    (run (handleLocationUpdate (env_at (noon + 10000)) "s1" lecturer at_indralaya)
         first_sample) = 1
  /\ location_writes
       (run (handleLocationUpdate (env_at (noon + 61000)) "s1" lecturer at_palembang)
            first_sample) = 2
  /\ locations
       (db (run (handleLocationUpdate (env_at (noon + 10000)) "s1" lecturer at_indralaya)
                (run (handleLocationUpdate (env_store_down noon) "s1" lecturer at_indralaya)
                     (boot seeded_db))))
     = locations (db (boot seeded_db)).
Proof.
  assert (A : save_accepted (env_at noon)) by (repeat split).
  split; [|split].
  - destruct (persistence_throttle (env_at noon) (env_at (noon + 10000)) "s1" "s1" lecturer
                at_indralaya at_indralaya _ _ _ _ (boot seeded_db)
                (valid_payload _ _) (valid_payload _ _)) as (_ & _ & _ & _ & _ & _ & H).
    refine (H _ A _); [vm_compute; discriminate | repeat split].
  - destruct (persistence_throttle (env_at noon) (env_at (noon + 61000)) "s1" "s1" lecturer
                at_indralaya at_palembang _ _ _ _ (boot seeded_db)
                (valid_payload _ _) (valid_payload _ _)) as (_ & _ & _ & _ & _ & _ & H).
    refine (H _ A _); [vm_compute; discriminate | repeat split].
  - destruct (persistence_throttle (env_store_down noon) (env_at (noon + 10000)) "s1" "s1"
                lecturer at_indralaya at_indralaya _ _ _ _ (boot seeded_db)
                (valid_payload _ _) (valid_payload _ _)) as (_ & _ & _ & _ & _ & H & _).
    destruct (H ltac:(vm_compute; discriminate) "SQLITE_BUSY: database is locked")
      as (_ & _ & _ & K).
    + left. reflexivity.
    + apply K. vm_compute. reflexivity.
Defined.


(** With the store down, the broadcast and the acknowledgement still go
    out and both failures are on the console. *)
Lemma store_failures_swallowed_witness :
  emitted (run (handleLocationUpdate (env_store_down noon) "s1" lecturer at_indralaya)
               (boot seeded_db))
  = broadcast_and_ack (env_store_down noon) "s1" lecturer inside_indralaya
  /\ In "Error saving location: SQLITE_BUSY: database is locked"
        (console (run (handleLocationUpdate (env_store_down noon) "s1" lecturer at_indralaya)
                      (boot seeded_db)))
  /\ In "Error logging location to history: SQLITE_BUSY: database is locked"
        (console (run (handleLocationUpdate (env_store_down noon) "s1" lecturer at_indralaya)
                      (boot seeded_db))).
Proof.
  destruct (store_failures_swallowed (env_store_down noon) "s1" lecturer at_indralaya _ _
              (boot seeded_db) (valid_payload _ _)) as (_ & E & S & H).
  split; [exact E|]. split.
  - apply (S "SQLITE_BUSY: database is locked");
      [vm_compute; discriminate | left; reflexivity].
  - apply (H "SQLITE_BUSY: database is locked"); [vm_compute; reflexivity | left; reflexivity].
Defined.

End PipelineFacts.

(** ** Joining a room *)

Section JoinFacts.
Import Engine Store.

(** As in the pipeline. *)
Ltac async_unfold :=
  unfold run, try_catch, bind, query, run_query, statement, effect, read, ret,
    throw, js_alias in *.

(** Case analysis over what the join handler reads. *)
Ltac join_cases :=
  repeat match goal with
         | |- context [match rejects ?e ?s with _ => _ end] =>
             destruct (rejects e s) eqn:?; cbn
         | |- context [match selectApprovedPermission ?d ?u ?l with _ => _ end] =>
             destruct (selectApprovedPermission d u l) eqn:?; cbn
         | |- context [match lookup_text ?m ?k with _ => _ end] =>
             destruct (lookup_text m k) eqn:?; cbn
         | |- context [if isUserOnline ?w ?k then _ else _] =>
             destruct (isUserOnline w k) eqn:?; cbn
         | |- context [match Js.bound ?h ?v with _ => _ end] =>
             destruct (Js.bound h v) eqn:?; cbn
         | |- context [match selectPermissionById ?d ?k with _ => _ end] =>
             destruct (selectPermissionById d k) eqn:?; cbn
         | |- context [if ?b then _ else _] => destruct b eqn:?; cbn
         end.

(** The approval endpoint does not touch room membership. *)
Lemma handleRequest_rooms (env : Env) (lecturerId : string)
    (permission_id action : Js.Value) (w : World) :
  rooms (run (handleRequest env lecturerId permission_id action) w) = rooms w.
Proof.
  unfold handleRequest. async_unfold. cbn.
  destruct (Js.falsy permission_id || Js.falsy action); [reflexivity|].
  destruct action; try reflexivity. cbn. join_cases; reflexivity.
Qed.

(** The three refusals of the join handler. *)
Lemma join_wrong_role (env : Env) (socketId : string) (user : User) (data : Js.Value)
    (w : World) :
  role user <> "mahasiswa" ->
  let w' := run (handleJoinDosenRoom env socketId user data) w in
  rooms w' = rooms w
  /\ issued w' = issued w
  /\ db w' = db w
  /\ emitted w' = emitted w ++ [(ToSocket socketId, error only_mahasiswa)].
Proof.
  intros R. unfold handleJoinDosenRoom. async_unfold.
  destruct (String.eqb_spec (role user) "mahasiswa") as [E|_]; [contradiction|].
  cbn. repeat split.
Qed.

Lemma join_falsy (env : Env) (socketId : string) (user : User) (data dosenId : Js.Value)
    (w : World) :
  role user = "mahasiswa" ->
  Js.alias data "dosenId" "dosen_id" = Some dosenId ->
  Js.falsy dosenId = true ->
  let w' := run (handleJoinDosenRoom env socketId user data) w in
  rooms w' = rooms w
  /\ issued w' = issued w
  /\ db w' = db w
  /\ emitted w' = emitted w ++ [(ToSocket socketId, error "dosen_id is required")].
Proof.
  intros R A F. unfold handleJoinDosenRoom. async_unfold.
  rewrite R, A. cbn. rewrite F. cbn. repeat split.
Qed.

Lemma join_denied (env : Env) (socketId : string) (user : User) (data dosenId : Js.Value)
    (w : World) :
  role user = "mahasiswa" ->
  Js.alias data "dosenId" "dosen_id" = Some dosenId ->
  Js.falsy dosenId = false ->
  rejects env SelectApprovedPermission = None ->
  selectApprovedPermission (db w) (id user) (Js.bound (host env) dosenId) = None ->
  let w' := run (handleJoinDosenRoom env socketId user data) w in
  rooms w' = rooms w
  /\ emitted w' = emitted w ++ [(ToSocket socketId, error access_denied)].
Proof.
  intros R A F Q P. unfold handleJoinDosenRoom. async_unfold.
  rewrite R, A. cbn. rewrite F. cbn. rewrite Q. cbn. rewrite P. cbn. repeat split.
Qed.

(** Membership changes only on the path behind the approved permission. *)
Lemma join_only_when (env : Env) (socketId : string) (user : User) (data : Js.Value)
    (w : World) :
  let w' := run (handleJoinDosenRoom env socketId user data) w in
  rooms w' <> rooms w ->
  role user = "mahasiswa"
  /\ exists dosenId p,
       Js.alias data "dosenId" "dosen_id" = Some dosenId
       /\ Js.falsy dosenId = false
       /\ rejects env SelectApprovedPermission = None
       /\ selectApprovedPermission (db w) (id user) (Js.bound (host env) dosenId) = Some p
       /\ rooms w'
          = rooms (socket_join (room_of (Js.toString (host env) dosenId)) socketId w).
Proof.
  cbv zeta. unfold handleJoinDosenRoom. async_unfold.
  destruct (String.eqb_spec (role user) "mahasiswa") as [R|R]; cbn;
    [|intros H; exfalso; apply H; reflexivity].
  destruct (Js.alias data "dosenId" "dosen_id") as [dosenId|] eqn:A; cbn;
    [|intros H; exfalso; apply H; reflexivity].
  destruct (Js.falsy dosenId) eqn:F; cbn; [intros H; exfalso; apply H; reflexivity|].
  destruct (rejects env SelectApprovedPermission) eqn:Q; cbn;
    [intros H; exfalso; apply H; reflexivity|].
  destruct (selectApprovedPermission (db w) (id user) (Js.bound (host env) dosenId))
    as [p|] eqn:P; cbn; [|intros H; exfalso; apply H; reflexivity].
  intros _. split; [exact R|]. exists dosenId, p.
  repeat (split; [first [reflexivity | assumption]|]).
  join_cases; reflexivity.
Qed.

(** On that path the socket is in the room, whatever happens afterwards. *)
Lemma join_granted (env : Env) (socketId : string) (user : User) (data dosenId : Js.Value)
    (p : PermissionRow) (w : World) :
  role user = "mahasiswa" ->
  Js.alias data "dosenId" "dosen_id" = Some dosenId ->
  Js.falsy dosenId = false ->
  rejects env SelectApprovedPermission = None ->
  selectApprovedPermission (db w) (id user) (Js.bound (host env) dosenId) = Some p ->
  socketId ∈ sockets_or_new (rooms (run (handleJoinDosenRoom env socketId user data) w))
                            (room_of (Js.toString (host env) dosenId)).
Proof.
  intros R A F Q P.
  assert (E : rooms (run (handleJoinDosenRoom env socketId user data) w)
              = rooms (socket_join (room_of (Js.toString (host env) dosenId)) socketId w)).
  { unfold handleJoinDosenRoom. async_unfold.
    rewrite R, A. cbn. rewrite F. cbn. rewrite Q. cbn. rewrite P. cbn.
    join_cases; reflexivity. }
  rewrite E. unfold socket_join, sockets_or_new at 1. cbn.
  rewrite lookup_insert_eq. set_solver.
Qed.

(** An id that no permission row names has no approved permission. *)
Lemma select_unknown_lecturer (d : Db) (studentId : string) (lecturer : option string) :
  (forall p, In p (tracking_permissions d) -> Some (p_lecturer_id p) <> lecturer) ->
  selectApprovedPermission d studentId lecturer = None.
Proof.
  unfold selectApprovedPermission. intros H.
  induction (tracking_permissions d) as [|p ps IH]; [reflexivity|]. simpl.
  assert (E : approved_for studentId lecturer p = false).
  { unfold approved_for. destruct lecturer as [l|]; [|rewrite andb_false_r; reflexivity].
    destruct (String.eqb_spec (p_lecturer_id p) l) as [E|_].
    - exfalso. apply (H p); [left; reflexivity | rewrite E; reflexivity].
    - rewrite andb_false_r. reflexivity. }
  rewrite E. apply IH. intros q Hq. apply H. right. exact Hq.
Qed.

(** [approved_for] is the WHERE clause, column by column. *)
Lemma approved_for_columns (studentId : string) (lecturer : option string)
    (p : PermissionRow) :
  approved_for studentId lecturer p = true <->
  p_student_id p = studentId /\ Some (p_lecturer_id p) = lecturer
  /\ p_status p = "approved".
Proof.
  unfold approved_for. destruct lecturer as [l|].
  - rewrite !andb_true_iff, !String.eqb_eq. split.
    + intros [[A B] C]. rewrite B. auto.
    + intros (A & [= B] & C). auto.
  - rewrite andb_false_r. simpl. split; [discriminate | intros (_ & [=] & _)].
Qed.

(** What the permission lookup of the join handler finds. *)
Lemma selectApprovedPermission_some (d : Db) (studentId : string)
    (lecturer : option string) (p : PermissionRow) :
  selectApprovedPermission d studentId lecturer = Some p ->
  In p (tracking_permissions d)
  /\ p_student_id p = studentId /\ Some (p_lecturer_id p) = lecturer
  /\ p_status p = "approved".
Proof.
  unfold selectApprovedPermission. intros H. apply List.find_some in H as [I A].
  split; [exact I | apply approved_for_columns; exact A].
Qed.

Lemma selectApprovedPermission_none (d : Db) (studentId : string)
    (lecturer : option string) :
  selectApprovedPermission d studentId lecturer = None <->
  forall p, ~ (In p (tracking_permissions d)
               /\ p_student_id p = studentId /\ Some (p_lecturer_id p) = lecturer
               /\ p_status p = "approved").
Proof.
  unfold selectApprovedPermission. split.
  - intros H p (I & C). pose proof (List.find_none _ _ H p I) as N.
    apply approved_for_columns in C. congruence.
  - intros H. destruct (List.find _ _) as [p|] eqn:E; [|reflexivity].
    exfalso. apply List.find_some in E as [I A]. apply (H p).
    split; [exact I | apply approved_for_columns; exact A].
Qed.

(** C6 (amended): [handleJoinDosenRoom] changes room membership only when
    the sender's role is mahasiswa and the permissions table holds a row
    with the sender as student, the requested id as lecturer and the
    status 'approved'; when such a row exists (and the lookup is
    answered) the sender's socket is in that lecturer's room afterwards.
    On a wrong role the error 'Only mahasiswa can join dosen tracking
    rooms' is emitted to the sender and membership is unchanged; when no
    such row exists, which is also the case of a lecturer id that no
    permission row names, the error 'Access denied. You do not have
    permission to track this dosen.' is emitted to the sender and
    membership is unchanged.  A later approval ([handleRequest]) leaves
    membership as it is. *)
Theorem join_gated_by_approval (env : Env) (socketId : string) (user : User)
    (data : Js.Value) (w : World) :
  let w' := run (handleJoinDosenRoom env socketId user data) w in
  let approved := fun (dosenId : Js.Value) (p : PermissionRow) =>
    In p (tracking_permissions (db w))
    /\ p_student_id p = id user
    /\ Some (p_lecturer_id p) = Js.bound (host env) dosenId
    /\ p_status p = "approved" in
  (rooms w' <> rooms w ->
   role user = "mahasiswa"
   /\ exists dosenId p,
        Js.alias data "dosenId" "dosen_id" = Some dosenId
        /\ Js.falsy dosenId = false
        /\ rejects env SelectApprovedPermission = None
        /\ approved dosenId p
        /\ rooms w'
           = rooms (socket_join (room_of (Js.toString (host env) dosenId)) socketId w))
  /\ (role user <> "mahasiswa" ->
      rooms w' = rooms w
      /\ emitted w'
         = emitted w
           ++ [(ToSocket socketId, error "Only mahasiswa can join dosen tracking rooms")])
  /\ (forall dosenId,
        role user = "mahasiswa" ->
        Js.alias data "dosenId" "dosen_id" = Some dosenId ->
        Js.falsy dosenId = false ->
        rejects env SelectApprovedPermission = None ->
        ((forall p, ~ approved dosenId p) ->
         rooms w' = rooms w
         /\ emitted w'
            = emitted w
              ++ [(ToSocket socketId,
                   error "Access denied. You do not have permission to track this dosen.")])
        /\ ((forall p, In p (tracking_permissions (db w)) ->
                       Some (p_lecturer_id p) <> Js.bound (host env) dosenId) ->
            rooms w' = rooms w
            /\ emitted w'
               = emitted w
                 ++ [(ToSocket socketId,
                      error "Access denied. You do not have permission to track this dosen.")])
        /\ ((exists p, approved dosenId p) ->
            socketId ∈ sockets_or_new (rooms w')
                         (room_of (Js.toString (host env) dosenId))))
  /\ (forall env2 lecturerId permission_id action,
        rooms (run (handleRequest env2 lecturerId permission_id action) w') = rooms w').
Proof.
  intros w' approved. split; [|split; [|split]].
  - intros H. destruct (join_only_when env socketId user data w H)
      as (R & dosenId & p & A & F & Q & P & E).
    split; [exact R|]. exists dosenId, p.
    repeat (split; [assumption|]). split; [|exact E].
    apply selectApprovedPermission_some in P. exact P.
  - intros R. destruct (join_wrong_role env socketId user data w R) as (H1 & _ & _ & H2).
    split; assumption.
  - intros dosenId R A F Q.
    assert (D : (forall p, ~ approved dosenId p) ->
                rooms w' = rooms w
                /\ emitted w'
                   = emitted w
                     ++ [(ToSocket socketId,
                          error "Access denied. You do not have permission to track this dosen.")]).
    { intros N. apply (join_denied env socketId user data dosenId w R A F Q).
      apply selectApprovedPermission_none. exact N. }
    split; [exact D|]. split.
    + intros U. apply D. intros p (I & _ & L & _). exact (U p I L).
    + intros (p & P).
      destruct (selectApprovedPermission (db w) (id user) (Js.bound (host env) dosenId))
        as [q|] eqn:S.
      * exact (join_granted env socketId user data dosenId q w R A F Q S).
      * exfalso. destruct (selectApprovedPermission_none (db w) (id user)
                             (Js.bound (host env) dosenId)) as [N _].
        exact (N S p P).
  - intros. apply handleRequest_rooms.
Qed.

(** C10 (amended): for every payload whose [dosenId ?? dosen_id] is falsy
    the join handler changes no membership and sends no statement to the
    database (so no permission record is ever consulted); a mahasiswa
    sender is answered with the error 'dosen_id is required', a sender of
    any other role with the error of the role check, which runs first. *)
Theorem join_without_dosen_id (env : Env) (socketId : string) (user : User)
    (data dosenId : Js.Value) (w : World) :
  Js.alias data "dosenId" "dosen_id" = Some dosenId ->
  Js.falsy dosenId = true ->
  let w' := run (handleJoinDosenRoom env socketId user data) w in
  rooms w' = rooms w
  /\ issued w' = issued w
  /\ db w' = db w
  /\ (role user = "mahasiswa" ->
      emitted w' = emitted w ++ [(ToSocket socketId, error "dosen_id is required")])
  /\ (role user <> "mahasiswa" ->
      emitted w'
      = emitted w
        ++ [(ToSocket socketId, error "Only mahasiswa can join dosen tracking rooms")]).
Proof.
  intros A F w'.
  destruct (String.eqb_spec (role user) "mahasiswa") as [R|R].
  - destruct (join_falsy env socketId user data dosenId w R A F) as (H1 & H2 & H3 & H4).
    repeat split; intros; first [assumption | contradiction].
  - destruct (join_wrong_role env socketId user data w R) as (H1 & H2 & H3 & H4).
    repeat split; intros; first [assumption | contradiction].
Qed.





(** C6, as the code has it: a join for a lecturer id that does not exist
    is answered with the very event that answers a join for an existing
    lecturer without approved permission; no not-found error exists. *)
Lemma join_unknown_lecturer_counterexample :
  users campus_db !! "dosen-404" = None
  /\ users campus_db !! "dosen-1" = Some "Dosen Satu"
  /\ emitted (run (handleJoinDosenRoom (env_at noon) "s9" student
                     (join_payload (Js.Str "dosen-404"))) (boot campus_db))
     = [(ToSocket "s9",
         error "Access denied. You do not have permission to track this dosen.")]
  /\ emitted (run (handleJoinDosenRoom (env_at noon) "s9" student
                     (join_payload (Js.Str "dosen-1"))) (boot campus_db))
     = [(ToSocket "s9",
         error "Access denied. You do not have permission to track this dosen.")].
Proof. repeat split; vm_compute; reflexivity. Qed.

(** A denied student stays outside the room when the lecturer approves
    afterwards, and gets in by joining again. *)
Example approval_needs_fresh_join :
  let denied :=
    run (handleJoinDosenRoom (env_at noon) "s9" student (join_payload (Js.Str "dosen-1")))
        (on_connection "s1" lecturer (boot campus_db)) in
  let approved :=
    handleRequest (env_at noon) (id lecturer) (Js.Str "perm-1") (Js.Str "approved") denied in
  let rejoined :=
    run (handleJoinDosenRoom (env_at noon) "s9" student (join_payload (Js.Str "dosen-1")))
        (snd approved) in
  fst approved = Returned 200%Z
  /\ rooms (snd approved) !! "room:dosen_dosen-1" = Some {["s1"]}
  /\ rooms rejoined !! "room:dosen_dosen-1" = Some ({["s9"]} ∪ {["s1"]}).
Proof. repeat split; vm_compute; reflexivity. Qed.

(** The approved permission of another student, a rejected request of
    this student and this student's approved permission for another
    lecturer do not open the room. *)
Example approval_is_per_pair :
  emitted (run (handleJoinDosenRoom (env_at noon) "s9" student
                  (join_payload (Js.Str "dosen-1"))) (boot other_student_db))
  = [(ToSocket "s9",
      error "Access denied. You do not have permission to track this dosen.")]
  /\ rooms (run (handleJoinDosenRoom (env_at noon) "s9" student
                   (join_payload (Js.Str "dosen-1"))) (boot other_student_db))
     !! "room:dosen_dosen-1" = None
  /\ rooms (run (handleJoinDosenRoom (env_at noon) "s9" student
                   (join_payload (Js.Str "dosen-2"))) (boot other_student_db))
     !! "room:dosen_dosen-2" = Some {["s9"]}.
Proof. repeat split; vm_compute; reflexivity. Qed.

(** An absent field, null, the number 0 and the empty string are all
    refused for a mahasiswa, even where the lecturer with id 0 has
    approved that student (who gets in with the text id). *)
Lemma join_without_dosen_id_witness :
  (forall v, In v [Js.Obj []; join_payload Js.Null; join_payload (Js.Num 0);
                   join_payload (Js.Str "")] ->
     emitted (run (handleJoinDosenRoom env_zero "s9" student v) (boot zero_db))
     = [(ToSocket "s9", error "dosen_id is required")]
     /\ rooms (run (handleJoinDosenRoom env_zero "s9" student v) (boot zero_db)) = ∅)
  /\ rooms (run (handleJoinDosenRoom env_zero "s9" student (join_payload (Js.Str "0")))
                (boot zero_db)) !! "room:dosen_0" = Some {["s9"]}.
Proof.
  split; [|vm_compute; reflexivity].
  intros v Hv.
  assert (F : exists dosenId,
             Js.alias v "dosenId" "dosen_id" = Some dosenId /\ Js.falsy dosenId = true).
  { simpl in Hv. destruct Hv as [<-|[<-|[<-|[<-|[]]]]];
      eexists; split; vm_compute; reflexivity. }
  destruct F as (dosenId & A & F).
  destruct (join_without_dosen_id env_zero "s9" student v dosenId (boot zero_db) A F)
    as (H1 & _ & _ & H2 & _).
  split; [exact (H2 eq_refl) | exact H1].
Defined.

(** C10, as the code has it: a dosen socket that sends [{ dosen_id: 0 }]
    is answered by the role check, not with 'dosen_id is required'. *)
Lemma join_wrong_role_counterexample :
  Js.alias (join_payload (Js.Num 0)) "dosenId" "dosen_id" = Some (Js.Num 0)
  /\ Js.falsy (Js.Num 0) = true
  /\ emitted (run (handleJoinDosenRoom env_zero "s1" lecturer (join_payload (Js.Num 0)))
                  (boot zero_db))
     = [(ToSocket "s1", error "Only mahasiswa can join dosen tracking rooms")].
Proof. repeat split; vm_compute; reflexivity. Qed.

End JoinFacts.

(** ** More on the geofence check *)

Section GeofenceMore.
Variables sin cos : float -> float.
Variable atan2 : float -> float -> float.

(** The two ways out of the loop of [checkGeofence]. *)
Lemma scan_cases (lat long : float) (zones : list Geofence.Geofence) :
  (exists z, In z zones
             /\ Geofence.within sin cos atan2 lat long z = true
             /\ Geofence.scan sin cos atan2 lat long zones
                = Geofence.mkResult true (Geofence.name z) lat long)
  \/ (Forall (fun z => Geofence.within sin cos atan2 lat long z = false) zones
      /\ Geofence.scan sin cos atan2 lat long zones = Geofence.masked).
Proof.
  induction zones as [|z zones IH]; simpl.
  - right. split; [constructor | reflexivity].
  - destruct (Geofence.within sin cos atan2 lat long z) eqn:E.
    + left. exists z. auto.
    + destruct IH as [(z' & H1 & H2 & H3)|(H1 & H2)].
      * left. exists z'. auto.
      * right. split; [constructor; assumption | exact H2].
Qed.

(** [checkGeofence] answers with a zone that contains the sample, or with
    the mask. *)
Lemma checkGeofence_cases
    (rows : Geofence.Settled (list Geofence.Geofence)) (lat long : float) :
  let r := Geofence.checkGeofence sin cos atan2 rows lat long in
  (exists zones z,
      rows = Geofence.Resolved zones /\ In z zones
      /\ Geofence.within sin cos atan2 lat long z = true
      /\ r = Geofence.mkResult true (Geofence.name z) lat long)
  \/ (unmatched sin cos atan2 rows lat long
      /\ r = Geofence.mkResult false "Di Luar" (-6.2088)%float 106.8456%float).
Proof.
  destruct rows as [zones|e]; simpl.
  - destruct (scan_cases lat long zones) as [(z & H1 & H2 & H3)|(H1 & H2)].
    + left. exists zones, z. auto.
    + right. split; [exact H1 | exact H2].
  - right. split; [exact I | reflexivity].
Qed.

(** Checking what was displayed. *)
Lemma checkGeofence_redisplay
    (rows rows' : Geofence.Settled (list Geofence.Geofence)) (lat long : float) :
  let r := Geofence.checkGeofence sin cos atan2 rows lat long in
  let again := Geofence.checkGeofence sin cos atan2 rows
                 (Geofence.displayLat r) (Geofence.displayLong r) in
  let later := Geofence.checkGeofence sin cos atan2 rows'
                 (Geofence.displayLat r) (Geofence.displayLong r) in
  Geofence.displayLat again = Geofence.displayLat r
  /\ Geofence.displayLong again = Geofence.displayLong r
  /\ (Geofence.isInside r = true -> again = r)
  /\ (Geofence.isInside r = false ->
      Geofence.displayLat later = Geofence.displayLat r
      /\ Geofence.displayLong later = Geofence.displayLong r).
Proof.
  cbv zeta.
  assert (M : forall rws,
    Geofence.displayLat (Geofence.checkGeofence sin cos atan2 rws
       Geofence.MASKED_LOCATION_latitude Geofence.MASKED_LOCATION_longitude)
      = Geofence.MASKED_LOCATION_latitude
    /\ Geofence.displayLong (Geofence.checkGeofence sin cos atan2 rws
       Geofence.MASKED_LOCATION_latitude Geofence.MASKED_LOCATION_longitude)
      = Geofence.MASKED_LOCATION_longitude).
  { intros rws.
    destruct (checkGeofence_cases rws
                Geofence.MASKED_LOCATION_latitude Geofence.MASKED_LOCATION_longitude)
      as [(zs & z & _ & _ & _ & ->)|(_ & ->)]; split; reflexivity. }
  destruct (checkGeofence_cases rows lat long)
    as [(zs & z & _ & _ & _ & E)|(_ & E)]; cbv zeta in E; rewrite E; simpl.
  - rewrite E. simpl. repeat split; try reflexivity; discriminate.
  - destruct (M rows) as (A & B). destruct (M rows') as (C & D).
    repeat split; try assumption. discriminate.
Qed.

(** X1: [checkGeofence] is stable on what it displays.  A result that is
    inside a zone is reproduced when its display coordinates are checked
    again against the same zones; the display coordinates of a result
    that is outside stay the masked pair (-6.2088, 106.8456) when they
    are checked again, against the same zones or any other answer of the
    database.  The display coordinates are always either the sample's
    own or the masked pair. *)
Theorem checkGeofence_display_fixed
    (rows rows' : Geofence.Settled (list Geofence.Geofence)) (lat long : float) :
  let r := Geofence.checkGeofence sin cos atan2 rows lat long in
  let again := Geofence.checkGeofence sin cos atan2 rows
                 (Geofence.displayLat r) (Geofence.displayLong r) in
  let later := Geofence.checkGeofence sin cos atan2 rows'
                 (Geofence.displayLat r) (Geofence.displayLong r) in
  (Geofence.isInside r = true -> again = r)
  /\ (Geofence.isInside r = false ->
      Geofence.displayLat again = Geofence.displayLat r
      /\ Geofence.displayLong again = Geofence.displayLong r
      /\ Geofence.displayLat later = Geofence.displayLat r
      /\ Geofence.displayLong later = Geofence.displayLong r)
  /\ (Geofence.displayLat r = lat /\ Geofence.displayLong r = long
      \/ Geofence.displayLat r = (-6.2088)%float
         /\ Geofence.displayLong r = 106.8456%float).
Proof.
  cbv zeta.
  destruct (checkGeofence_redisplay rows rows' lat long) as (A & B & C & D).
  split; [exact C|]. split; [intros O; destruct (D O); auto|].
  destruct (checkGeofence_cases rows lat long)
    as [(zs & z & _ & _ & _ & E)|(_ & E)]; cbv zeta in E; rewrite E; simpl; auto.
Qed.
End GeofenceMore.

(** ** What a sample touches *)

Section SampleFrame.
Import Engine Store.

Ltac async_unfold :=
  unfold run, processSample, saveLocation, logLocationToHistory, checkGeofence,
    try_catch, bind, query, run_query, statement, effect, read, ret, throw,
    js_alias in *.

Ltac async_cases :=
  repeat match goal with
         | |- context [match rejects ?e ?s with _ => _ end] =>
             destruct (rejects e s) eqn:?; cbn
         | |- context [match ?m !! ?k with _ => _ end] =>
             destruct (m !! k) eqn:?; cbn
         | |- context [if ?b then _ else _] => destruct b eqn:?; cbn
         | |- context [match selectLastHistory ?d ?u ?a ?b with _ => _ end] =>
             destruct (selectLastHistory d u a b) eqn:?; cbn
         end.

Lemma processSample_frame (env : Env) (socketId : string) (user : User)
    (lat long : float) (w : World) :
  sample_frame socketId user w (run (processSample env socketId user lat long) w).
Proof.
  async_unfold. cbn. async_cases.
  all: split; cbn; try reflexivity.
  all: try (intros k Hk; rewrite ?lookup_insert_ne by congruence; reflexivity).
  all: try (first
    [ exists []; split; [symmetry; apply app_nil_r | split; [simpl; lia | constructor]]
    | eexists; split; [reflexivity | split; [simpl; lia | repeat constructor]] ]).
  all: eexists; split; [rewrite <- ?app_assoc; reflexivity |].
  all: repeat match goal with
              | |- Forall _ (_ :: _) => constructor; [simpl; auto|]
              | |- Forall _ [] => constructor
              | |- Forall _ (_ ++ _) => apply Forall_app; split
              end.
Qed.

Lemma processSample_returned (env : Env) (socketId : string) (user : User)
    (lat long : float) (w : World) :
  processSample env socketId user lat long w
  = (Returned tt, run (processSample env socketId user lat long) w).
Proof. unfold run. rewrite processSample_steps. reflexivity. Qed.

Lemma set_console_nil (w : World) : set_console (fun c => c ++ []) w = w.
Proof. destruct w. unfold set_console. cbn. rewrite app_nil_r. reflexivity. Qed.

Lemma invalid_sample_cases (env : Env) (socketId : string) (user : User)
    (data : Js.Value) (w : World) :
  (exists lat long, valid_sample user data lat long)
  \/ (exists m lines,
        run (handleLocationUpdate env socketId user data) w
        = set_console (fun c => c ++ lines) (emit (ToSocket socketId) (error m) w)
        /\ In m refusals
        /\ (role user <> "dosen" -> m = "Only dosen can update location")
        /\ (role user = "dosen" -> Js.nullish data = true -> m = "Failed to update location")).
Proof.
  unfold handleLocationUpdate, valid_sample.
  destruct (String.eqb_spec (role user) "dosen") as [R|R]; cbn.
  2:{ right. exists "Only dosen can update location", []. unfold run, try_catch, effect. cbn.
      split; [rewrite set_console_nil; reflexivity|].
      split; [left; reflexivity|]. split; [reflexivity | contradiction]. }
  unfold run, try_catch, bind, js_alias.
  destruct (Js.alias data "lat" "latitude") as [lat|] eqn:A; cbn.
  2:{ right. exists "Failed to update location". eexists. split; [reflexivity|].
      split; [right; right; right; left; reflexivity|]. split; [contradiction | reflexivity]. }
  assert (N : Js.nullish data = false).
  { destruct data; try reflexivity; discriminate. }
  destruct (Js.alias data "long" "longitude") as [long|] eqn:B; cbn.
  2:{ right. exists "Failed to update location". eexists. split; [reflexivity|].
      split; [right; right; right; left; reflexivity|]. split; [contradiction | reflexivity]. }
  destruct lat as [| |b|x|s|f], long as [| |b'|x'|s'|f'];
    try (right; eexists; exists []; unfold effect; cbn;
         split; [rewrite set_console_nil; reflexivity|];
         split; [simpl; tauto|]; split; [contradiction | congruence]).
  left. exists x, x'. auto.
Qed.

(** X2: an [update_location] event that is not a valid sample (the sender
    is not a dosen, or the payload does not carry two numbers) changes
    nothing but the event log: database, rooms, presence, throttle
    timestamps and statement log are as before, and exactly one [error]
    event goes to the sender, with one of the four messages of the
    handler; a sender that is not a dosen gets 'Only dosen can update
    location', a dosen that sends a null payload gets 'Failed to update
    location'. *)
Theorem invalid_sample_only_refused (env : Env) (socketId : string) (user : User)
    (data : Js.Value) (w : World) :
  (forall lat long, ~ valid_sample user data lat long) ->
  let w' := run (handleLocationUpdate env socketId user data) w in
  db w' = db w
  /\ rooms w' = rooms w
  /\ presence w' = presence w
  /\ lastSaveTimestamps w' = lastSaveTimestamps w
  /\ issued w' = issued w
  /\ exists m,
       emitted w' = emitted w ++ [(ToSocket socketId, error m)]
       /\ In m ["Only dosen can update location"; "Latitude and longitude are required";
                "Invalid coordinate format"; "Failed to update location"]
       /\ (role user <> "dosen" -> m = "Only dosen can update location")
       /\ (role user = "dosen" -> Js.nullish data = true -> m = "Failed to update location").
Proof.
  intros H w'.
  destruct (invalid_sample_cases env socketId user data w)
    as [(lat & long & V)|(m & lines & E & M1 & M2 & M3)].
  - exfalso. exact (H lat long V).
  - subst w'. rewrite E. cbn. repeat split. exists m. auto.
Qed.

(** X3: whatever the payload and whatever the database does, an
    [update_location] event leaves presence, rooms, permissions, users
    and zones alone; it appends at most one history row, of the sender;
    it leaves the [locations] row and the throttle timestamp of every
    other user as they were; and every event it sends goes to the sender
    or to the sender's own room. *)
Theorem sample_touches_only_own_data (env : Env) (socketId : string) (user : User)
    (data : Js.Value) (w : World) :
  let w' := run (handleLocationUpdate env socketId user data) w in
  presence w' = presence w
  /\ rooms w' = rooms w
  /\ tracking_permissions (db w') = tracking_permissions (db w)
  /\ users (db w') = users (db w)
  /\ geofences (db w') = geofences (db w)
  /\ (exists rows,
        location_history (db w') = location_history (db w) ++ rows
        /\ length rows <= 1
        /\ Forall (fun r => h_dosen_id r = id user) rows)
  /\ (forall k, k <> id user ->
        locations (db w') !! k = locations (db w) !! k
        /\ lastSaveTimestamps w' !! k = lastSaveTimestamps w !! k)
  /\ (exists events,
        emitted w' = emitted w ++ events
        /\ Forall (fun e => fst e = ToSocket socketId
                            \/ fst e = ToRoom (room_of (id user))) events).
Proof.
  intros w'.
  assert (F : sample_frame socketId user w w').
  { destruct (invalid_sample_cases env socketId user data w)
      as [(lat & long & V)|(m & lines & E & _)].
    - subst w'. unfold run. rewrite (handleLocationUpdate_valid env _ _ _ _ _ _ V).
      apply processSample_frame.
    - subst w'. rewrite E. split; cbn; try reflexivity.
      + exists []. split; [symmetry; apply app_nil_r | split; [simpl; lia | constructor]].
      + eexists. split; [reflexivity|]. constructor; [left; reflexivity | constructor]. }
  destruct F. repeat split; auto.
Qed.

(** A student who sends a sample. *)
Lemma invalid_sample_only_refused_witness :
  emitted (run (handleLocationUpdate (env_at noon) "s9" student at_indralaya)
               (boot seeded_db))
  = [(ToSocket "s9", error "Only dosen can update location")]
  /\ db (run (handleLocationUpdate (env_at noon) "s9" student at_indralaya)
             (boot seeded_db)) = seeded_db.
Proof.
  destruct (invalid_sample_only_refused (env_at noon) "s9" student at_indralaya
              (boot seeded_db)) as (D & _ & _ & _ & _ & m & E & _ & M & _).
  - intros lat long [R _]. discriminate R.
  - rewrite E, (M ltac:(discriminate)). split; [reflexivity | exact D].
Defined.

End SampleFrame.

(** ** More on presence *)

Section RegistryFacts.
Import Engine Store Lifecycle.

Lemma tidy_add key s m : tidy m -> tidy (add_socket key s m).
Proof.
  intros T k S. unfold add_socket. destruct (decide (key = k)) as [<-|N].
  - rewrite lookup_insert_eq. intros [= <-]. set_solver.
  - rewrite lookup_insert_ne by exact N. apply T.
Qed.

Lemma tidy_remove key s m : tidy m -> tidy (remove_socket key s m).
Proof.
  intros T k S. unfold remove_socket. destruct (m !! key) as [S0|] eqn:E; [|apply T].
  destruct (decide (size (S0 ∖ {[s]}) = 0)) as [Z|Z].
  - destruct (decide (key = k)) as [<-|N];
      [rewrite lookup_delete_eq; discriminate | rewrite lookup_delete_ne by exact N; apply T].
  - destruct (decide (key = k)) as [<-|N].
    + rewrite lookup_insert_eq. intros [= <-] E'. apply Z. rewrite E'. apply size_empty.
    + rewrite lookup_insert_ne by exact N. apply T.
Qed.

Lemma tidy_step (user : User) (e : Event) (w : World) :
  tidy (onlineUsersMap w) -> tidy (onlineDosenMap w) ->
  tidy (onlineUsersMap (step user e w)) /\ tidy (onlineDosenMap (step user e w)).
Proof.
  intros U D. destruct e as [s|s]; simpl.
  - rewrite users_on_connection_if, dosen_on_connection_if.
    destruct (String.eqb (role user) "dosen"), (String.eqb (role user) "mahasiswa");
      simpl; split; auto using tidy_add.
  - rewrite users_on_disconnect, dosen_on_disconnect_if.
    destruct (String.eqb (role user) "dosen"); split; auto using tidy_remove.
Qed.

Lemma online_tidy (m : gmap string (gset string)) (k : string) :
  tidy m ->
  (match m !! k with Some sockets => bool_decide (0 < size sockets) | None => false end
   = true <-> is_Some (m !! k)).
Proof.
  intros T. destruct (m !! k) as [S|] eqn:E.
  - split; [eauto|]. intros _. apply bool_decide_eq_true.
    assert (size S <> 0) by (intros Z; apply size_empty_iff in Z; apply (T k S E); set_solver).
    lia.
  - split; [discriminate | intros [? [=]]].
Qed.

(** X4: the set-based registry never keeps an empty entry.  If no entry of
    [onlineUsersMap] and [onlineDosenMap] is an empty set, then after any
    sequence of connections and disconnections of any users none is; so
    [isUserOnline] and [isDosenOnline] answer true exactly for the ids
    that have an entry. *)
Theorem registry_has_no_empty_entry (trace : list (User * Event)) (w : World) :
  tidy (onlineUsersMap w) ->
  tidy (onlineDosenMap w) ->
  let w' := replay_all trace w in
  tidy (onlineUsersMap w') /\ tidy (onlineDosenMap w')
  /\ (forall k, isUserOnline w' k = true <-> is_Some (onlineUsersMap w' !! k))
  /\ (forall k, isDosenOnline w' k = true <-> is_Some (onlineDosenMap w' !! k)).
Proof.
  intros U D w'.
  assert (T : tidy (onlineUsersMap w') /\ tidy (onlineDosenMap w')).
  { subst w'. unfold replay_all. revert w U D. induction trace as [|[u e] trace IH]; intros w U D; simpl; [auto|].
    destruct (tidy_step u e w U D) as (U' & D'). apply IH; assumption. }
  destruct T as (TU & TD). repeat split; try assumption;
    unfold isUserOnline, isDosenOnline; try (apply online_tidy; assumption);
    try (apply (online_tidy _ k TU)); try (apply (online_tidy _ k TD)).
Qed.


(** The morning of the sample data. *)
Lemma registry_has_no_empty_entry_witness :
  is_Some (onlineUsersMap (replay_all morning (boot seeded_db)) !! "dosen-1")
  /\ isDosenOnline (replay_all morning (boot seeded_db)) "mhs-1" = false.
Proof.
  destruct (registry_has_no_empty_entry morning (boot seeded_db)) as (_ & _ & U & D).
  - intros k sockets. cbn. rewrite lookup_empty. discriminate.
  - intros k sockets. cbn. rewrite lookup_empty. discriminate.
  - split.
    + apply U. vm_compute. reflexivity.
    + destruct (isDosenOnline (replay_all morning (boot seeded_db)) "mhs-1") eqn:E;
        [|reflexivity].
      apply D in E. destruct E as [sockets E]. vm_compute in E. discriminate E.
Defined.

(** X5: [dosen_status] is broadcast on transitions only.  In a registry
    without empty entries, the connection of a dosen on a socket id that
    is not yet registered leaves the dosen online and broadcasts
    [dosen_status] with [is_online: true] exactly when the dosen was
    offline before; a disconnection of a dosen broadcasts [is_online:
    false] exactly when it takes the dosen from online to offline; the
    connections and disconnections of other roles emit nothing. *)
Theorem status_broadcast_on_transitions (socketId : string) (user : User) (w : World) :
  tidy (onlineDosenMap w) ->
  (role user = "dosen" ->
   socketId ∉ sockets_or_new (onlineDosenMap w) (id user) ->
   isDosenOnline (on_connection socketId user w) (id user) = true
   /\ emitted (on_connection socketId user w)
      = emitted w ++ (if isDosenOnline w (id user) then [] else [went_online user]))
  /\ (role user = "dosen" ->
      emitted (on_disconnect socketId user w)
      = emitted w
        ++ (if isDosenOnline w (id user)
               && negb (isDosenOnline (on_disconnect socketId user w) (id user))
            then [went_offline user] else []))
  /\ (role user <> "dosen" ->
      emitted (on_connection socketId user w) = emitted w
      /\ emitted (on_disconnect socketId user w) = emitted w).
Proof.
  intros T. split; [|split].
  - intros R F. split.
    + unfold isDosenOnline. rewrite dosen_on_connection_if, R. simpl.
      unfold add_socket. rewrite lookup_insert_eq. apply bool_decide_eq_true.
      rewrite size_union by set_solver. rewrite size_singleton. lia.
    + unfold on_connection. rewrite R. simpl. unfold handleDosenConnection. cbn.
      unfold isDosenOnline, sockets_or_new in *.
      destruct (onlineDosenMap w !! id user) as [S|] eqn:E.
      * assert (size S <> 0)
          by (intros Z; apply size_empty_iff in Z; apply (T _ _ E); set_solver).
        rewrite bool_decide_eq_true_2 by lia.
        rewrite decide_False; [cbn; rewrite app_nil_r; reflexivity|].
        rewrite size_union by set_solver. rewrite size_singleton. lia.
      * rewrite decide_True; [reflexivity|].
        rewrite size_union by set_solver. rewrite size_singleton, size_empty. reflexivity.
  - intros R. unfold isDosenOnline. rewrite dosen_on_disconnect_if, R. simpl.
    unfold on_disconnect, handleDisconnect. rewrite R. simpl.
    assert (D : forall w0 : World, onlineDosenMap w0 = onlineDosenMap w ->
      emitted w0 = emitted w ->
      emitted (match onlineDosenMap w0 !! id user with
               | Some dosenSockets =>
                   if decide (size (dosenSockets ∖ {[socketId]}) = 0)
                   then emit ToAll (dosen_status (Js.Str (id user)) (name user) false)
                          (set_onlineDosenMap (delete (id user)) w0)
                   else set_onlineDosenMap
                          (fun m => <[id user := dosenSockets ∖ {[socketId]}]> m) w0
               | None => w0
               end)
      = emitted w
        ++ (if match onlineDosenMap w !! id user with
               | Some sockets => bool_decide (0 < size sockets)
               | None => false
               end
               && negb match remove_socket (id user) socketId (onlineDosenMap w) !! id user with
                       | Some sockets => bool_decide (0 < size sockets)
                       | None => false
                       end
            then [went_offline user] else [])).
    { intros w0 E0 E1. rewrite E0. unfold remove_socket.
      destruct (onlineDosenMap w !! id user) as [S|] eqn:E; cbn.
      - assert (size S <> 0)
          by (intros Z; apply size_empty_iff in Z; apply (T _ _ E); set_solver).
        rewrite bool_decide_eq_true_2 by lia. cbn.
        destruct (decide (size (S ∖ {[socketId]}) = 0)) as [Z|Z]; cbn.
        + rewrite lookup_delete_eq. cbn. rewrite E1. reflexivity.
        + rewrite lookup_insert_eq. rewrite bool_decide_eq_true_2 by lia. cbn.
          rewrite app_nil_r. exact E1.
      - rewrite app_nil_r. exact E1. }
    destruct (onlineUsersMap w !! id user) as [S|]; [|apply D; reflexivity].
    destruct (decide (size (S ∖ {[socketId]}) = 0)); apply D; reflexivity.
  - intros R. split.
    + unfold on_connection.
      destruct (String.eqb_spec (role user) "dosen") as [E|_]; [contradiction|].
      destruct (String.eqb (role user) "mahasiswa"); reflexivity.
    + unfold on_disconnect, handleDisconnect.
      destruct (String.eqb_spec (role user) "dosen") as [E|_]; [contradiction|].
      destruct (onlineUsersMap w !! id user) as [S|]; [|reflexivity].
      destruct (decide (size (S ∖ {[socketId]}) = 0)); reflexivity.
Qed.

(** The first tab of the lecturer. *)
Lemma status_broadcast_on_transitions_witness :
  emitted (on_connection "s1" lecturer (boot seeded_db)) = [went_online lecturer]
  /\ emitted (on_disconnect "s1" lecturer (on_connection "s1" lecturer (boot seeded_db)))
     = [went_online lecturer; went_offline lecturer].
Proof.
  destruct (status_broadcast_on_transitions "s1" lecturer (boot seeded_db)) as ([_ A] & _).
  - intros k sockets. cbn. rewrite lookup_empty. discriminate.
  - reflexivity.
  - cbn. set_solver.
  - split; [exact A|]. vm_compute. reflexivity.
Defined.

Lemma add_socket_local key s (m m' : gmap string (gset string)) :
  m !! key = m' !! key -> add_socket key s m !! key = add_socket key s m' !! key.
Proof.
  intros E. unfold add_socket, sockets_or_new. rewrite !lookup_insert_eq, E. reflexivity.
Qed.

Lemma remove_socket_local key s (m m' : gmap string (gset string)) :
  m !! key = m' !! key -> remove_socket key s m !! key = remove_socket key s m' !! key.
Proof.
  intros E. unfold remove_socket. rewrite <- E.
  destruct (m !! key) as [S|] eqn:F; [|rewrite F; exact E].
  case_decide; [rewrite !lookup_delete_eq | rewrite !lookup_insert_eq]; reflexivity.
Qed.

Lemma step_local (user : User) (e : Event) (w w' : World) :
  onlineUsersMap w !! id user = onlineUsersMap w' !! id user ->
  onlineDosenMap w !! id user = onlineDosenMap w' !! id user ->
  onlineUsersMap (step user e w) !! id user = onlineUsersMap (step user e w') !! id user
  /\ onlineDosenMap (step user e w) !! id user = onlineDosenMap (step user e w') !! id user.
Proof.
  intros U D. destruct e as [s|s]; simpl.
  - rewrite !users_on_connection_if, !dosen_on_connection_if.
    destruct (String.eqb (role user) "dosen"), (String.eqb (role user) "mahasiswa");
      simpl; split; auto using add_socket_local.
  - rewrite !users_on_disconnect, !dosen_on_disconnect_if.
    destruct (String.eqb (role user) "dosen"); split; auto using remove_socket_local.
Qed.

(** X6: presence is kept per identity.  After any sequence of
    connections and disconnections of any users, the entries of a user id
    in [onlineUsersMap] and [onlineDosenMap], and the answer of
    [isUserOnline] for it, are those the events of that id alone
    produce. *)
Theorem presence_per_identity (trace : list (User * Event)) (w : World) (key : string) :
  onlineUsersMap (replay_all trace w) !! key
  = onlineUsersMap (replay_all (events_of key trace) w) !! key
  /\ onlineDosenMap (replay_all trace w) !! key
     = onlineDosenMap (replay_all (events_of key trace) w) !! key
  /\ isUserOnline (replay_all trace w) key
     = isUserOnline (replay_all (events_of key trace) w) key.
Proof.
  assert (G : forall w1 w2,
            onlineUsersMap w1 !! key = onlineUsersMap w2 !! key ->
            onlineDosenMap w1 !! key = onlineDosenMap w2 !! key ->
            onlineUsersMap (replay_all trace w1) !! key
            = onlineUsersMap (replay_all (events_of key trace) w2) !! key
            /\ onlineDosenMap (replay_all trace w1) !! key
               = onlineDosenMap (replay_all (events_of key trace) w2) !! key).
  { induction trace as [|[u e] trace IH]; intros w1 w2 U D; simpl; [auto|].
    destruct (String.eqb_spec (id u) key) as [E|N]; simpl.
    - subst key. apply IH; apply step_local; assumption.
    - destruct (other_identity_frame u e w1 key N) as [F1 F2].
      apply IH; congruence. }
  destruct (G w w eq_refl eq_refl) as [U D].
  split; [exact U|]. split; [exact D|]. unfold isUserOnline. rewrite U. reflexivity.
Qed.

(** One event keeps the counts of [onlineDosenMap] positive. *)
Lemma counted_dosen_positive_step (user : User) (e : Event) (r : Counted.Registry) :
  (forall k c, Counted.onlineDosenMap r !! k = Some c -> (0 < c)%Z) ->
  forall k c, Counted.onlineDosenMap (step_counted user e r) !! k = Some c -> (0 < c)%Z.
Proof.
  intros H k c.
  assert (P : (0 <= Counted.count_or_0 (Counted.onlineDosenMap r) (id user))%Z).
  { unfold Counted.count_or_0.
    destruct (Counted.onlineDosenMap r !! id user) as [n|] eqn:E; [|lia].
    specialize (H _ _ E). lia. }
  destruct e as [s|s]; simpl.
  - unfold Counted.on_connection.
    destruct (String.eqb_spec (role user) "dosen") as [E|_];
      [rewrite E|destruct (String.eqb (role user) "mahasiswa")];
      simpl; try apply H;
      (destruct (decide (id user = k)) as [<-|N];
       [rewrite lookup_insert_eq; intros [= <-]; lia
       |rewrite lookup_insert_ne by exact N; apply H]).
  - unfold Counted.on_disconnect, Counted.handleDisconnect.
    destruct (String.eqb (role user) "dosen"); cbn.
    + destruct (Z.eqb_spec (Z.max 0 (Counted.count_or_0 (Counted.onlineDosenMap r) (id user) - 1)) 0)
        as [Z0|Z0]; cbn;
        match goal with |- context [Z.eqb ?a 0] => destruct (Z.eqb a 0) end; cbn;
        (destruct (decide (id user = k)) as [<-|N];
         [first [rewrite lookup_delete_eq; discriminate
                |rewrite lookup_insert_eq; intros [= <-]; lia]
         |first [rewrite lookup_delete_ne by exact N | rewrite lookup_insert_ne by exact N];
          apply H]).
    + match goal with |- context [Z.eqb ?a 0] => destruct (Z.eqb a 0) end; cbn; apply H.
Qed.

(** X7: in the revision that keeps socket counts, starting from the empty
    registry, every count that is stored after any sequence of
    connections and disconnections is positive (an entry is deleted when
    its count reaches 0), so [isUserOnline] and [isDosenOnline] answer
    true exactly for the ids that have an entry. *)
Theorem counted_registry_positive (trace : list (User * Event)) :
  let r := replay_all_counted trace Counted.empty in
  (forall k c, Counted.onlineUsersMap r !! k = Some c -> (0 < c)%Z)
  /\ (forall k c, Counted.onlineDosenMap r !! k = Some c -> (0 < c)%Z)
  /\ (forall k, Counted.isUserOnline r k = true <-> is_Some (Counted.onlineUsersMap r !! k))
  /\ (forall k, Counted.isDosenOnline r k = true <-> is_Some (Counted.onlineDosenMap r !! k)).
Proof.
  cbv zeta.
  assert (G : forall r,
            (forall k c, Counted.onlineUsersMap r !! k = Some c -> (0 < c)%Z) ->
            (forall k c, Counted.onlineDosenMap r !! k = Some c -> (0 < c)%Z) ->
            (forall k c, Counted.onlineUsersMap (replay_all_counted trace r) !! k = Some c
                         -> (0 < c)%Z)
            /\ (forall k c, Counted.onlineDosenMap (replay_all_counted trace r) !! k = Some c
                            -> (0 < c)%Z)).
  { induction trace as [|[u e] trace IH]; intros r U D; simpl; [auto|].
    apply IH.
    - apply (counted_count_positive u [e] r U).
    - apply counted_dosen_positive_step, D. }
  destruct (G Counted.empty) as [U D];
    [intros k c; cbn; rewrite lookup_empty; discriminate
    |intros k c; cbn; rewrite lookup_empty; discriminate|].
  split; [exact U|]. split; [exact D|]. split; intros k.
  - unfold Counted.isUserOnline.
    destruct (Counted.onlineUsersMap (replay_all_counted trace Counted.empty) !! k)
      as [c|] eqn:E.
    + specialize (U _ _ E). split; [eauto|]. intros _. apply Z.ltb_lt. exact U.
    + split; [discriminate | intros [? [=]]].
  - unfold Counted.isDosenOnline.
    destruct (Counted.onlineDosenMap (replay_all_counted trace Counted.empty) !! k)
      as [c|] eqn:E.
    + specialize (D _ _ E). split; [eauto|]. intros _. apply Z.ltb_lt. exact D.
    + split; [discriminate | intros [? [=]]].
Qed.

End RegistryFacts.

(** ** More on rooms and on the approval endpoint *)

Section RoomFacts.
Import Engine Store Lifecycle.

Ltac async_unfold :=
  unfold run, try_catch, bind, query, run_query, statement, effect, read, ret,
    throw, js_alias in *.

Ltac join_cases :=
  repeat match goal with
         | |- context [match rejects ?e ?s with _ => _ end] =>
             destruct (rejects e s) eqn:?; cbn
         | |- context [match selectApprovedPermission ?d ?u ?l with _ => _ end] =>
             destruct (selectApprovedPermission d u l) eqn:?; cbn
         | |- context [match lookup_text ?m ?k with _ => _ end] =>
             destruct (lookup_text m k) eqn:?; cbn
         | |- context [if isUserOnline ?w ?k then _ else _] =>
             destruct (isUserOnline w k) eqn:?; cbn
         | |- context [match Js.bound ?h ?v with _ => _ end] =>
             destruct (Js.bound h v) eqn:?; cbn
         | |- context [match selectPermissionById ?d ?k with _ => _ end] =>
             destruct (selectPermissionById d k) eqn:?; cbn
         | |- context [if ?b then _ else _] => destruct b eqn:?; cbn
         end.

(** *** Leaving a room *)

(** The members of a room after [socket.leave] and [socket.join]. *)
Lemma socket_leave_members (room socketId : string) (w : World) (k : string) :
  sockets_or_new (rooms (socket_leave room socketId w)) k
  = if decide (k = room) then sockets_or_new (rooms w) k ∖ {[socketId]}
    else sockets_or_new (rooms w) k.
Proof.
  unfold socket_leave, sockets_or_new. cbn.
  destruct (rooms w !! room) as [M|] eqn:E.
  - destruct (decide (M ∖ {[socketId]} = ∅)) as [Z|Z]; destruct (decide (k = room)) as [->|N].
    + rewrite lookup_delete_eq, E, Z. reflexivity.
    + rewrite lookup_delete_ne by congruence. reflexivity.
    + rewrite lookup_insert_eq, E. reflexivity.
    + rewrite lookup_insert_ne by congruence. reflexivity.
  - destruct (decide (k = room)) as [->|N]; [|reflexivity].
    rewrite E. set_solver.
Qed.

Lemma socket_join_members (room socketId : string) (w : World) (k : string) :
  sockets_or_new (rooms (socket_join room socketId w)) k
  = if decide (k = room) then {[socketId]} ∪ sockets_or_new (rooms w) k
    else sockets_or_new (rooms w) k.
Proof.
  unfold socket_join. cbn. unfold sockets_or_new at 1.
  destruct (decide (k = room)) as [->|N].
  - rewrite lookup_insert_eq. reflexivity.
  - rewrite lookup_insert_ne by congruence. reflexivity.
Qed.

(** X8: [leave_dosen_room] asks nobody.  Whatever the sender's role, the
    handler sends no statement and no event, writes no [console.error]
    line and leaves database and presence alone.  With a truthy id
    (under [dosenId] or [dosen_id]) it returns and takes the socket out
    of that dosen's room and of no other; with a falsy id it returns and
    changes nothing; with a null or undefined payload it throws (there
    is no [try] around it) and changes nothing. *)
Theorem leave_dosen_room_effect (env : Env) (socketId : string) (data : Js.Value)
    (w : World) :
  let w' := run (on_leave_dosen_room env socketId data) w in
  db w' = db w /\ issued w' = issued w /\ emitted w' = emitted w
  /\ console w' = console w /\ presence w' = presence w
  /\ (forall dosenId,
        Js.alias data "dosenId" "dosen_id" = Some dosenId ->
        Js.falsy dosenId = false ->
        fst (on_leave_dosen_room env socketId data w) = Returned tt
        /\ forall room,
             sockets_or_new (rooms w') room
             = if decide (room = room_of (Js.toString (host env) dosenId))
               then sockets_or_new (rooms w) room ∖ {[socketId]}
               else sockets_or_new (rooms w) room)
  /\ (forall dosenId,
        Js.alias data "dosenId" "dosen_id" = Some dosenId ->
        Js.falsy dosenId = true ->
        fst (on_leave_dosen_room env socketId data w) = Returned tt /\ w' = w)
  /\ (Js.alias data "dosenId" "dosen_id" = None ->
      w' = w /\ exists e, fst (on_leave_dosen_room env socketId data w) = Thrown e).
Proof.
  cbv zeta. unfold on_leave_dosen_room. async_unfold.
  destruct (Js.alias data "dosenId" "dosen_id") as [v|] eqn:A; cbn.
  - destruct (Js.falsy v) eqn:F; cbn.
    + split; [reflexivity|]. do 4 (split; [reflexivity|]).
      split; [intros d [= <-] F'; congruence|].
      split; [intros d [= <-] F'; split; reflexivity|]. discriminate.
    + split; [reflexivity|]. do 4 (split; [reflexivity|]).
      split; [|split; [intros d [= <-] F'; congruence|discriminate]].
      intros d [= <-] F'. split; [reflexivity|].
      intros room. apply socket_leave_members.
  - split; [reflexivity|]. do 4 (split; [reflexivity|]).
    split; [discriminate|]. split; [discriminate|].
    intros _. split; [reflexivity|]. eexists; reflexivity.
Qed.

Lemma join_granted_rooms (env : Env) (socketId : string) (user : User)
    (data dosenId : Js.Value) (p : PermissionRow) (w : World) :
  role user = "mahasiswa" ->
  Js.alias data "dosenId" "dosen_id" = Some dosenId ->
  Js.falsy dosenId = false ->
  rejects env SelectApprovedPermission = None ->
  selectApprovedPermission (db w) (id user) (Js.bound (host env) dosenId) = Some p ->
  rooms (run (handleJoinDosenRoom env socketId user data) w)
  = rooms (socket_join (room_of (Js.toString (host env) dosenId)) socketId w).
Proof.
  intros R A F Q P. unfold handleJoinDosenRoom. async_unfold.
  rewrite R, A. cbn. rewrite F. cbn. rewrite Q. cbn. rewrite P. cbn.
  join_cases; reflexivity.
Qed.

Lemma leave_rooms (env : Env) (socketId : string) (data dosenId : Js.Value) (w : World) :
  Js.alias data "dosenId" "dosen_id" = Some dosenId ->
  Js.falsy dosenId = false ->
  run (on_leave_dosen_room env socketId data) w
  = socket_leave (room_of (Js.toString (host env) dosenId)) socketId w.
Proof.
  intros A F. unfold on_leave_dosen_room. async_unfold. rewrite A. cbn. rewrite F.
  reflexivity.
Qed.

(** X9: joining and leaving.  When a mahasiswa with an approved
    permission joins the room of a dosen and then leaves it with the same
    payload, every room has the members it had before, less this socket
    in that dosen's room; so membership is exactly as before when the
    socket was not a member.  Leaving a second time changes nothing. *)
Theorem join_then_leave (env : Env) (socketId : string) (user : User)
    (data dosenId : Js.Value) (p : PermissionRow) (w : World) :
  role user = "mahasiswa" ->
  Js.alias data "dosenId" "dosen_id" = Some dosenId ->
  Js.falsy dosenId = false ->
  rejects env SelectApprovedPermission = None ->
  selectApprovedPermission (db w) (id user) (Js.bound (host env) dosenId) = Some p ->
  let joined := run (handleJoinDosenRoom env socketId user data) w in
  let left := run (on_leave_dosen_room env socketId data) joined in
  let again := run (on_leave_dosen_room env socketId data) left in
  forall room,
    sockets_or_new (rooms left) room
    = (if decide (room = room_of (Js.toString (host env) dosenId))
       then sockets_or_new (rooms w) room ∖ {[socketId]}
       else sockets_or_new (rooms w) room)
    /\ sockets_or_new (rooms again) room = sockets_or_new (rooms left) room
    /\ (socketId ∉ sockets_or_new (rooms w) room ->
        sockets_or_new (rooms left) room = sockets_or_new (rooms w) room).
Proof.
  intros R A F Q P joined left again room.
  pose proof (join_granted_rooms env socketId user data dosenId p w R A F Q P) as J.
  fold joined in J.
  assert (L : sockets_or_new (rooms left) room
              = if decide (room = room_of (Js.toString (host env) dosenId))
                then sockets_or_new (rooms w) room ∖ {[socketId]}
                else sockets_or_new (rooms w) room).
  { unfold left. rewrite (leave_rooms env socketId data dosenId joined A F).
    rewrite socket_leave_members.
    assert (E : sockets_or_new (rooms joined) room
                = sockets_or_new
                    (rooms (socket_join (room_of (Js.toString (host env) dosenId)) socketId w))
                    room) by (rewrite J; reflexivity).
    rewrite E, socket_join_members.
    destruct (decide (room = room_of (Js.toString (host env) dosenId))); [|reflexivity].
    set_solver. }
  split; [exact L|]. split.
  - unfold again. rewrite (leave_rooms env socketId data dosenId left A F).
    rewrite socket_leave_members, L.
    destruct (decide (room = room_of (Js.toString (host env) dosenId))); [|reflexivity].
    set_solver.
  - intros N. rewrite L.
    destruct (decide (room = room_of (Js.toString (host env) dosenId))); [|reflexivity].
    set_solver.
Qed.

(** The student of [zero_db] joins the room of dosen 0 and leaves it. *)
Lemma join_then_leave_witness :
  sockets_or_new
    (rooms (run (on_leave_dosen_room env_zero "s9" (join_payload (Js.Str "0")))
                (run (handleJoinDosenRoom env_zero "s9" student (join_payload (Js.Str "0")))
                     (boot zero_db))))
    "room:dosen_0"
  = sockets_or_new (rooms (boot zero_db)) "room:dosen_0".
Proof.
  destruct (join_then_leave env_zero "s9" student (join_payload (Js.Str "0")) (Js.Str "0")
              (mkPermission "perm-0" "mhs-1" "0" "approved") (boot zero_db)
              eq_refl eq_refl eq_refl eq_refl eq_refl "room:dosen_0") as (_ & _ & H).
  apply H. cbn. set_solver.
Defined.

(** *** The approval endpoint *)

Lemma update_parties (a k : string) (d : Db) :
  List.map parties (tracking_permissions (updatePermissionStatus a k d))
  = List.map parties (tracking_permissions d).
Proof.
  unfold updatePermissionStatus. cbn. rewrite List.map_map.
  apply List.map_ext. intros p. destruct (String.eqb (p_id p) k); reflexivity.
Qed.

Lemma find_by_id_In (perms : list PermissionRow) (k : string) (p : PermissionRow) :
  List.find (fun p => String.eqb (p_id p) k) perms = Some p -> In p perms /\ p_id p = k.
Proof.
  intros H. apply List.find_some in H as [H1 H2]. split; [exact H1|].
  apply String.eqb_eq. exact H2.
Qed.

Lemma unique_id_row (perms : list PermissionRow) (p q : PermissionRow) :
  List.NoDup (List.map p_id perms) -> In p perms -> In q perms -> p_id p = p_id q -> p = q.
Proof.
  induction perms as [|r rs IH]; intros N Hp Hq E; [destruct Hp|].
  simpl in N. inversion N as [|? ? Hr N']; subst.
  destruct Hp as [->|Hp], Hq as [->|Hq].
  - reflexivity.
  - exfalso. apply Hr. rewrite E. apply List.in_map. exact Hq.
  - exfalso. apply Hr. rewrite <- E. apply List.in_map. exact Hp.
  - apply IH; assumption.
Qed.

Lemma update_spares_others (a k lecturerId : string) (d : Db) (p : PermissionRow) :
  List.NoDup (List.map p_id (tracking_permissions d)) ->
  selectPermissionById d k = Some p ->
  p_lecturer_id p = lecturerId ->
  forall q, In q (tracking_permissions d) -> p_lecturer_id q <> lecturerId ->
            In q (tracking_permissions (updatePermissionStatus a k d)).
Proof.
  intros N S L q Hq Lq. unfold updatePermissionStatus. cbn.
  apply List.in_map_iff. exists q. split; [|exact Hq].
  destruct (String.eqb_spec (p_id q) k) as [E|_]; [|reflexivity].
  exfalso. apply Lq. apply find_by_id_In in S as [Hp Ep].
  rewrite (unique_id_row _ q p N Hq Hp); [exact L | congruence].
Qed.

Lemma update_sets_status (a k : string) (d : Db) (q : PermissionRow) :
  In q (tracking_permissions (updatePermissionStatus a k d)) ->
  p_id q = k -> p_status q = a.
Proof.
  unfold updatePermissionStatus. cbn. intros H E.
  apply List.in_map_iff in H as (r & <- & _).
  destruct (String.eqb_spec (p_id r) k) as [_|N]; [reflexivity|]. contradiction.
Qed.

(** X10: the approval endpoint ([handleRequest] of the tracking
    controller).  With unique permission ids (the table's primary key) it
    answers 200, 400, 403, 404 or 500; it never touches rooms, events or
    presence; ids, students and lecturers of the rows stay as they are;
    the rows of other lecturers are untouched; the table changes only
    with a 200, which needs the action 'approved' or 'rejected' and a row
    with that id owned by the caller, and then every row with that id
    has the new status. *)
Theorem handleRequest_outcomes (env : Env) (lecturerId : string)
    (permission_id action : Js.Value) (w : World) :
  List.NoDup (List.map p_id (tracking_permissions (db w))) ->
  let result := handleRequest env lecturerId permission_id action w in
  let w' := snd result in
  (exists code, fst result = Returned code /\ In code [200; 400; 403; 404; 500]%Z)
  /\ rooms w' = rooms w /\ emitted w' = emitted w /\ presence w' = presence w
  /\ List.map parties (tracking_permissions (db w'))
     = List.map parties (tracking_permissions (db w))
  /\ (forall q, In q (tracking_permissions (db w)) -> p_lecturer_id q <> lecturerId ->
                In q (tracking_permissions (db w')))
  /\ (fst result <> Returned 200%Z -> db w' = db w)
  /\ (fst result = Returned 200%Z ->
      exists a k p,
        action = Js.Str a /\ (a = "approved" \/ a = "rejected")
        /\ Js.bound (host env) permission_id = Some k
        /\ selectPermissionById (db w) k = Some p
        /\ p_lecturer_id p = lecturerId
        /\ db w' = updatePermissionStatus a k (db w)
        /\ forall q, In q (tracking_permissions (db w')) -> p_id q = k -> p_status q = a).
Proof.
  intros N. cbv zeta. unfold handleRequest. async_unfold. cbn.
  destruct (Js.falsy permission_id || Js.falsy action) eqn:V; cbn.
  { split; [exists 400%Z; split; [reflexivity|simpl; tauto]|].
    repeat split; auto; discriminate. }
  destruct action as [| |b|x|a|fields]; cbn;
    try (split; [exists 400%Z; split; [reflexivity|simpl; tauto]|];
         repeat split; auto; discriminate).
  destruct (String.eqb a "approved" || String.eqb a "rejected") eqn:Va; cbn;
    [|split; [exists 400%Z; split; [reflexivity|simpl; tauto]|];
      repeat split; auto; discriminate].
  destruct (rejects env SelectPermissionById) eqn:Q1; cbn.
  { split; [exists 500%Z; split; [reflexivity|simpl; tauto]|].
    repeat split; auto; discriminate. }
  destruct (Js.bound (host env) permission_id) as [k|] eqn:B; cbn;
    [|split; [exists 404%Z; split; [reflexivity|simpl; tauto]|];
      repeat split; auto; discriminate].
  destruct (selectPermissionById (db w) k) as [p|] eqn:S; cbn;
    [|split; [exists 404%Z; split; [reflexivity|simpl; tauto]|];
      repeat split; auto; discriminate].
  destruct (String.eqb_spec (p_lecturer_id p) lecturerId) as [L|L]; cbn;
    [|split; [exists 403%Z; split; [reflexivity|simpl; tauto]|];
      repeat split; auto; discriminate].
  destruct (rejects env UpdatePermissionStatus) eqn:Q2; cbn.
  { split; [exists 500%Z; split; [reflexivity|simpl; tauto]|].
    repeat split; auto; discriminate. }
  split; [exists 200%Z; split; [reflexivity|simpl; tauto]|].
  split; [reflexivity|]. split; [reflexivity|]. split; [reflexivity|].
  split; [apply update_parties|].
  split; [apply (update_spares_others a k lecturerId (db w) p N S L)|].
  split; [intros C; exfalso; apply C; reflexivity|].
  intros _. exists a, k, p.
  split; [reflexivity|]. split.
  { apply orb_true_iff in Va as [E|E]; apply String.eqb_eq in E; auto. }
  repeat split; auto. apply update_sets_status.
Qed.

(** *** What a join sends *)

(** X11: [handleJoinDosenRoom] never throws and talks to the sender only.
    Whatever the payload and whatever the database does, the handler
    returns, leaves database, presence and throttle timestamps alone,
    sends between one and three events, all of them to the sender's
    socket, leaves every room but the requested one as it was, and
    changes the membership of no other socket. *)
Theorem join_answers_only_sender (env : Env) (socketId : string) (user : User)
    (data : Js.Value) (w : World) :
  let result := handleJoinDosenRoom env socketId user data w in
  let w' := snd result in
  fst result = Returned tt
  /\ db w' = db w /\ presence w' = presence w
  /\ lastSaveTimestamps w' = lastSaveTimestamps w
  /\ (exists events,
        emitted w' = emitted w ++ events
        /\ (1 <= length events <= 3)%nat
        /\ Forall (fun e => fst e = ToSocket socketId) events)
  /\ (forall room, room <> room_of match Js.alias data "dosenId" "dosen_id" with
                                   | Some dosenId => Js.toString (host env) dosenId
                                   | None => ""
                                   end ->
        rooms w' !! room = rooms w !! room)
  /\ (forall room other, other <> socketId ->
        other ∈ sockets_or_new (rooms w') room <-> other ∈ sockets_or_new (rooms w) room).
Proof.
  cbv zeta. unfold handleJoinDosenRoom. async_unfold.
  assert (M : forall r room other, other <> socketId ->
            other ∈ sockets_or_new (rooms (socket_join r socketId w)) room
            <-> other ∈ sockets_or_new (rooms w) room).
  { intros r room other O. unfold socket_join. cbn. unfold sockets_or_new at 1.
    destruct (decide (room = r)) as [->|Nr].
    - rewrite lookup_insert_eq. set_solver.
    - rewrite lookup_insert_ne by congruence. reflexivity. }
  assert (K : forall r room, room <> r ->
            rooms (socket_join r socketId w) !! room = rooms w !! room).
  { intros r room Nr. unfold socket_join. cbn. rewrite lookup_insert_ne by congruence.
    reflexivity. }
  destruct (negb (String.eqb (role user) "mahasiswa")); cbn.
  { repeat split; auto. eexists; split; [reflexivity|]. split; [simpl; lia|].
    repeat constructor. }
  destruct (Js.alias data "dosenId" "dosen_id") as [dosenId|] eqn:A; cbn.
  2:{ repeat split; auto. eexists; split; [reflexivity|]. split; [simpl; lia|].
      repeat constructor. }
  destruct (Js.falsy dosenId) eqn:F; cbn.
  { repeat split; auto. eexists; split; [reflexivity|]. split; [simpl; lia|].
    repeat constructor. }
  destruct (rejects env SelectApprovedPermission) eqn:Q; cbn.
  { repeat split; auto. eexists; split; [reflexivity|]. split; [simpl; lia|].
    repeat constructor. }
  destruct (selectApprovedPermission (db w) (id user) (Js.bound (host env) dosenId))
    as [p|] eqn:P; cbn.
  2:{ repeat split; auto. eexists; split; [reflexivity|]. split; [simpl; lia|].
      repeat constructor. }
  join_cases;
    (split; [reflexivity|]; split; [reflexivity|]; split; [reflexivity|];
     split; [reflexivity|];
     split; [eexists; split;
             [first [reflexivity | rewrite <- !app_assoc; reflexivity]
             |split; [simpl; lia|repeat constructor]]|];
     split; [intros room Nr; apply K; exact Nr | intros room other O; apply M; exact O]).
Qed.

(** The events of a join that went through, up to [room_joined]. *)
Ltac before_joined :=
  match goal with
  | |- exists events, ((_ ++ [?a]) ++ [?b]) ++ [_] = _ /\ _ => exists [a; b]
  | |- exists events, (_ ++ [?a]) ++ [_] = _ /\ _ => exists [a]
  end;
  (split; [rewrite <- !app_assoc; reflexivity|]);
  repeat constructor; discriminate.

(** X12: a join that fails after [socket.join] keeps the membership.
    Once the approved permission is found the socket is in the dosen's
    room, whatever happens next: when the name lookup is rejected the
    sender gets only [error] 'Failed to join room'; when the dosen is
    online and the location lookup is rejected the sender gets the
    [dosen_status] event and then that error; in both cases the socket
    stays a member and one [console.error] line is written.  When
    neither lookup is rejected the last event is [room_joined] and no
    event before it is that error. *)
Theorem join_kept_when_lookup_fails (env : Env) (socketId : string) (user : User)
    (data dosenId : Js.Value) (p : PermissionRow) (w : World) :
  role user = "mahasiswa" ->
  Js.alias data "dosenId" "dosen_id" = Some dosenId ->
  Js.falsy dosenId = false ->
  rejects env SelectApprovedPermission = None ->
  selectApprovedPermission (db w) (id user) (Js.bound (host env) dosenId) = Some p ->
  let w' := run (handleJoinDosenRoom env socketId user data) w in
  let failed := (ToSocket socketId, error "Failed to join room") in
  socketId ∈ sockets_or_new (rooms w') (room_of (Js.toString (host env) dosenId))
  /\ (forall e,
        rejects env SelectUserName = Some e ->
        emitted w' = emitted w ++ [failed]
        /\ console w' = console w ++ ["Join room error: " +:+ e])
  /\ (forall e,
        rejects env SelectUserName = None ->
        isUserOnline w (Js.toString (host env) dosenId) = true ->
        rejects env SelectLocation = Some e ->
        emitted w'
        = emitted w
          ++ [(ToSocket socketId,
               dosen_status dosenId
                 (name_or_unknown (lookup_text (users (db w)) (Js.bound (host env) dosenId)))
                 true);
              failed]
        /\ console w' = console w ++ ["Join room error: " +:+ e])
  /\ ((rejects env SelectUserName = None
       /\ (isUserOnline w (Js.toString (host env) dosenId) = true ->
           rejects env SelectLocation = None)) ->
      exists events,
        emitted w'
        = emitted w ++ events
          ++ [(ToSocket socketId,
               room_joined dosenId (room_of (Js.toString (host env) dosenId))
                           "Successfully joined tracking room")]
        /\ Forall (fun ev => snd ev <> error "Failed to join room") events).
Proof.
  intros R A F Q P. cbv zeta. split.
  { apply (join_granted env socketId user data dosenId p w R A F Q P). }
  unfold handleJoinDosenRoom. async_unfold.
  rewrite R, A. cbn. rewrite F. cbn. rewrite Q. cbn. rewrite P. cbn.
  destruct (rejects env SelectUserName) as [e1|] eqn:Q1; cbn.
  { split; [intros e [= <-]; split; reflexivity|].
    split; [discriminate|]. intros [C _]. discriminate. }
  split; [discriminate|].
  repeat match goal with
         | |- context [isUserOnline ?x ?k] =>
             lazymatch x with
             | w => fail
             | _ => change (isUserOnline x k) with (isUserOnline w k)
             end
         end.
  destruct (isUserOnline w (Js.toString (host env) dosenId)) eqn:O; cbn.
  - destruct (rejects env SelectLocation) as [e2|] eqn:Q2; cbn.
    + split.
      * intros e _ _ [= <-]. rewrite <- app_assoc. split; reflexivity.
      * intros [_ C]. specialize (C eq_refl). discriminate.
    + split; [discriminate|]. intros _.
      destruct (lookup_text (locations (db w)) (Js.bound (host env) dosenId)); cbn;
        before_joined.
  - split; [discriminate|]. intros _. before_joined.
Qed.

(** The lecturer of [campus_db] approves the pending request. *)
Lemma handleRequest_outcomes_witness :
  List.map parties
    (tracking_permissions
       (db (snd (handleRequest (env_at noon) "dosen-1" (Js.Str "perm-1") (Js.Str "approved")
                   (boot campus_db)))))
  = [("perm-1", "mhs-1", "dosen-1")]
  /\ fst (handleRequest (env_at noon) "dosen-1" (Js.Str "perm-1") (Js.Str "approved")
            (boot campus_db)) = Returned 200%Z.
Proof.
  destruct (handleRequest_outcomes (env_at noon) "dosen-1" (Js.Str "perm-1")
              (Js.Str "approved") (boot campus_db)) as (_ & _ & _ & _ & P & _).
  - cbn. constructor; [intros []|constructor].
  - split; [exact P | vm_compute; reflexivity].
Defined.

(** The name lookup of [env_names_down] is rejected after the student of
    [zero_db] was let in. *)
Lemma join_kept_when_lookup_fails_witness :
  "s9" ∈ sockets_or_new
           (rooms (run (handleJoinDosenRoom env_names_down "s9" student
                          (join_payload (Js.Str "0"))) (boot zero_db)))
           "room:dosen_0"
  /\ emitted (run (handleJoinDosenRoom env_names_down "s9" student
                     (join_payload (Js.Str "0"))) (boot zero_db))
     = [(ToSocket "s9", error "Failed to join room")].
Proof.
  destruct (join_kept_when_lookup_fails env_names_down "s9" student
              (join_payload (Js.Str "0")) (Js.Str "0")
              (mkPermission "perm-0" "mhs-1" "0" "approved") (boot zero_db)
              eq_refl eq_refl eq_refl eq_refl eq_refl) as (M & E & _).
  split; [exact M|].
  destruct (E "SQLITE_BUSY: database is locked" eq_refl) as [E1 _]. exact E1.
Defined.

End RoomFacts.

(** ** The handshake *)

Section HandshakeFacts.
Import Store Engine Lifecycle SocketAuth.
Variable jwt_verify : Js.Value -> option User.

(** When the middleware calls [next()] without an error. *)
Lemma authenticate_accepted (rejected : option string) (d : Db)
    (auth_token query_token : Js.Value) (user : User) :
  authenticate jwt_verify rejected d auth_token query_token = Accepted user <->
  exists decoded,
    Js.falsy (js_or auth_token query_token) = false
    /\ jwt_verify (js_or auth_token query_token) = Some decoded
    /\ rejected = None
    /\ users d !! id decoded = Some (name user)
    /\ id user = id decoded /\ role user = role decoded.
Proof.
  unfold authenticate. split.
  - destruct (Js.falsy (js_or auth_token query_token)) eqn:F; [discriminate|].
    destruct (jwt_verify (js_or auth_token query_token)) as [decoded|] eqn:V; [|discriminate].
    destruct rejected; [discriminate|].
    destruct (users d !! id decoded) as [n|] eqn:U; [|discriminate].
    intros [= <-]. exists decoded. repeat split; auto.
  - intros (decoded & F & V & -> & U & I & R). rewrite F, V, U.
    destruct user as [i n r]. cbn in *. subst. reflexivity.
Qed.

(** X13: the handshake middleware ([io.use]).  A handshake is accepted
    exactly when the token ([auth.token], or [query.token] when that is
    falsy) is truthy and verifies, the database answers, and the decoded
    id names a row of [users]; the accepted user has the id and the role
    of the token and the name of the row, not a name claimed by the
    token.  A truthy [auth.token] makes [query.token] irrelevant.  A
    refusal carries one of three messages. *)
Theorem handshake_accepts_iff (rejected : option string) (d : Db)
    (auth_token query_token : Js.Value) (user : User) :
  (authenticate jwt_verify rejected d auth_token query_token = Accepted user <->
   exists decoded,
     Js.falsy (js_or auth_token query_token) = false
     /\ jwt_verify (js_or auth_token query_token) = Some decoded
     /\ rejected = None
     /\ users d !! id decoded = Some (name user)
     /\ id user = id decoded /\ role user = role decoded)
  /\ (Js.falsy auth_token = false ->
      forall other,
        authenticate jwt_verify rejected d auth_token other
        = authenticate jwt_verify rejected d auth_token query_token)
  /\ (forall message,
        authenticate jwt_verify rejected d auth_token query_token = Refused message ->
        message = "Authentication token required"
        \/ message = "Invalid authentication token"
        \/ message = "User not found").
Proof.
  split; [apply authenticate_accepted|]. split.
  - intros F other. unfold authenticate, js_or. rewrite F. reflexivity.
  - intros message. unfold authenticate.
    destruct (Js.falsy (js_or auth_token query_token)); [intros [= <-]; auto|].
    destruct (jwt_verify (js_or auth_token query_token)); [|intros [= <-]; auto].
    destruct rejected; [intros [= <-]; auto|].
    destruct (users d !! id u); [discriminate|intros [= <-]; auto].
Qed.

(** An entry after [add_socket] is the new one or an old one. *)
Lemma online_after_add (key s : string) (m : gmap string (gset string)) (k : string) :
  is_Some (add_socket key s m !! k) -> k = key \/ is_Some (m !! k).
Proof.
  unfold add_socket. destruct (decide (k = key)) as [->|N]; [auto|].
  rewrite lookup_insert_ne by congruence. auto.
Qed.

(** X14: nobody comes online without a valid token.  A handshake followed
    by the connection handler leaves the database alone, and an id that
    [isUserOnline] reports afterwards was online before or is the id of
    the verified token, names a row of [users], and the token's role is
    dosen or mahasiswa; for [isDosenOnline] the role is dosen. *)
Theorem presence_needs_valid_token (rejected : option string) (socketId : string)
    (auth_token query_token : Js.Value) (w : World) (k : string) :
  let w' := connect jwt_verify rejected socketId auth_token query_token w in
  db w' = db w
  /\ (isUserOnline w' k = true ->
      isUserOnline w k = true
      \/ exists decoded,
           jwt_verify (js_or auth_token query_token) = Some decoded
           /\ id decoded = k
           /\ is_Some (users (db w) !! k)
           /\ (role decoded = "dosen" \/ role decoded = "mahasiswa"))
  /\ (isDosenOnline w' k = true ->
      isDosenOnline w k = true
      \/ exists decoded,
           jwt_verify (js_or auth_token query_token) = Some decoded
           /\ id decoded = k
           /\ is_Some (users (db w) !! k)
           /\ role decoded = "dosen").
Proof.
  cbv zeta. unfold connect.
  destruct (authenticate jwt_verify rejected (db w) auth_token query_token) as [user|m] eqn:A;
    [|auto].
  apply authenticate_accepted in A as (decoded & F & V & -> & U & I & R).
  split; [|split].
  - unfold on_connection.
    destruct (String.eqb (role user) "dosen"), (String.eqb (role user) "mahasiswa");
      unfold handleDosenConnection, handleMahasiswaConnection; cbn;
      repeat case_decide; reflexivity.
  - unfold isUserOnline. rewrite users_on_connection_if.
    destruct (String.eqb_spec (role user) "dosen") as [Rd|Rd]; cbn.
    + destruct (decide (k = id user)) as [->|N].
      * intros _. right. exists decoded. rewrite <- I, <- R. repeat split; auto.
        rewrite I, U. eauto.
      * unfold add_socket. rewrite lookup_insert_ne by congruence. auto.
    + destruct (String.eqb_spec (role user) "mahasiswa") as [Rm|Rm]; [|auto].
      destruct (decide (k = id user)) as [->|N].
      * intros _. right. exists decoded. rewrite <- I, <- R. repeat split; auto.
        rewrite I, U. eauto.
      * unfold add_socket. rewrite lookup_insert_ne by congruence. auto.
  - unfold isDosenOnline. rewrite dosen_on_connection_if.
    destruct (String.eqb_spec (role user) "dosen") as [Rd|Rd]; [|auto].
    destruct (decide (k = id user)) as [->|N].
    + intros _. right. exists decoded. rewrite <- I, <- R. repeat split; auto.
      rewrite I, U. eauto.
    + unfold add_socket. rewrite lookup_insert_ne by congruence. auto.
Qed.
End HandshakeFacts.

(** ** The tracking controller *)

Section TrackingFacts.
Import Store Engine Lifecycle Tracking.

Ltac async_unfold :=
  unfold run, try_catch, bind, query, run_query, statement, effect, read, ret,
    throw, js_alias in *.

(** A branch of [requestAccess] that answers without inserting. *)
Ltac refused :=
  split; [eexists; split; [reflexivity|simpl; tauto]|];
  split; [reflexivity|]; split; [reflexivity|]; split; [reflexivity|];
  split; [intros; reflexivity|]; split; [intros; reflexivity|];
  split; [intros; assumption|];
  intros response [= <-]; cbn; discriminate.

(** A branch of [getLocationHistory] that answers without the history. *)
Ltac plain :=
  cbn; repeat split; auto; eexists; (split; [reflexivity|]);
  (split; [simpl; tauto|]); cbn; discriminate.

(** *** Requesting access *)

Lemma existsb_false_fresh (row : PermissionRow) (perms : list PermissionRow) :
  existsb (fun p => String.eqb (p_id p) (p_id row)
                    || same_pair (p_student_id row) (p_lecturer_id row) p) perms = false ->
  ~ In (p_id row) (List.map p_id perms) /\ ~ In (pair_of row) (List.map pair_of perms).
Proof.
  intros H. split; intros I; apply List.in_map_iff in I as (q & E & Hq).
  - assert (X : existsb (fun p => String.eqb (p_id p) (p_id row)
                    || same_pair (p_student_id row) (p_lecturer_id row) p) perms = true).
    { apply List.existsb_exists. exists q. split; [exact Hq|].
      rewrite E, String.eqb_refl. reflexivity. }
    congruence.
  - assert (X : existsb (fun p => String.eqb (p_id p) (p_id row)
                    || same_pair (p_student_id row) (p_lecturer_id row) p) perms = true).
    { apply List.existsb_exists. exists q. split; [exact Hq|].
      unfold pair_of in E. injection E as E1 E2. unfold same_pair.
      rewrite E1, E2, !String.eqb_refl. apply orb_true_r. }
    congruence.
Qed.

Lemma NoDup_snoc {A} (l : list A) (x : A) :
  List.NoDup l -> ~ In x l -> List.NoDup (l ++ [x]).
Proof.
  intros N I. apply NoDup_ListNoDup. apply NoDup_app. split; [apply NoDup_ListNoDup, N|].
  split.
  - intros y Hy Hx. apply list_elem_of_In in Hy. apply list_elem_of_singleton in Hx. subst.
    contradiction.
  - apply NoDup_singleton.
Qed.

Lemma find_app_none {A} (f : A -> bool) (l : list A) (x : A) :
  f x = false -> List.find f (l ++ [x]) = List.find f l.
Proof.
  intros H. induction l as [|y l IH]; simpl; [rewrite H; reflexivity|].
  destruct (f y); [reflexivity | exact IH].
Qed.

(** X15: [requestAccess] of the tracking controller answers 201, 400,
    403, 404, 409 or 500 and never throws; it never touches rooms, events
    or presence; the database changes only with a 201; no answer of
    [SELECT ... status = 'approved'] changes, so a request never grants
    access; unique ids and unique (student, lecturer) pairs stay unique;
    and a 201 means that the requester has a mahasiswa profile, the
    lecturer has a dosen profile and a [users] row, no row for the pair
    existed, and exactly one row was appended: the generated id, the
    requester, the lecturer, 'pending'. *)
Theorem requestAccess_outcomes (http : Http) (profiles : Profiles) (user : User)
    (req_body : Js.Value) (w : World) :
  let result := requestAccess http profiles user req_body w in
  let w' := snd result in
  (exists response,
     fst result = Returned response
     /\ In (status response) [201; 400; 403; 404; 409; 500]%Z)
  /\ rooms w' = rooms w /\ emitted w' = emitted w /\ presence w' = presence w
  /\ (forall response, fst result = Returned response ->
        status response <> 201%Z -> db w' = db w)
  /\ (forall student lecturer,
        selectApprovedPermission (db w') student lecturer
        = selectApprovedPermission (db w) student lecturer)
  /\ (keys_unique (db w) -> keys_unique (db w'))
  /\ (forall response, fst result = Returned response ->
        status response = 201%Z ->
        exists lecturer_id l lecturer_name,
          Js.get req_body "lecturer_id" = Some lecturer_id
          /\ Js.bound (host http) lecturer_id = Some l
          /\ is_Some (mahasiswa profiles !! id user)
          /\ is_Some (dosen profiles !! l)
          /\ users (db w) !! l = Some lecturer_name
          /\ List.find (same_pair (id user) l) (tracking_permissions (db w)) = None
          /\ body response
             = RequestSubmitted "Access request submitted successfully"
                                (generateUUID http) lecturer_name
          /\ db w'
             = set_tracking_permissions
                 (fun t => t ++ [mkPermission (generateUUID http) (id user) l "pending"])
                 (db w)).
Proof.
  cbv zeta. unfold requestAccess, select, insertPermission. async_unfold.
  destruct (Js.get req_body "lecturer_id") as [lecturer_id|] eqn:G; cbn; [|refused].
  destruct (Js.falsy lecturer_id) eqn:F; cbn; [refused|].
  destruct (refuses http SelectMahasiswaProfile) eqn:Q1; cbn; [refused|].
  destruct (mahasiswa profiles !! id user) as [nim|] eqn:M; cbn; [|refused].
  destruct (refuses http SelectDosenWithName) eqn:Q2; cbn; [refused|].
  destruct (dosen_name profiles (db w) (Js.bound (host http) lecturer_id))
    as [lecturer_name|] eqn:D; cbn; [|refused].
  destruct (Js.bound (host http) lecturer_id) as [l|] eqn:B; cbn; [|refused].
  destruct (refuses http SelectPermissionPair) eqn:Q3; cbn; [refused|].
  destruct (List.find (same_pair (id user) l) (tracking_permissions (db w)))
    as [existing|] eqn:E; cbn; [refused|].
  destruct (refuses http InsertPermission) eqn:Q4; cbn; [refused|].
  match goal with |- context [existsb ?f ?l] => destruct (existsb f l) eqn:X end; cbn;
    [refused|].
  split; [eexists; split; [reflexivity|simpl; tauto]|].
  split; [reflexivity|]. split; [reflexivity|]. split; [reflexivity|].
  split; [intros response [= <-]; cbn; intros C; exfalso; apply C; reflexivity|].
  split.
  { intros student lecturer. unfold selectApprovedPermission. cbn.
    apply find_app_none. unfold approved_for. cbn. rewrite andb_false_r. reflexivity. }
  split.
  { intros [N1 N2].
    apply (existsb_false_fresh (mkPermission (generateUUID http) (id user) l "pending"))
      in X as [X1 X2]. cbn in X1, X2.
    unfold keys_unique. cbn. rewrite !List.map_app. cbn.
    split; apply NoDup_snoc; assumption. }
  intros response [= <-] _. exists lecturer_id, l, lecturer_name. cbn.
  unfold dosen_name in D. destruct (dosen profiles !! l) eqn:Dl; [|discriminate].
  repeat split; eauto.
Qed.

(** *** From request to room *)

Lemma requestAccess_created (http : Http) (profiles : Profiles) (user : User)
    (req_body : Js.Value) (w : World) (response : Response) :
  fst (requestAccess http profiles user req_body w) = Returned response ->
  status response = 201%Z ->
  exists lecturer_id l,
    Js.get req_body "lecturer_id" = Some lecturer_id
    /\ Js.falsy lecturer_id = false
    /\ Js.bound (host http) lecturer_id = Some l
    /\ List.find (same_pair (id user) l) (tracking_permissions (db w)) = None
    /\ ~ In (generateUUID http) (List.map p_id (tracking_permissions (db w)))
    /\ snd (requestAccess http profiles user req_body w)
       = set_db (set_tracking_permissions
                   (fun t => t ++ [mkPermission (generateUUID http) (id user) l "pending"])) w.
Proof.
  unfold requestAccess, select, insertPermission. async_unfold.
  destruct (Js.get req_body "lecturer_id") as [lecturer_id|] eqn:G; cbn;
    [|intros [= <-]; discriminate].
  destruct (Js.falsy lecturer_id) eqn:F; cbn; [intros [= <-]; discriminate|].
  destruct (refuses http SelectMahasiswaProfile) eqn:Q1; cbn; [intros [= <-]; discriminate|].
  destruct (mahasiswa profiles !! id user) as [nim|] eqn:M; cbn;
    [|intros [= <-]; discriminate].
  destruct (refuses http SelectDosenWithName) eqn:Q2; cbn; [intros [= <-]; discriminate|].
  destruct (dosen_name profiles (db w) (Js.bound (host http) lecturer_id))
    as [lecturer_name|] eqn:D; cbn; [|intros [= <-]; discriminate].
  destruct (Js.bound (host http) lecturer_id) as [l|] eqn:B; cbn;
    [|intros [= <-]; discriminate].
  destruct (refuses http SelectPermissionPair) eqn:Q3; cbn; [intros [= <-]; discriminate|].
  destruct (List.find (same_pair (id user) l) (tracking_permissions (db w)))
    as [existing|] eqn:E; cbn; [intros [= <-]; discriminate|].
  destruct (refuses http InsertPermission) eqn:Q4; cbn; [intros [= <-]; discriminate|].
  match goal with |- context [existsb ?f ?l] => destruct (existsb f l) eqn:X end; cbn;
    [intros [= <-]; discriminate|].
  intros _ _. exists lecturer_id, l.
  apply (existsb_false_fresh (mkPermission (generateUUID http) (id user) l "pending"))
    in X as [X1 _].
  repeat split; auto.
Qed.

Lemma no_pair_no_approval (perms : list PermissionRow) (studentId l : string) :
  List.find (same_pair studentId l) perms = None ->
  List.find (approved_for studentId (Some l)) perms = None.
Proof.
  induction perms as [|p ps IH]; [reflexivity|]. simpl.
  unfold same_pair at 1, approved_for at 1.
  destruct (String.eqb (p_student_id p) studentId), (String.eqb (p_lecturer_id p) l);
    simpl; try discriminate; exact IH.
Qed.

Lemma find_fresh_id (perms : list PermissionRow) (row : PermissionRow) :
  ~ In (p_id row) (List.map p_id perms) ->
  List.find (fun p => String.eqb (p_id p) (p_id row)) (perms ++ [row]) = Some row.
Proof.
  induction perms as [|p ps IH]; simpl; intros N.
  - rewrite String.eqb_refl. reflexivity.
  - destruct (String.eqb_spec (p_id p) (p_id row)) as [E|_]; [exfalso; apply N; auto|].
    apply IH. intros I. apply N. right. exact I.
Qed.

Lemma find_is_Some {A} (f : A -> bool) (l : list A) (x : A) :
  In x l -> f x = true -> is_Some (List.find f l).
Proof.
  intros I H. destruct (List.find f l) eqn:E; [eauto|].
  pose proof (List.find_none _ _ E x I). congruence.
Qed.

Lemma handleRequest_granted (env : Env) (lecturerId k a : string) (p : PermissionRow)
    (w : World) :
  healthy env ->
  k <> "" ->
  a = "approved" \/ a = "rejected" ->
  selectPermissionById (db w) k = Some p ->
  (p_lecturer_id p = lecturerId ->
   fst (handleRequest env lecturerId (Js.Str k) (Js.Str a) w) = Returned 200%Z
   /\ db (run (handleRequest env lecturerId (Js.Str k) (Js.Str a)) w)
      = updatePermissionStatus a k (db w))
  /\ (p_lecturer_id p <> lecturerId ->
      fst (handleRequest env lecturerId (Js.Str k) (Js.Str a) w) = Returned 403%Z
      /\ db (run (handleRequest env lecturerId (Js.Str k) (Js.Str a)) w) = db w).
Proof.
  intros H K A S. unfold handleRequest. async_unfold. cbn.
  destruct (String.eqb_spec k "") as [E|_]; [contradiction|].
  assert (V : String.eqb a "" || false = false) by (destruct A as [-> | ->]; reflexivity).
  assert (V' : String.eqb a "approved" || String.eqb a "rejected" = true)
    by (destruct A as [-> | ->]; reflexivity).
  cbn. destruct (String.eqb a ""); [discriminate|]. cbn. rewrite V'. cbn.
  rewrite !H. cbn. rewrite S. cbn.
  destruct (String.eqb_spec (p_lecturer_id p) lecturerId) as [L|L]; cbn.
  - split; [auto | contradiction].
  - split; [contradiction | auto].
Qed.

Lemma find_map_none {A} (f : A -> bool) (g : A -> A) (l : list A) :
  (forall x, In x l -> f (g x) = false) -> List.find f (List.map g l) = None.
Proof.
  induction l as [|x l IH]; intros H; [reflexivity|]. simpl.
  rewrite (H x) by (left; reflexivity). apply IH. intros y Hy. apply H. right. exact Hy.
Qed.

(** X16: from request to room.  With a database that rejects nothing and
    a generated id that is not empty, after a mahasiswa's request was
    answered 201: joining the lecturer's room is still denied; another
    dosen who handles the request gets 403 and changes nothing; after
    the lecturer rejects it joining is still denied; the lecturer's
    approval is answered 200, and after it the join puts the socket in
    the lecturer's room. *)
Theorem request_approve_join (env : Env) (http : Http) (profiles : Profiles)
    (student : User) (req_body data : Js.Value) (socketId : string)
    (response : Response) (w : World) :
  healthy env ->
  host http = Engine.host env ->
  generateUUID http <> "" ->
  role student = "mahasiswa" ->
  fst (requestAccess http profiles student req_body w) = Returned response ->
  status response = 201%Z ->
  Js.alias data "dosenId" "dosen_id" = Js.get req_body "lecturer_id" ->
  let requested := run (requestAccess http profiles student req_body) w in
  let permission_id := Js.Str (generateUUID http) in
  let join := handleJoinDosenRoom env socketId student data in
  exists lecturer_id l,
    Js.get req_body "lecturer_id" = Some lecturer_id
    /\ Js.bound (Engine.host env) lecturer_id = Some l
    /\ rooms (run join requested) = rooms w
    /\ emitted (run join requested) = emitted w ++ [(ToSocket socketId, error access_denied)]
    /\ (forall other,
          other <> l ->
          fst (handleRequest env other permission_id (Js.Str "approved") requested)
          = Returned 403%Z
          /\ db (run (handleRequest env other permission_id (Js.Str "approved")) requested)
             = db requested)
    /\ rooms (run join (run (handleRequest env l permission_id (Js.Str "rejected"))
                            requested)) = rooms w
    /\ fst (handleRequest env l permission_id (Js.Str "approved") requested)
       = Returned 200%Z
    /\ socketId
       ∈ sockets_or_new
           (rooms (run join (run (handleRequest env l permission_id (Js.Str "approved"))
                                 requested)))
           (room_of (Js.toString (Engine.host env) lecturer_id)).
Proof.
  intros H Hh U R Q S A requested permission_id join.
  destruct (requestAccess_created http profiles student req_body w response Q S)
    as (lecturer_id & l & G & F & B & P & I & W).
  rewrite Hh in B. rewrite G in A.
  set (row := mkPermission (generateUUID http) (id student) l "pending").
  assert (Dr : db requested
               = set_tracking_permissions (fun t => t ++ [row]) (db w)).
  { unfold requested, run. rewrite W. reflexivity. }
  assert (Rr : rooms requested = rooms w /\ emitted requested = emitted w).
  { unfold requested, run. rewrite W. split; reflexivity. }
  destruct Rr as [Rr Er].
  assert (Sr : selectPermissionById (db requested) (generateUUID http) = Some row).
  { rewrite Dr. unfold selectPermissionById. cbn. apply (find_fresh_id _ row). exact I. }
  assert (N : selectApprovedPermission (db requested) (id student)
                (Js.bound (Engine.host env) lecturer_id) = None).
  { rewrite B, Dr. unfold selectApprovedPermission. cbn.
    rewrite find_app_none; [apply no_pair_no_approval, P|].
    unfold approved_for. cbn. rewrite andb_false_r. reflexivity. }
  exists lecturer_id, l. split; [exact G|]. split; [exact B|].
  destruct (join_denied env socketId student data lecturer_id requested R A F (H _) N)
    as [J1 J2].
  split; [unfold join; rewrite J1; exact Rr|].
  split; [unfold join; rewrite J2, Er; reflexivity|].
  split.
  { intros other O.
    apply (handleRequest_granted env other (generateUUID http) "approved" row requested
             H U (or_introl eq_refl) Sr).
    cbn. congruence. }
  destruct (handleRequest_granted env l (generateUUID http) "rejected" row requested
              H U (or_intror eq_refl) Sr) as [[_ D1] _]; [reflexivity|].
  destruct (handleRequest_granted env l (generateUUID http) "approved" row requested
              H U (or_introl eq_refl) Sr) as [[C2 D2] _]; [reflexivity|].
  split.
  { set (rejected := run (handleRequest env l permission_id (Js.Str "rejected")) requested).
    assert (N' : selectApprovedPermission (db rejected) (id student)
                   (Js.bound (Engine.host env) lecturer_id) = None).
    { unfold rejected, permission_id. rewrite B, D1, Dr.
      unfold selectApprovedPermission, updatePermissionStatus. cbn.
      apply find_map_none. intros x Hx.
      assert (X : approved_for (id student) (Some l) x = false).
      { apply in_app_or in Hx as [Hx|[<-|[]]].
        - pose proof (List.find_none _ _ P x Hx) as Z. unfold same_pair in Z.
          unfold approved_for. rewrite Z. reflexivity.
        - unfold approved_for. cbn. apply andb_false_r. }
      destruct (String.eqb (p_id x) (generateUUID http)); [|exact X].
      unfold approved_for. cbn. apply andb_false_r. }
    destruct (join_denied env socketId student data lecturer_id rejected R A F (H _) N')
      as [J1' _].
    unfold join. rewrite J1'. unfold rejected. rewrite handleRequest_rooms. exact Rr. }
  split; [exact C2|].
  set (approved := run (handleRequest env l permission_id (Js.Str "approved")) requested).
  assert (Y : is_Some (selectApprovedPermission (db approved) (id student)
                         (Js.bound (Engine.host env) lecturer_id))).
  { unfold approved, permission_id. rewrite B, D2, Dr.
    unfold selectApprovedPermission, updatePermissionStatus. cbn.
    apply (find_is_Some _ _ (mkPermission (generateUUID http) (id student) l "approved")).
    - apply List.in_map_iff. exists row. split.
      + cbn. rewrite String.eqb_refl. reflexivity.
      + apply in_or_app. right. left. reflexivity.
    - unfold approved_for. cbn. rewrite !String.eqb_refl. reflexivity. }
  destruct Y as [p Y].
  apply (join_granted env socketId student data lecturer_id p approved R A F (H _) Y).
Qed.

(** The student of [open_db] asks for access to the lecturer. *)
Lemma request_approve_join_witness :
  exists lecturer_id l,
    Js.get (request_body (Js.Str "dosen-1")) "lecturer_id" = Some lecturer_id
    /\ Js.bound (Engine.host (env_at noon)) lecturer_id = Some l
    /\ fst (handleRequest (env_at noon) l (Js.Str (generateUUID campus_http))
              (Js.Str "approved")
              (run (requestAccess campus_http campus_profiles student
                      (request_body (Js.Str "dosen-1"))) (boot open_db)))
       = Returned 200%Z.
Proof.
  destruct (request_approve_join (env_at noon) campus_http campus_profiles student
              (request_body (Js.Str "dosen-1")) (join_payload (Js.Str "dosen-1")) "s9"
              (mkResponse 201
                 (RequestSubmitted "Access request submitted successfully"
                    "7c9e6679-7425-40de-944b-e07fc1f90ae7" "Dosen Satu"))
              (boot open_db))
    as (lecturer_id & l & G & B & _ & _ & _ & _ & A & _).
  - intros s. reflexivity.
  - reflexivity.
  - discriminate.
  - reflexivity.
  - vm_compute. reflexivity.
  - reflexivity.
  - reflexivity.
  - exists lecturer_id, l. split; [exact G|]. split; [exact B | exact A].
Defined.

(** *** The location history *)

Lemma emptyDays_lookup (d : Z) :
  emptyDays !! d = if decide (0 <= d <= 6)%Z then Some [] else None.
Proof.
  unfold emptyDays. cbn.
  repeat match goal with
         | |- <[?k := _]> _ !! d = _ =>
             destruct (decide (d = k)) as [->|?];
             [rewrite lookup_insert_eq; reflexivity | rewrite lookup_insert_ne by congruence]
         end.
  rewrite lookup_empty. case_decide; [lia | reflexivity].
Qed.

Lemma groupByDay_spec (rows : list HistoryRow) :
  forall m m',
    groupByDay m rows = Some m' ->
    (forall d, m' !! d
               = (fun logs => logs ++ List.map log_of
                                (List.filter (fun r => Z.eqb (h_day_of_week r) d) rows))
                 <$> m !! d)
    /\ Forall (fun r => is_Some (m !! h_day_of_week r)) rows.
Proof.
  induction rows as [|r rest IH]; intros m m'; cbn [groupByDay].
  - intros [= <-]. split; [|constructor]. intros d.
    destruct (m !! d); simpl; [rewrite app_nil_r|]; reflexivity.
  - unfold pushLog. destruct (m !! h_day_of_week r) as [logs|] eqn:E; [|discriminate].
    intros G. apply IH in G as [G1 G2]. split.
    + intros d. rewrite G1. cbn [List.filter].
      destruct (Z.eqb_spec (h_day_of_week r) d) as [<-|N].
      * rewrite lookup_insert_eq, E. cbn. rewrite <- app_assoc. reflexivity.
      * rewrite lookup_insert_ne by congruence. reflexivity.
    + constructor; [rewrite E; eauto|].
      eapply Forall_impl; [exact G2|]. intros x. simpl.
      destruct (decide (h_day_of_week r = h_day_of_week x)) as [Ex|N].
      * rewrite <- Ex, E. eauto.
      * rewrite lookup_insert_ne by congruence. auto.
Qed.

Lemma groupByDay_total (rows : list HistoryRow) :
  forall m, Forall (fun r => is_Some (m !! h_day_of_week r)) rows ->
            is_Some (groupByDay m rows).
Proof.
  induction rows as [|r rest IH]; intros m F; cbn [groupByDay]; [eauto|].
  inversion F as [|? ? [logs E] F']; subst. unfold pushLog. rewrite E.
  apply IH. eapply Forall_impl; [exact F'|]. intros x [y Y]. simpl in *.
  destruct (decide (h_day_of_week r = h_day_of_week x)) as [Ex|N].
  - rewrite <- Ex, lookup_insert_eq. eauto.
  - rewrite lookup_insert_ne by congruence. eauto.
Qed.

#[local] Instance history_order_total : Total history_order.
Proof. intros a b. unfold history_order. lia. Qed.

#[local] Instance history_order_trans : Transitive history_order.
Proof. intros a b c. unfold history_order. lia. Qed.

Lemma filter_Permutation' {A} (f : A -> bool) (l l' : list A) :
  Permutation l l' -> Permutation (List.filter f l) (List.filter f l').
Proof.
  induction 1; simpl.
  - constructor.
  - destruct (f x); [constructor|]; assumption.
  - destruct (f x), (f y); try reflexivity. constructor.
  - etransitivity; eassumption.
Qed.

Lemma filter_StronglySorted {A} (R : A -> A -> Prop) (f : A -> bool) (l : list A) :
  StronglySorted R l -> StronglySorted R (List.filter f l).
Proof.
  induction 1 as [|x l S IH F]; simpl; [constructor|].
  destruct (f x); [|exact IH]. constructor; [exact IH|].
  apply List.Forall_forall. intros y Hy. apply List.filter_In in Hy as [Hy _].
  rewrite List.Forall_forall in F. apply F, Hy.
Qed.

Lemma filter_filter' {A} (f g : A -> bool) (l : list A) :
  List.filter f (List.filter g l) = List.filter (fun x => g x && f x) l.
Proof.
  induction l as [|x l IH]; simpl; [reflexivity|].
  destruct (g x); simpl; [destruct (f x)|]; rewrite ?IH; reflexivity.
Qed.

Lemma day_logs_sorted (d : Z) (rows : list HistoryRow) :
  StronglySorted history_order rows ->
  StronglySorted newest_first
    (List.map log_of (List.filter (fun r => Z.eqb (h_day_of_week r) d) rows)).
Proof.
  induction 1 as [|x l S IH F]; simpl; [constructor|].
  destruct (Z.eqb_spec (h_day_of_week x) d) as [E|_]; [|exact IH].
  simpl. constructor; [exact IH|].
  apply List.Forall_forall. intros y Hy. apply List.in_map_iff in Hy as (r & <- & Hr).
  apply List.filter_In in Hr as [Hr Dr]. apply Z.eqb_eq in Dr.
  rewrite List.Forall_forall in F. specialize (F r Hr).
  unfold history_order in F. unfold newest_first, log_of. cbn. lia.
Qed.

Lemma selectHistory_day (d : Db) (dosenId : string) (day : Z) :
  Permutation
    (List.map log_of (List.filter (fun r => Z.eqb (h_day_of_week r) day)
                                  (selectHistory d (Some dosenId))))
    (List.map log_of (rows_of_day dosenId day (location_history d)))
  /\ StronglySorted newest_first
       (List.map log_of (List.filter (fun r => Z.eqb (h_day_of_week r) day)
                                     (selectHistory d (Some dosenId)))).
Proof.
  unfold selectHistory. split.
  - apply Permutation_map. unfold rows_of_day. rewrite <- filter_filter'.
    apply filter_Permutation'. apply merge_sort_Permutation.
  - apply day_logs_sorted. apply StronglySorted_merge_sort; apply _.
Qed.

(** What [respondHistory] answers. *)
Lemma respondHistory_cases (http : Http) (dosenId : Js.Value) (key : string)
    (dosenName : string) (w : World) :
  snd (respondHistory http dosenId (Some key) dosenName w) = w
  /\ ((exists e, fst (respondHistory http dosenId (Some key) dosenName w) = Thrown e)
      \/ exists history,
           fst (respondHistory http dosenId (Some key) dosenName w)
           = Returned (mkResponse 200 (LocationHistory dosenId dosenName history))
           /\ refuses http SelectHistory = None
           /\ List.map day_of_week history = [0; 1; 2; 3; 4; 5; 6]%Z
           /\ List.map day_name history = dayNames
           /\ (forall entry,
                 In entry history ->
                 Permutation (logs entry)
                   (List.map log_of (rows_of_day key (day_of_week entry) (location_history (db w))))
                 /\ StronglySorted newest_first (logs entry))
           /\ (forall r, In r (location_history (db w)) -> h_dosen_id r = key ->
                 (0 <= h_day_of_week r <= 6)%Z)).
Proof.
  unfold respondHistory, select. async_unfold.
  destruct (refuses http SelectHistory) eqn:Q; cbv beta iota;
    [split; [reflexivity|left; eauto]|].
  destruct (groupByDay emptyDays (selectHistory (db w) (Some key))) as [m|] eqn:G;
    cbn [fst snd]; [|split; [reflexivity|left; eauto]].
  split; [reflexivity|]. right. eexists. split; [reflexivity|].
  apply groupByDay_spec in G as [G1 G2].
  split; [reflexivity|]. split; [reflexivity|]. split; [reflexivity|]. split.
  - assert (L : forall day, (0 <= day <= 6)%Z ->
               m !!! day
               = List.map log_of (List.filter (fun r => Z.eqb (h_day_of_week r) day)
                                              (selectHistory (db w) (Some key)))).
    { intros day Hd. unfold lookup_total, map_lookup_total. rewrite G1, emptyDays_lookup.
      case_decide; [reflexivity | contradiction]. }
    intros entry He. unfold formatHistory in He. apply List.in_map_iff in He
      as (day & <- & Hk). cbn.
    rewrite L; [apply selectHistory_day|].
    simpl in Hk. lia.
  - intros r Hr Kr.
    assert (I : In r (selectHistory (db w) (Some key))).
    { unfold selectHistory.
      apply (Permutation_in r (Permutation_sym (merge_sort_Permutation history_order _))).
      apply List.filter_In. split; [exact Hr|]. apply String.eqb_eq, Kr. }
    rewrite List.Forall_forall in G2. specialize (G2 r I). rewrite emptyDays_lookup in G2.
    case_decide; [assumption | destruct G2; discriminate].
Qed.

Lemma no_lecturer_no_approval (d : Db) (studentId : string) :
  selectApprovedPermission d studentId None = None.
Proof.
  unfold selectApprovedPermission. induction (tracking_permissions d) as [|p ps IH];
    [reflexivity|]. simpl. unfold approved_for at 1. rewrite andb_false_r. exact IH.
Qed.

(** X17: [getLocationHistory] of the tracking controller changes no
    table, room, event or presence entry and answers 200, 400, 403, 404
    or 500.  A 200 goes to a dosen, for the dosen's own id and token
    name, or to a mahasiswa for whom the permissions table holds a row
    with the mahasiswa as student, the requested dosen as lecturer and
    the status 'approved', the requested dosen having a dosen profile and
    a [users] row; any other role gets 403.
    The history of a 200 has the seven days 0..6 in order with the names
    Minggu..Sabtu; the logs of each day are the rows of that dosen and
    that day of the week, all of them and no others, newest first; and
    a 200 means no row of that dosen has a day outside 0..6. *)
Theorem getLocationHistory_answers (http : Http) (profiles : Profiles) (user : User)
    (dosen_id : Js.Value) (w : World) :
  let result := getLocationHistory http profiles user dosen_id w in
  db (snd result) = db w /\ rooms (snd result) = rooms w
  /\ emitted (snd result) = emitted w /\ presence (snd result) = presence w
  /\ exists response,
       fst result = Returned response
       /\ In (status response) [200; 400; 403; 404; 500]%Z
       /\ (status response = 200%Z ->
           exists key dosenId dosenName history,
             body response = LocationHistory dosenId dosenName history
             /\ history_subject http profiles user dosen_id (db w) key dosenId dosenName
             /\ List.map day_of_week history = [0; 1; 2; 3; 4; 5; 6]%Z
             /\ List.map day_name history = dayNames
             /\ (forall entry,
                   In entry history ->
                   Permutation (logs entry)
                     (List.map log_of (rows_of_day key (day_of_week entry) (location_history (db w))))
                   /\ StronglySorted newest_first (logs entry))
             /\ (forall r, In r (location_history (db w)) -> h_dosen_id r = key ->
                   (0 <= h_day_of_week r <= 6)%Z)).
Proof.
  cbv zeta. unfold getLocationHistory, select. async_unfold.
  assert (T : forall dosenId key dosenName,
            history_subject http profiles user dosen_id (db w) key dosenId dosenName ->
            let result :=
              match respondHistory http dosenId (Some key) dosenName w with
              | (Returned a, w') => (Returned a, w')
              | (Thrown e, w') =>
                  (Returned (mkResponse 500 (Failure "Internal server error")),
                   console_error ("Get location history error: " ++ e) w')
              end in
            db (snd result) = db w /\ rooms (snd result) = rooms w
            /\ emitted (snd result) = emitted w /\ presence (snd result) = presence w
            /\ exists response,
                 fst result = Returned response
                 /\ In (status response) [200; 400; 403; 404; 500]%Z
                 /\ (status response = 200%Z ->
                     exists key dosenId dosenName history,
                       body response = LocationHistory dosenId dosenName history
                       /\ history_subject http profiles user dosen_id (db w) key dosenId
                                          dosenName
                       /\ List.map day_of_week history = [0; 1; 2; 3; 4; 5; 6]%Z
                       /\ List.map day_name history = dayNames
                       /\ (forall entry,
                             In entry history ->
                             Permutation (logs entry)
                               (List.map log_of
                                  (rows_of_day key (day_of_week entry) (location_history (db w))))
                             /\ StronglySorted newest_first (logs entry))
                       /\ (forall r, In r (location_history (db w)) -> h_dosen_id r = key ->
                             (0 <= h_day_of_week r <= 6)%Z))).
  { intros dosenId key dosenName Hs.
    destruct (respondHistory_cases http dosenId key dosenName w)
      as [Sw [[e Fe]|(history & Fh & _ & H1 & H2 & H3 & H4)]];
      destruct (respondHistory http dosenId (Some key) dosenName w) as [o w1];
      cbn in Sw, Fe || cbn in Sw, Fh; subst; cbn.
    - repeat split; auto. eexists. split; [reflexivity|]. split; [simpl; tauto|].
      cbn. discriminate.
    - repeat split; auto. eexists. split; [reflexivity|]. split; [simpl; tauto|].
      intros _. exists key, dosenId, dosenName, history. cbn.
      split; [reflexivity|]. split; [exact Hs|]. split; [exact H1|]. split; [exact H2|].
      split; [exact H3 | exact H4]. }
  destruct (String.eqb_spec (role user) "dosen") as [Rd|Rd].
  { apply T. left. repeat split; auto. }
  destruct (String.eqb_spec (role user) "mahasiswa") as [Rm|Rm]; [|plain].
  destruct (Js.falsy dosen_id) eqn:F; [plain|].
  destruct (refuses http SelectApprovedPermission) eqn:Q1; [plain|].
  cbv beta iota.
  destruct (Js.bound (host http) dosen_id) as [key|] eqn:B;
    [|rewrite no_lecturer_no_approval; plain].
  destruct (selectApprovedPermission (db w) (id user) (Some key)) as [p|] eqn:P; [|plain].
  destruct (refuses http SelectDosenName) eqn:Q2; [plain|].
  cbv beta iota.
  destruct (dosen_name profiles (db w) (Some key)) as [dosenName|] eqn:D; [|plain].
  apply T. right.
  apply selectApprovedPermission_some in P as (I & P1 & [= P2] & P3).
  unfold dosen_name in D. destruct (dosen profiles !! key) as [nidn|] eqn:Dk; [|discriminate].
  repeat split; eauto.
Qed.

(** *** The cards of the allowed dosen *)

(** X18: the callback of [getAllowedDosen].  It never throws and changes
    no table, room, event or presence entry; id, name and nidn are those
    of the row; [is_online] is the answer of the status getter, false
    while none is set.  A row without coordinates gives null
    coordinates, 'Lokasi tidak tersedia' and sends no statement.  A row
    with coordinates gives them back, with the zone's name, only when a
    zone contains them, and the masked pair with 'Di Luar' otherwise
    (also when the geofence query is rejected).  Coordinates that were
    stored as display coordinates of a classification under the same
    zones are given back unchanged, with the same name if that was
    inside a zone. *)
Theorem processDosen_card (env : Env) (getOnlineStatus : option (World -> string -> bool))
    (dosen : ApprovedDosen) (w : World) :
  let result := processDosen env getOnlineStatus dosen w in
  exists card,
    fst result = Returned card
    /\ db (snd result) = db w /\ emitted (snd result) = emitted w
    /\ rooms (snd result) = rooms w /\ presence (snd result) = presence w
    /\ card_user_id card = ad_user_id dosen /\ card_name card = ad_name dosen
    /\ card_nidn card = ad_nidn dosen
    /\ card_is_online card
       = match getOnlineStatus with
         | Some getter => getter (snd result) (ad_user_id dosen)
         | None => false
         end
    /\ (ad_latitude dosen = None \/ ad_longitude dosen = None ->
        card_latitude card = None /\ card_longitude card = None
        /\ card_position_name card = "Lokasi tidak tersedia"
        /\ card_last_updated card = None
        /\ issued (snd result) = issued w)
    /\ (forall lat long,
          ad_latitude dosen = Some lat -> ad_longitude dosen = Some long ->
          card_last_updated card = ad_last_updated dosen
          /\ issued (snd result) = issued w ++ [SelectGeofences]
          /\ ((exists z,
                 Engine.rejects env SelectGeofences = None
                 /\ In z (geofences (db w))
                 /\ Geofence.within (Js.Math_sin (Engine.host env)) (Js.Math_cos (Engine.host env))
                      (Js.Math_atan2 (Engine.host env)) lat long z = true
                 /\ card_latitude card = Some lat /\ card_longitude card = Some long
                 /\ card_position_name card = Geofence.name z)
              \/ (card_latitude card = Some (-6.2088)%float
                  /\ card_longitude card = Some 106.8456%float
                  /\ card_position_name card = "Di Luar")))
    /\ (forall lat0 long0,
          ad_latitude dosen = Some (Geofence.displayLat (classified env w lat0 long0)) ->
          ad_longitude dosen = Some (Geofence.displayLong (classified env w lat0 long0)) ->
          card_latitude card = ad_latitude dosen
          /\ card_longitude card = ad_longitude dosen
          /\ (Geofence.isInside (classified env w lat0 long0) = true ->
              card_position_name card
              = Geofence.locationName (classified env w lat0 long0))).
Proof.
  cbv zeta. unfold processDosen, checkGeofence. async_unfold.
  destruct (ad_latitude dosen) as [lat|] eqn:La; cbn.
  2:{ eexists. split; [reflexivity|]. cbn. repeat split; auto; discriminate. }
  destruct (ad_longitude dosen) as [long|] eqn:Lo; cbn.
  2:{ eexists. split; [reflexivity|]. cbn. repeat split; auto; discriminate. }
  assert (K : forall rows,
            rows = match Engine.rejects env SelectGeofences with
                   | Some e => Geofence.Rejected e
                   | None => Geofence.Resolved (geofences (db w))
                   end ->
            let g := Geofence.checkGeofence (Js.Math_sin (Engine.host env))
                       (Js.Math_cos (Engine.host env)) (Js.Math_atan2 (Engine.host env))
                       rows lat long in
            ((exists z,
                Engine.rejects env SelectGeofences = None
                /\ In z (geofences (db w))
                /\ Geofence.within (Js.Math_sin (Engine.host env))
                     (Js.Math_cos (Engine.host env))
                     (Js.Math_atan2 (Engine.host env)) lat long z = true
                /\ Some (Geofence.displayLat g) = Some lat
                /\ Some (Geofence.displayLong g) = Some long
                /\ Geofence.locationName g = Geofence.name z)
             \/ (Some (Geofence.displayLat g) = Some (-6.2088)%float
                 /\ Some (Geofence.displayLong g) = Some 106.8456%float
                 /\ Geofence.locationName g = "Di Luar"))
            /\ (forall lat0 long0,
                  Some lat = Some (Geofence.displayLat (classified env w lat0 long0)) ->
                  Some long = Some (Geofence.displayLong (classified env w lat0 long0)) ->
                  Some (Geofence.displayLat g) = Some lat
                  /\ Some (Geofence.displayLong g) = Some long
                  /\ (Geofence.isInside (classified env w lat0 long0) = true ->
                      Geofence.locationName g
                      = Geofence.locationName (classified env w lat0 long0)))).
  { intros rows Hrows. cbv zeta. split.
    - destruct (checkGeofence_cases (Js.Math_sin (Engine.host env))
                  (Js.Math_cos (Engine.host env)) (Js.Math_atan2 (Engine.host env))
                  rows lat long) as [(zs & z & Hr & Hz & Hw & Hc)|(_ & Hc)];
        cbv zeta in Hc; rewrite Hc; cbn.
      + left. exists z. rewrite Hrows in Hr.
        destruct (Engine.rejects env SelectGeofences); [discriminate|].
        injection Hr as <-. repeat split; auto.
      + right. repeat split.
    - intros lat0 long0 [= ->] [= ->]. unfold classified. rewrite <- Hrows.
      destruct (checkGeofence_redisplay (Js.Math_sin (Engine.host env))
                  (Js.Math_cos (Engine.host env)) (Js.Math_atan2 (Engine.host env))
                  rows rows lat0 long0) as (A & B & C & _).
      cbv zeta in A, B, C. rewrite A, B. repeat split. intros I. rewrite (C I).
      reflexivity. }
  destruct (Engine.rejects env SelectGeofences) as [e|] eqn:Q; cbn;
    (eexists; split; [reflexivity|]; cbn;
     do 8 (split; [reflexivity|]);
     split; [intros [C|C]; discriminate|];
     split;
     [intros ? ? [= <-] [= <-]; split; [reflexivity|]; split; [reflexivity|];
      apply (K _ eq_refl)
     |apply (K _ eq_refl)]).
Qed.

End TrackingFacts.
